(** * The pages route module: setup, preview resolution and render orchestration

    A shallow embedding of [PagesRouteModule] from
    [packages/next/src/server/future/route-modules/pages/module.tsx]
    ([setup], [handle], [transform], [render]); of its base class
    [RouteModule] it keeps the [userland] module.

    JavaScript values are a small inductive type with objects as finite maps;
    [async]/[await] is sequential here, so the code is embedded in a monad
    of exceptions, a log of the calls that leave the module (user data
    functions, helpers, the React engine) and the one piece of shared
    mutable state the module reads back, whether the response was sent.
    Whatever lives outside [module.tsx] is a field of [Externals]. *)

From stdpp Require Import gmap strings list fin_maps pretty.

Set Warnings "-register-all".

(** ** JavaScript values *)

(** Numbers are the integral ones; a [Promise] is kept with the way it
    settles ([ok = true]: fulfilled with [v], otherwise rejected with [v]). *)
Inductive value :=
| VUndefined
| VNull
| VBool (b : bool)
| VNum (n : Z)
| VStr (s : string)
| VArr (l : list value)
| VObj (m : gmap string value)
| VPromise (ok : bool) (v : value).

Abbreviation obj := (gmap string value).

(** [!!v] *)
Definition truthy (v : value) : bool :=
  match v with
  | VUndefined | VNull => false
  | VBool b => b
  | VNum n => negb (n =? 0)%Z
  | VStr s => negb (String.eqb s "")
  | VArr _ | VObj _ | VPromise _ _ => true
  end.

(** [typeof v === 'object'] *)
Definition typeof_object (v : value) : bool :=
  match v with
  | VNull | VArr _ | VObj _ | VPromise _ _ => true
  | _ => false
  end.

(** [v instanceof Promise] *)
Definition instanceof_Promise (v : value) : bool :=
  match v with VPromise _ _ => true | _ => false end.

(** [o.k], with [undefined] for a missing key. *)
Definition get (o : obj) (k : string) : value := default VUndefined (o !! k).

(** [k in o] *)
Definition has (o : obj) (k : string) : bool := bool_decide (is_Some (o !! k)).

Definition index_keys (l : list value) : obj :=
  list_to_map (imap (λ i v, (pretty i, v)) l).

Fixpoint chars (s : string) : list value :=
  match s with
  | EmptyString => []
  | String c s' => VStr (String c EmptyString) :: chars s'
  end.

(** The own enumerable properties [Object.assign] and [Object.keys] see. *)
Definition own_props (v : value) : obj :=
  match v with
  | VObj m => m
  | VArr l => index_keys l
  | VStr s => index_keys (chars s)
  | _ => ∅
  end.

(** [Object.assign({}, a, b)]: later sources win. *)
Definition Object_assign2 (a b : value) : obj := own_props b ∪ own_props a.

(** [x === true || undefined] and [!!x || undefined] *)
Definition true_or_undefined (b : bool) : option bool :=
  if b then Some true else None.

(** ** Exceptions *)

(** One constructor per [throw new Error(...)] of [module.tsx], the
    arguments being the values interpolated into the message, and one
    for the error of [validateRevalidate]. *)
Inductive message :=
| SERVER_PROPS_EXPORT_ERROR (page : string)
| SSG_GET_INITIAL_PROPS_CONFLICT (page : string)
| SERVER_PROPS_GET_INIT_PROPS_CONFLICT (page : string)
| SERVER_PROPS_SSG_CONFLICT (page : string)
| ServerPropsOutputExport
| StaticPathsNonDynamic (page : string)
| StaticPathsWithoutStaticProps (page : string)
| StaticPathsMissing (page : string)
| GSSP_COMPONENT_MEMBER_ERROR (page method : string)
| NotAReactComponent (page : string)
| STATIC_STATUS_PAGE_GET_INITIAL_PROPS_ERROR (pathname : string)
| MixedNotFoundRedirect (pathname : string)
| NotFoundOn404
| RedirectDuringPrerender (url : string)
| IsrOutputExport
| InvalidStaticProps
| InvalidServerSideProps
| EdgeDocumentGetInitialProps
| DocumentHtmlMissing (displayName : string)
| InvalidRevalidate (received : value) (url : string).

(** What a [catch] can receive: an [Error] made by this module, the
    [TypeError] of the runtime, or any value thrown by userland code or by
    a helper. *)
Inductive exn :=
| Error (m : message)
| TypeError
| Thrown (v : value).

(** The configuration errors of [setup] about the three data-fetching
    methods being mixed. *)
Definition is_conflict_error (e : exn) : bool :=
  match e with
  | Error (SERVER_PROPS_EXPORT_ERROR _)
  | Error (SSG_GET_INITIAL_PROPS_CONFLICT _)
  | Error (SERVER_PROPS_GET_INIT_PROPS_CONFLICT _)
  | Error (SERVER_PROPS_SSG_CONFLICT _) => true
  | _ => false
  end.

(** ** The data of a request *)

(** [typeof revalidate] after [validateRevalidate]: [number | false]. *)
Inductive Revalidate :=
| RevalidateFalse
| RevalidateSeconds (n : Z).

Record RenderResultMetadata := {
  pageData : option obj;
  revalidate : option Revalidate;
  devOnlyCacheBusterQueryString : string;
  isNotFound : bool;   (* only ever assigned [true]; [false] is unset *)
  isRedirect : bool;
}.

(** [new RenderResult(response, metadata)], [response] being [null] when
    no body is to be produced. *)
Record RenderResult := {
  response : option string;
  metadata : RenderResultMetadata;
}.

Definition Response := value.

(** The Node.js request, with the one piece of request meta read here. *)
Record IncomingMessage := {
  im_url : string;
  im_nextStrippedLocale : bool;
}.

Record NextRequest := {
  url : string;
  nextUrl_pathname : string;
  originalRequest : option IncomingMessage;   (* absent in the edge runtime *)
}.

(** The [req] handed to [getServerSideProps]: [context.req ?? { url, ... }]. *)
Inductive ServerSideRequest :=
| NodeRequest (r : IncomingMessage)
| WebRequest (r : NextRequest).

Record ServerRouter := {
  router_pathname : string;
  router_query : obj;
  router_asPath : string;
  router_basePath : string;
  router_isFallback : bool;
  router_locale : option string;
  router_isReady : bool;
  router_defaultLocale : option string;
  router_locales : option (list string);
  router_domainLocales : option value;
  router_isPreview : bool;
  router_isLocaleDomain : bool;
}.

Record AmpState := {
  ampFirst : bool;
  hasQuery : bool;
  hybrid : bool;
}.

(** [ctx], the context of [getInitialProps]. *)
Record NextPageContext := {
  ctx_err : option value;
  ctx_req : option IncomingMessage;
  ctx_res : bool;                      (* whether the response handle is passed *)
  ctx_pathname : string;
  ctx_query : obj;
  ctx_asPath : string;
  ctx_locale : option string;
  ctx_locales : option (list string);
  ctx_defaultLocale : option string;
}.

Record GetStaticPropsContext := {
  gsp_params : option obj;
  gsp_preview : option value;          (* [Some d]: [{ preview: true, previewData: d }] *)
  gsp_locales : option (list string);
  gsp_locale : option string;
  gsp_defaultLocale : option string;
}.

Record GetServerSidePropsContext := {
  gssp_req : ServerSideRequest;
  gssp_query : obj;
  gssp_resolvedUrl : string;
  gssp_params : option (option obj);   (* the key is only there on a dynamic route *)
  gssp_preview : option value;
  gssp_locales : option (list string);
  gssp_locale : option string;
  gssp_defaultLocale : option string;
}.

(** What a call that may write to the response comes back with: it threw
    or returned, and it may have ended the response meanwhile. *)
Record reply (A : Type) := Reply {
  settled : value + A;
  ends_response : bool;
}.
Arguments Reply {A} _ _.
Arguments settled {A} _.
Arguments ends_response {A} _.

(** ** The userland module, the components, the configuration *)

(** A page component or the [App]: which static methods it carries (a
    method is known by an identity, compared with [===]) and which names
    are [in] it. *)
Record NextComponentType := {
  getInitialProps : option nat;
  origGetInitialProps : option nat;
  members : gset string;
  isValidElementType : bool;           (* the verdict of [react-is] *)
  (* what calling it gives: it throws, or returns script elements, each
     known by its [props] *)
  unstable_scriptLoader : option (value + list obj);
}.

Record DocumentType := {
  doc_displayName : string;
  doc_getInitialProps : bool;
  doc_builtin : option string;         (* [Document[NEXT_BUILTIN_DOCUMENT]] *)
  doc_isValidElementType : bool;
}.

Inductive AmpConfig := AmpFalse | AmpTrue | AmpHybrid.

#[export] Instance AmpConfig_eq_dec : EqDecision AmpConfig.
Proof. solve_decision. Defined.

Record PageConfig := {
  config_amp : option AmpConfig;
  unstable_runtimeJS : option bool;
  unstable_JsPreload : option bool;
}.

Record PagesUserlandModule := {
  userland_default : NextComponentType;
  userland_config : option PageConfig;
  getStaticProps : option (GetStaticPropsContext → value + obj);
  getStaticPaths : option nat;
  getServerSideProps : option (GetServerSidePropsContext → reply obj);
}.

Record PagesComponents := {
  App : NextComponentType;
  Document : DocumentType;
}.

Record PagesRouteConfig := {
  output : option string;
  basePath : string;
  assetPrefix : string;
  i18n_domains : option value;
  amp_canonicalBase : option string;
  crossOrigin : option string;
  poweredByHeader : bool;
  generateEtags : bool;
}.

Record RouteRenderOptions := {
  dev : bool;
  buildId : string;
  disableOptimizedLoading : bool;
}.

Record PagesRouteDefinition := {
  definition_page : string;
  definition_pathname : string;
  definition_bundlePath : string;
  definition_filename : string;
}.

Record PagesRouteModule := {
  userland : PagesUserlandModule;
  definition : PagesRouteDefinition;
  config : PagesRouteConfig;
  isDynamic : bool;
  components : PagesComponents;
  amp : AmpConfig;
  renderOpts : RouteRenderOptions;
}.

(** A module id of the loadable manifest: [string | number]. *)
Inductive ModuleId :=
| IdString (s : string)
| IdNumber (n : Z).

#[export] Instance ModuleId_eq_dec : EqDecision ModuleId.
Proof. solve_decision. Defined.

Record ManifestItem := {
  item_id : ModuleId;
  item_files : list string;
}.

Record BuildManifest := {
  pages : gmap string (list string);
  lowPriorityFiles : list string;
}.

Record PagesManifests := {
  build : BuildManifest;
  reactLoadable : gmap string ManifestItem;
  prerender : option value;            (* the manifest's [preview] properties *)
}.

Record RenderOpts := {
  page : string;
  statusCode : Z;
  ampPath : option string;
  customServer : option bool;
  distDir : option string;
  isDataReq : option bool;
  resolvedAsPath : option string;
  query : obj;
  resolvedUrl : string;
  err : option value;
  runtime : option string;
  runtimeConfig : option obj;
  locale : option string;
  locales : option (list string);
  defaultLocale : option string;
  isLocaleDomain : option bool;
}.

(** [PagesRouteHandlerContext], on top of [RouteModuleHandleContext]. *)
Record PagesRouteHandlerContext := {
  export : bool;
  params : option obj;
  manifests : PagesManifests;
  context_renderOpts : RenderOpts;
}.

Record PagesRouteHandlerRenderContext := {
  handler : PagesRouteHandlerContext;
  req : option IncomingMessage;
  isPreviewMode : bool;
  previewData : value;                 (* [PreviewData | undefined] *)
}.

(** ** The calls that leave the module *)

(** What the page tree handed to the React engine closes over. *)
Record PageTree := {
  tree_props : obj;
  tree_router : ServerRouter;
  tree_err : option value;
  tree_inAmpMode : bool;
  tree_dev : bool;
  tree_beforeInteractive : option (list obj);
}.

(** What rendering the page tree leaves in the collectors of [render]:
    [head], [scriptLoader], [reactLoadableModules] and the styled-jsx
    registry. *)
Record Collected := {
  collected_head : value;
  collected_scriptLoader : value;
  collected_modules : list string;
  collected_styles : value;
}.

(** The hydration payload. *)
Record NextData := {
  nd_props : obj;
  nd_page : string;
  nd_query : obj;
  nd_buildId : string;
  nd_assetPrefix : option string;
  nd_runtimeConfig : option obj;
  nd_nextExport : option bool;
  nd_autoExport : option bool;
  nd_isFallback : bool;
  nd_dynamicIds : option (list ModuleId);
  nd_err : option value;
  nd_gsp : option bool;
  nd_gssp : option bool;
  nd_customServer : option bool;
  nd_gip : option bool;
  nd_appGip : option bool;
  nd_locale : option string;
  nd_locales : option (list string);
  nd_defaultLocale : option string;
  nd_domainLocales : option value;
  nd_isPreview : option bool;
  nd_notFoundSrcPage : value;
}.

(** [htmlProps]; the fields that only forward a configuration entry to
    the document ([optimizeCss], [optimizeFonts], [nextScriptWorkers],
    [largePageDataBytes], [nextFontManifest], [strictNextHead]) are left
    with the configuration. *)
Record HtmlProps := {
  __NEXT_DATA__ : NextData;
  html_buildManifest : BuildManifest;
  html_dangerousAsPath : string;
  html_canonicalBase : string;
  html_ampPath : string;
  html_inAmpMode : bool;
  html_isDevelopment : bool;
  html_hybridAmp : bool;
  html_dynamicImports : list string;
  html_assetPrefix : string;
  html_unstable_runtimeJS : option bool;
  html_unstable_JsPreload : option bool;
  html_devOnlyCacheBusterQueryString : string;
  html_scriptLoader : value;
  html_locale : option string;
  html_disableOptimizedLoading : bool;
  html_head : value;
  html_headTags : list value;
  html_styles : value;
  html_crossOrigin : option string;
  html_nextConfigOutput : option string;
  html_runtime : option string;
}.

(** The initial stream [bodyResult] continues: the markup of
    [Document.getInitialProps] or the shell rendered here. *)
Inductive BodySource :=
| streamFromArray (chunks : list (option string))
| ShellStream (stream : string).

Inductive warning :=
| GetInitialPropsExport (page : string)
| ReservedUrlProp (pathname : string)
| MissingDocumentComponents (missing : list string).

(** What a run logs: a method of the module starting ([Run_...]), a
    warning, or a call out of the module with what it is given. *)
Inductive event :=
| Run_setup (page : string) (nextExport dev : bool)
| Run_render (request : NextRequest) (context : PagesRouteHandlerRenderContext)
| Run_transform (result : RenderResult) (isResSent isDataReq isPreviewMode : bool)
| logger_warn (w : warning)
| Call_tryGetPreviewData (req : IncomingMessage) (preview : value)
| Call_preloadAll
| Call_unstable_scriptLoader
| Call_App_getInitialProps (router : ServerRouter) (ctx : NextPageContext)
| Call_getStaticProps (c : GetStaticPropsContext)
| Call_getServerSideProps (c : GetServerSidePropsContext)
| Call_Document_getInitialProps (document : DocumentType) (t : PageTree)
| Call_renderToInitialStream (t : PageTree)
| Call_renderToString (document : DocumentType) (h : HtmlProps) (docProps : value)
| Call_continueFromInitialStream (b : BodySource) (suffix : option string)
| Call_postProcessHTML (pathname html : string).

(** Everything [module.tsx] imports and the process it runs in. *)
Record Externals := {
  NODE_ENV : string;
  NEXT_RUNTIME : option string;
  Date_now : Z;
  STATIC_PROPS_ID : string;
  SERVER_PROPS_ID : string;
  JSON_stringify : obj → string;
  isDynamicRoute : string → bool;
  isError : value → bool;
  isInAmpMode : AmpState → bool;
  normalizePagePath : string → string;
  denormalizePagePath : string → string;
  serializeError : bool → value → value;
  (* [undefined] in the edge runtime *)
  tryGetPreviewData : option (IncomingMessage → value → value + value);
  Loadable_preloadAll : value + unit;
  (* [loadGetInitialProps(App, { AppTree, Component, router, ctx })] *)
  App_getInitialProps : ServerRouter → NextPageContext → reply obj;
  validateGetStaticProps : obj → value + unit;
  validateGetServerSideProps : obj → value + unit;
  checkRedirectValues : obj → string → string → value + obj;
  isSerializableProps : string → string → value → value + bool;
  (* [loadGetInitialProps(Document, documentCtx)], [renderPage] included *)
  Document_getInitialProps : DocumentType → PageTree → reply (value * Collected);
  renderToInitialStream : PageTree → value + (string * Collected);
  (* the markup of the document and the sentinels it rendered *)
  renderToString : DocumentType → HtmlProps → value → value + (string * gset string);
  continueFromInitialStream : BodySource → option string → value + string;
  postProcessHTML : string → string → bool → bool → value + string;
  renderResultToResponse : RenderResult → bool → bool → bool → value + Response;
}.

(** ** The monad *)

Record out (A : Type) := Out {
  result : exn + A;
  log : list event;
  sent : bool;
}.
Arguments Out {A} _ _ _.
Arguments result {A} _.
Arguments log {A} _.
Arguments sent {A} _.

(** A computation starts from whether the response is already sent. *)
Definition M (A : Type) : Type := bool → out A.

Definition ret {A} (a : A) : M A := λ s, Out (inr a) [] s.

Definition throw {A} (e : exn) : M A := λ s, Out (inl e) [] s.

Definition bind {A B} (m : M A) (f : A → M B) : M B := λ s,
  let o := m s in
  match result o with
  | inl e => Out (inl e) (log o) (sent o)
  | inr a => let o' := f a (sent o) in Out (result o') (log o ++ log o') (sent o')
  end.

#[export] Instance M_ret : MRet M := @ret.
#[export] Instance M_bind : MBind M := λ A B f m, bind m f.

(** [try { m } catch (err) { h err }] *)
Definition try_catch {A} (m : M A) (h : exn → M A) : M A := λ s,
  let o := m s in
  match result o with
  | inl e => let o' := h e (sent o) in Out (result o') (log o ++ log o') (sent o')
  | inr _ => o
  end.

Definition emit (ev : event) : M unit := λ s, Out (inr tt) [ev] s.

(** [isResSent(res)] *)
Definition isResSent : M bool := λ s, Out (inr s) [] s.

(** [new MockedResponse()] *)
Definition new_MockedResponse : M unit := λ _, Out (inr tt) [] false.

Definition settle {A} (r : value + A) : M A :=
  match r with
  | inl v => throw (Thrown v)
  | inr a => ret a
  end.

(** A call out of the module that cannot reach the response. *)
Definition call {A} (ev : event) (r : value + A) : M A := emit ev ;; settle r.

(** What a callee without the response handle can do to the response. *)
Definition without_res {A} (passed : bool) (r : reply A) : reply A :=
  Reply (settled r) (ends_response r && passed).

(** A call out of the module with the response in its hands. *)
Definition call_with_res {A} (ev : event) (r : reply A) : M A := λ s,
  let o := call ev (settled r) s in
  Out (result o) (log o) (sent o || ends_response r).

Definition when (b : bool) (m : M unit) : M unit := if b then m else ret tt.

Fixpoint for_of {A} (l : list A) (body : A → M unit) : M unit :=
  match l with
  | [] => ret tt
  | x :: l' => body x ;; for_of l' body
  end.

(** An exception of the module's own making or of a modelled helper. *)
Definition settle_exn {A} (r : exn + A) : M A :=
  match r with
  | inl e => throw e
  | inr a => ret a
  end.

(** Where a block of [render] leaves off: it [return]ed the result, or
    the function goes on after it. *)
Inductive flow (A : Type) :=
| Return (r : RenderResult)
| Next (a : A).
Arguments Return {A} _.
Arguments Next {A} _.

(** Running a method on a response nobody wrote to yet. *)
Definition run {A} (m : M A) : out A := m false.

(** ** Strings and sets of the JavaScript library *)

Definition startsWith (s p : string) : bool := String.prefix p s.

Definition endsWith (s p : string) : bool :=
  bool_decide (String.length p ≤ String.length s) &&
  bool_decide (String.substring (String.length s - String.length p) (String.length p) s = p).

Definition includes (s sub : string) : bool :=
  if String.index 0 sub s is Some _ then true else false.

(** [const [a, b] = s.split(sep)] for a separator that is not empty. *)
Definition split_first_two (s sep : string) : string * option string :=
  match String.index 0 sep s with
  | None => (s, None)
  | Some i =>
      let from := i + String.length sep in
      let rest := String.substring from (String.length s - from) s in
      (String.substring 0 i s,
       Some (match String.index 0 sep rest with
             | None => rest
             | Some j => String.substring 0 j rest
             end))
  end.

(** [set.add(x)], the set kept in insertion order. *)
Definition Set_add {A} `{EqDecision A} (x : A) (s : list A) : list A :=
  if decide (x ∈ s) then s else s ++ [x].

(** ** Small readers *)

Definition defined {A} (o : option A) : bool := if o is Some _ then true else false.

(** [v.k] *)
Definition get_prop (v : value) (k : string) : value :=
  match v with
  | VObj m => get m k
  | _ => VUndefined
  end.

(** [typeof v === 'undefined'] *)
Definition is_undefined (v : value) : bool :=
  match v with
  | VUndefined => true
  | _ => false
  end.

(** [v !== false] *)
Definition is_not_false (v : value) : bool :=
  match v with
  | VBool false => false
  | _ => true
  end.

(** [v === s] for a string [s] *)
Definition is_string (v : value) (s : string) : bool :=
  match v with
  | VStr t => bool_decide (t = s)
  | _ => false
  end.

(** [s || fallback] on an optional string *)
Definition string_or (s : option string) (fallback : string) : string :=
  match s with
  | Some s => if bool_decide (s = "") then fallback else s
  | None => fallback
  end.

Definition revalidate_truthy (r : Revalidate) : bool :=
  match r with
  | RevalidateFalse => false
  | RevalidateSeconds n => negb (n =? 0)%Z
  end.

Definition set_isNotFound (md : RenderResultMetadata) : RenderResultMetadata :=
  {| pageData := pageData md; revalidate := revalidate md;
     devOnlyCacheBusterQueryString := devOnlyCacheBusterQueryString md;
     isNotFound := true; isRedirect := isRedirect md |}.

Definition set_isRedirect (md : RenderResultMetadata) : RenderResultMetadata :=
  {| pageData := pageData md; revalidate := revalidate md;
     devOnlyCacheBusterQueryString := devOnlyCacheBusterQueryString md;
     isNotFound := isNotFound md; isRedirect := true |}.

Definition set_revalidate (r : Revalidate) (md : RenderResultMetadata) : RenderResultMetadata :=
  {| pageData := pageData md; revalidate := Some r;
     devOnlyCacheBusterQueryString := devOnlyCacheBusterQueryString md;
     isNotFound := isNotFound md; isRedirect := isRedirect md |}.

(** [metadata.pageData = props] *)
Definition set_pageData (props : obj) (md : RenderResultMetadata) : RenderResultMetadata :=
  {| pageData := Some props; revalidate := revalidate md;
     devOnlyCacheBusterQueryString := devOnlyCacheBusterQueryString md;
     isNotFound := isNotFound md; isRedirect := isRedirect md |}.

(** [metadata.pageData] holds the [props] object itself, not a copy: once
    it is set, what is written to [props] shows in it. *)
Definition write_through (props : obj) (md : RenderResultMetadata) : RenderResultMetadata :=
  if pageData md is Some _ then set_pageData props md else md.

(** The [catch] around both user data functions: [if (isError(err) &&
    err.code === 'ENOENT') delete err.code], then [throw err]. *)
Definition remove_not_found_code (isError : value → bool) (err : exn) : exn :=
  match err with
  | Thrown (VObj m) =>
      if isError (VObj m) && is_string (get m "code") "ENOENT"
      then Thrown (VObj (delete "code" m))
      else err
  | _ => err
  end.

(** Modelled from the spec: [validateRevalidate] of
    [./helpers/validate-revalidate], which is not part of the sources. The
    spec has a [revalidate] value "validated to be either [false], a
    positive integer, or absent; invalid values fail the request"; an
    accepted value is reported as it is, an absent one as no revalidation. *)
Definition validateRevalidate (revalidate : value) (url : string) : exn + Revalidate :=
  match revalidate with
  | VBool false => inr RevalidateFalse
  | VUndefined => inr RevalidateFalse
  | VNum n =>
      if (0 <? n)%Z then inr (RevalidateSeconds n)
      else inl (Error (InvalidRevalidate revalidate url))
  | _ => inl (Error (InvalidRevalidate revalidate url))
  end.

(** ** [PagesRouteModule] *)

(** The constructor. *)
Definition new_PagesRouteModule (E : Externals) (renderOpts : RouteRenderOptions)
    (userland : PagesUserlandModule) (page : string) (components : PagesComponents)
    (config : PagesRouteConfig) : PagesRouteModule :=
  {| userland := userland;
     definition := {| definition_page := page; definition_pathname := "";
                      definition_bundlePath := ""; definition_filename := "" |};
     renderOpts := renderOpts;
     isDynamic := isDynamicRoute E page;
     components := components;
     config := config;
     amp := default AmpFalse (userland_config userland ≫= config_amp) |}.

Section PagesRouteModule.
Context (E : Externals) (this : PagesRouteModule).

(** The truthiness of the four exports [setup] and [render] look at. *)
Definition has_getServerSideProps : bool := defined (getServerSideProps (userland this)).
Definition has_getStaticProps : bool := defined (getStaticProps (userland this)).
Definition has_getStaticPaths : bool := defined (getStaticPaths (userland this)).
Definition has_getInitialProps : bool :=
  defined (getInitialProps (userland_default (userland this))).

Definition production : bool := bool_decide (NODE_ENV E = "production").
Definition edge : bool := bool_decide (NEXT_RUNTIME E = Some "edge").
Definition output_export : bool := bool_decide (output (config this) = Some "export").

(** [setup(page, nextExport, dev)]; an [undefined] flag behaves as [false]. *)
Definition setup (page : string) (nextExport dev : bool) : M unit :=
  emit (Run_setup page nextExport dev) ;;
  let Component := userland_default (userland this) in
  when (nextExport && has_getInitialProps &&
        (negb (bool_decide (page = "/_error")) ||
         negb (bool_decide (getInitialProps Component = origGetInitialProps Component))))
    (emit (logger_warn (GetInitialPropsExport page))) ;;
  when (nextExport && has_getServerSideProps)
    (throw (Error (SERVER_PROPS_EXPORT_ERROR page))) ;;
  when (has_getStaticProps && has_getInitialProps)
    (throw (Error (SSG_GET_INITIAL_PROPS_CONFLICT page))) ;;
  when (has_getServerSideProps && has_getInitialProps)
    (throw (Error (SERVER_PROPS_GET_INIT_PROPS_CONFLICT page))) ;;
  when (has_getServerSideProps && has_getStaticProps)
    (throw (Error (SERVER_PROPS_SSG_CONFLICT page))) ;;
  when (has_getServerSideProps && output_export)
    (throw (Error ServerPropsOutputExport)) ;;
  when (has_getStaticPaths && negb (isDynamic this))
    (throw (Error (StaticPathsNonDynamic page))) ;;
  when (has_getStaticPaths && negb has_getStaticProps)
    (throw (Error (StaticPathsWithoutStaticProps page))) ;;
  when (isDynamic this && has_getStaticProps && negb has_getStaticPaths)
    (throw (Error (StaticPathsMissing page))) ;;
  for_of ["getStaticProps"; "getStaticPaths"; "getServerSideProps"] (λ method,
    when (bool_decide (method ∈ members Component))
      (throw (Error (GSSP_COMPONENT_MEMBER_ERROR page method)))) ;;
  when dev (
    when (negb (isValidElementType Component))
      (throw (Error (NotAReactComponent page))) ;;
    when (negb (isValidElementType (App (components this))))
      (throw (Error (NotAReactComponent "/_app"))) ;;
    when (negb (doc_isValidElementType (Document (components this))))
      (throw (Error (NotAReactComponent "/_document"))) ;;
    for_of ["/404"; "/500"] (λ pathname,
      when (bool_decide (page = pathname) &&
            (has_getServerSideProps || has_getInitialProps))
        (throw (Error (STATIC_STATUS_PAGE_GET_INITIAL_PROPS_ERROR pathname))))).

(** [transform(request, result, context)] hands the result to
    [renderResultToResponse]. *)
Definition transform (request : NextRequest) (result : RenderResult)
    (isResSent isDataReq isPreviewMode : bool) : M Response :=
  call (Run_transform result isResSent isDataReq isPreviewMode)
    (renderResultToResponse E result isResSent isDataReq isPreviewMode).

(** *** The locals of [render] *)

Section Render.
Context (request : NextRequest) (context : PagesRouteHandlerRenderContext).

Let opts : RenderOpts := context_renderOpts (handler context).

Definition appHasDefaultGetInitialProps : bool :=
  bool_decide (getInitialProps (App (components this)) =
               origGetInitialProps (App (components this))).

Definition routerIsReady : bool :=
  has_getServerSideProps || has_getInitialProps ||
  (negb appHasDefaultGetInitialProps && has_getStaticProps).

Definition isAutoExport : bool :=
  negb has_getInitialProps && negb has_getStaticProps &&
  negb has_getServerSideProps && appHasDefaultGetInitialProps.

Definition pathname : string := nextUrl_pathname request.

Definition isFallback : bool := truthy (get (query opts) "__nextFallback").

Definition notFoundSrcPage : value := get (query opts) "__nextNotFoundSrcPage".

(** Whether the development-only rewrite of [query] and [asPath] applies. *)
Definition exporting_in_dev : bool :=
  dev (renderOpts this) && (isAutoExport || isFallback).

(** [query] as [render] goes on with it. *)
Definition render_query : obj :=
  if exporting_in_dev
  then (if truthy (get (query opts) "amp")
        then {[ "amp" := get (query opts) "amp" ]} else ∅)
  else query opts.

Definition asPath : string :=
  if exporting_in_dev
  then pathname +:+
       (if negb (isDynamic this) && endsWith (url request) "/" &&
           negb (bool_decide (pathname = "/"))
        then "/" else "")
  else string_or (resolvedAsPath opts) (url request).

Definition isPreview : bool := if isFallback then false else isPreviewMode context.

Definition render_previewData : value :=
  if isFallback then VUndefined else previewData context.

Definition router : ServerRouter :=
  {| router_pathname := pathname;
     router_query := render_query;
     router_asPath := asPath;
     router_basePath := basePath (config this);
     router_isFallback := isFallback;
     router_locale := locale opts;
     router_isReady := routerIsReady;
     router_defaultLocale := defaultLocale opts;
     router_locales := locales opts;
     router_domainLocales := i18n_domains (config this);
     router_isPreview := isPreview;
     router_isLocaleDomain := default false (isLocaleDomain opts) |}.

Definition ampState : AmpState :=
  {| ampFirst := bool_decide (userland_config (userland this) ≫= config_amp = Some AmpTrue);
     hasQuery := truthy (get render_query "amp");
     hybrid := bool_decide (userland_config (userland this) ≫= config_amp = Some AmpHybrid) |}.

Definition inAmpMode : bool := negb edge && isInAmpMode E ampState.

Definition ctx : NextPageContext :=
  {| ctx_err := err opts;
     ctx_req := if isAutoExport then None else req context;
     ctx_res := negb isAutoExport;
     ctx_pathname := pathname;
     ctx_query := render_query;
     ctx_asPath := asPath;
     ctx_locale := locale opts;
     ctx_locales := locales opts;
     ctx_defaultLocale := defaultLocale opts |}.

Definition nextExport : bool :=
  negb has_getStaticProps && (export (handler context) || exporting_in_dev).

Definition initial_metadata : RenderResultMetadata :=
  {| pageData := None;
     revalidate := None;
     devOnlyCacheBusterQueryString :=
       if dev (renderOpts this) then "?ts=" +:+ pretty (Date_now E) else "";
     isNotFound := false;
     isRedirect := false |}.

(** *** The [getStaticProps] block of [render] *)

Definition static_props_context : GetStaticPropsContext :=
  {| gsp_params := if isDynamic this then Some render_query else None;
     gsp_preview := if isPreview then Some render_previewData else None;
     gsp_locales := locales opts;
     gsp_locale := locale opts;
     gsp_defaultLocale := defaultLocale opts |}.

Definition render_getStaticProps (props : obj) (metadata : RenderResultMetadata)
    : M (flow (obj * RenderResultMetadata)) :=
  match getStaticProps (userland this) with
  | None => mret (Next (props, metadata))
  | Some getStaticProps =>
      let props := <[STATIC_PROPS_ID E := VBool true]> props in
      if isFallback then mret (Next (props, metadata)) else
      data ← try_catch
        (call (Call_getStaticProps static_props_context)
           (getStaticProps static_props_context))
        (λ err, throw (remove_not_found_code (isError E) err)) ;
      settle (validateGetStaticProps E data) ;;
      when (negb production && has data "notFound" && has data "redirect")
        (throw (Error (MixedNotFoundRedirect pathname))) ;;
      metadata ←
        (if has data "notFound" && truthy (get data "notFound")
         then when (bool_decide (pathname = "/404")) (throw (Error NotFoundOn404)) ;;
              mret (set_isNotFound metadata)
         else mret metadata) ;
      '(data, metadata) ←
        (if has data "redirect" && truthy (get data "redirect") &&
            typeof_object (get data "redirect")
         then data ← settle (checkRedirectValues E data (url request) "getStaticProps") ;
              when (export (handler context))
                (throw (Error (RedirectDuringPrerender (url request)))) ;;
              mret (data, set_isRedirect metadata)
         else mret (data, metadata)) ;
      metadata ←
        (if has data "revalidate"
         then r ← settle_exn (validateRevalidate (get data "revalidate") (url request)) ;
              when (revalidate_truthy r && output_export)
                (throw (Error IsrOutputExport)) ;;
              mret (set_revalidate r metadata)
         else mret metadata) ;
      (if (dev (renderOpts this) || export (handler context)) && has data "props"
       then ok ← settle (isSerializableProps E pathname "getStaticProps" (get data "props")) ;
            when (negb ok) (throw (Error InvalidStaticProps))
       else mret tt) ;;
      let props :=
        if has data "props" && truthy (get data "props")
        then <["pageProps" :=
                VObj (Object_assign2 (get props "pageProps") (get data "props"))]> props
        else props in
      let metadata := set_pageData props metadata in
      if isNotFound metadata
      then mret (Return {| response := None; metadata := metadata |})
      else mret (Next (props, metadata))
  end.

(** *** The [getServerSideProps] block of [render]

    The proxy around [res] only changes what writes to the response
    do once the function has resolved; such late writes are not
    part of the model, and the tracer around both data functions is
    transparent. *)

Definition server_side_props_context : GetServerSidePropsContext :=
  {| gssp_req := match req context with
                 | Some r => NodeRequest r
                 | None => WebRequest request
                 end;
     gssp_query := render_query;
     gssp_resolvedUrl := resolvedUrl opts;
     gssp_params := if isDynamic this then Some (params (handler context)) else None;
     gssp_preview := if is_not_false render_previewData
                     then Some render_previewData else None;
     gssp_locales := locales opts;
     gssp_locale := locale opts;
     gssp_defaultLocale := defaultLocale opts |}.

Definition render_getServerSideProps (props : obj) (metadata : RenderResultMetadata)
    : M (flow (obj * RenderResultMetadata)) :=
  match getServerSideProps (userland this) with
  | None => mret (Next (props, metadata))
  | Some getServerSideProps =>
      let props := <[SERVER_PROPS_ID E := VBool true]> props in
      let metadata := write_through props metadata in
      if isFallback then mret (Next (props, metadata)) else
      data ← try_catch
        (call_with_res (Call_getServerSideProps server_side_props_context)
           (getServerSideProps server_side_props_context))
        (λ err, throw (remove_not_found_code (isError E) err)) ;
      settle (validateGetServerSideProps E data) ;;
      if has data "notFound" && truthy (get data "notFound")
      then when (bool_decide (pathname = "/404")) (throw (Error NotFoundOn404)) ;;
           mret (Return {| response := None; metadata := set_isNotFound metadata |})
      else
      '(data, metadata) ←
        (if has data "redirect" && truthy (get data "redirect") &&
            typeof_object (get data "redirect")
         then data ← settle (checkRedirectValues E data (url request) "getServerSideProps") ;
              mret (data, set_isRedirect metadata)
         else mret (data, metadata)) ;
      data ←
        (if has data "props"
         then match get data "props" with
              | VPromise true v => mret (<["props" := v]> data)
              | VPromise false v => throw (Thrown v)
              | _ => mret data
              end
         else mret data) ;
      (if (dev (renderOpts this) || export (handler context)) && has data "props"
       then ok ← settle (isSerializableProps E pathname "getServerSideProps" (get data "props")) ;
            when (negb ok) (throw (Error InvalidServerSideProps))
       else mret tt) ;;
      let props :=
        if has data "props" && negb (is_undefined (get data "props"))
        then <["pageProps" :=
                VObj (Object_assign2 (get props "pageProps") (get data "props"))]> props
        else props in
      mret (Next (props, set_pageData props metadata))
  end.

(** *** The document *)

Definition filteredBuildManifest : BuildManifest :=
  let manifest := build (manifests (handler context)) in
  if isAutoExport && isDynamic this then
    let page := denormalizePagePath E (normalizePagePath E pathname) in
    match pages manifest !! page with
    | Some files =>
        {| pages :=
             <[page := files ++
                       List.filter (λ f, includes f "_buildManifest")
                         (lowPriorityFiles manifest)]> (pages manifest);
           lowPriorityFiles :=
             List.filter (λ f, negb (includes f "_buildManifest"))
               (lowPriorityFiles manifest) |}
    | None => manifest
    end
  else manifest.

(** [Component.unstable_scriptLoader().filter(...).map(...)] *)
Definition initialScripts : M (option (list obj)) :=
  match unstable_scriptLoader (userland_default (userland this)) with
  | None => mret None
  | Some loaded =>
      scripts ← call Call_unstable_scriptLoader loaded ;
      mret (Some (List.filter
                    (λ script, is_string (get script "strategy") "beforeInteractive")
                    scripts))
  end.

Definition page_tree (props : obj) (beforeInteractive : option (list obj)) : PageTree :=
  {| tree_props := props;
     tree_router := router;
     tree_err := ctx_err ctx;
     tree_inAmpMode := inAmpMode;
     tree_dev := dev (renderOpts this);
     tree_beforeInteractive := beforeInteractive |}.

(** What [renderDocument] returns, [bodyResult] being the initial
    stream it will continue. *)
Record DocumentResult := {
  result_Document : DocumentType;
  result_docProps : value;
  result_initial : string + string;   (* [docProps.html] or the shell stream *)
  result_head : value;
  result_headTags : list value;
  result_styles : value;
  result_collected : Collected;
}.

(** [renderDocument()]. The page tree is rendered by the engine, in
    [renderPage] under [Document.getInitialProps] or in [renderShell];
    an error raised on the way, that of [renderPage] about
    [router] and [Component] in the props included, is the thrown
    value of the call. *)
Definition renderDocument (tree : PageTree) : M (option DocumentResult) :=
  let Document0 := Document (components this) in
  Document ←
    (if edge && doc_getInitialProps Document0
     then match doc_builtin Document0 with
          | Some name =>
              mret {| doc_displayName := name; doc_getInitialProps := false;
                      doc_builtin := None; doc_isValidElementType := true |}
          | None => throw (Error EdgeDocumentGetInitialProps)
          end
     else mret Document0) ;
  let hasDocumentGetInitialProps := negb edge && doc_getInitialProps Document in
  if hasDocumentGetInitialProps then
    '(docProps, collected) ←
      call_with_res (Call_Document_getInitialProps Document tree)
        (without_res (ctx_res ctx) (Document_getInitialProps E Document tree)) ;
    sent ← isResSent ;
    if sent && has_getStaticProps then mret None else
    match truthy docProps, get_prop docProps "html" with
    | true, VStr html =>
        mret (Some {| result_Document := Document;
                      result_docProps := docProps;
                      result_initial := inl html;
                      result_head := get_prop docProps "head";
                      result_headTags := [];
                      result_styles := get_prop docProps "styles";
                      result_collected := collected |})
    | _, _ => throw (Error (DocumentHtmlMissing (doc_displayName Document)))
    end
  else
    '(stream, collected) ←
      call (Call_renderToInitialStream tree) (renderToInitialStream E tree) ;
    mret (Some {| result_Document := Document;
                  result_docProps := VUndefined;
                  result_initial := inr stream;
                  result_head := collected_head collected;
                  result_headTags := [];
                  result_styles := collected_styles collected;
                  result_collected := collected |}).

(** [documentResult.bodyResult(suffix)] *)
Definition bodyResult (documentResult : DocumentResult) (suffix : option string)
    : M string :=
  match result_initial documentResult with
  | inl html =>
      call (Call_continueFromInitialStream (streamFromArray [Some html; suffix]) None)
        (continueFromInitialStream E (streamFromArray [Some html; suffix]) None)
  | inr stream =>
      call (Call_continueFromInitialStream (ShellStream stream) suffix)
        (continueFromInitialStream E (ShellStream stream) suffix)
  end.

(** The ids and the files of the dynamic imports used by this render. *)
Definition dynamicImportsOf (reactLoadableModules : list string)
    : list ModuleId * list string :=
  fold_left
    (λ '(ids, files) moduleName,
       match reactLoadable (manifests (handler context)) !! moduleName with
       | Some manifestItem =>
           (Set_add (item_id manifestItem) ids,
            fold_left (λ files item, Set_add item files)
              (item_files manifestItem) files)
       | None => (ids, files)
       end)
    reactLoadableModules ([], []).

Definition canonicalBase : string :=
  let base := string_or (amp_canonicalBase (config this)) "" in
  match req context with
  | Some r =>
      if bool_decide (string_or (ampPath opts) "" = "") && im_nextStrippedLocale r
      then base +:+ "/" +:+ default "undefined" (locale opts)
      else base
  | None => base
  end.

Definition NEXT_DATA (props : obj) (dynamicImportsIds : list ModuleId) : NextData :=
  {| nd_props := props;
     nd_page := page opts;
     nd_query := render_query;
     nd_buildId := buildId (renderOpts this);
     nd_assetPrefix :=
       if bool_decide (assetPrefix (config this) = "") then None
       else Some (assetPrefix (config this));
     nd_runtimeConfig := runtimeConfig opts;
     nd_nextExport := true_or_undefined nextExport;
     nd_autoExport := true_or_undefined isAutoExport;
     nd_isFallback := isFallback;
     nd_dynamicIds :=
       if bool_decide (dynamicImportsIds = []) then None else Some dynamicImportsIds;
     nd_err :=
       match err opts with
       | Some e => if truthy e then Some (serializeError E (dev (renderOpts this)) e)
                   else None
       | None => None
       end;
     nd_gsp := true_or_undefined has_getStaticProps;
     nd_gssp := true_or_undefined has_getServerSideProps;
     nd_customServer := customServer opts;
     nd_gip := true_or_undefined has_getInitialProps;
     nd_appGip := true_or_undefined (negb appHasDefaultGetInitialProps);
     nd_locale := locale opts;
     nd_locales := locales opts;
     nd_defaultLocale := defaultLocale opts;
     nd_domainLocales := i18n_domains (config this);
     nd_isPreview := true_or_undefined isPreview;
     nd_notFoundSrcPage :=
       if truthy notFoundSrcPage && dev (renderOpts this)
       then notFoundSrcPage else VUndefined |}.

Definition htmlProps (props : obj) (metadata : RenderResultMetadata)
    (documentResult : DocumentResult) : HtmlProps :=
  let '(dynamicImportsIds, dynamicImports) :=
    dynamicImportsOf (collected_modules (result_collected documentResult)) in
  {| __NEXT_DATA__ := NEXT_DATA props dynamicImportsIds;
     html_buildManifest := filteredBuildManifest;
     html_dangerousAsPath := router_asPath router;
     html_canonicalBase := canonicalBase;
     html_ampPath := string_or (ampPath opts) "";
     html_inAmpMode := inAmpMode;
     html_isDevelopment := dev (renderOpts this);
     html_hybridAmp := hybrid ampState;
     html_dynamicImports := dynamicImports;
     html_assetPrefix := assetPrefix (config this);
     html_unstable_runtimeJS :=
       if production then userland_config (userland this) ≫= unstable_runtimeJS
       else None;
     html_unstable_JsPreload := userland_config (userland this) ≫= unstable_JsPreload;
     html_devOnlyCacheBusterQueryString := devOnlyCacheBusterQueryString metadata;
     html_scriptLoader := collected_scriptLoader (result_collected documentResult);
     html_locale := locale opts;
     html_disableOptimizedLoading := disableOptimizedLoading (renderOpts this);
     html_head := result_head documentResult;
     html_headTags := result_headTags documentResult;
     html_styles := result_styles documentResult;
     html_crossOrigin :=
       match crossOrigin (config this) with
       | Some c => if bool_decide (c = "") then None else Some c
       | None => None
       end;
     html_nextConfigOutput := output (config this);
     html_runtime := runtime opts |}.

Definition DOCTYPE : string := "<!DOCTYPE html>".

Definition body_render_target : string :=
  "<next-js-internal-body-render-target></next-js-internal-body-render-target>".

(** [render] from [renderDocument()] to its last [return]. *)
Definition render_document (props : obj) (metadata : RenderResultMetadata)
    (beforeInteractive : option (list obj)) : M RenderResult :=
  documentResult ← renderDocument (page_tree props beforeInteractive) ;
  match documentResult with
  | None => mret {| response := None; metadata := metadata |}
  | Some documentResult =>
      let htmlProps := htmlProps props metadata documentResult in
      '(documentHTML, docComponentsRendered) ←
        call (Call_renderToString (result_Document documentResult) htmlProps
                (result_docProps documentResult))
          (renderToString E (result_Document documentResult) htmlProps
             (result_docProps documentResult)) ;
      when (negb production)
        (let nonRenderedComponents :=
           List.filter (λ comp, negb (bool_decide (comp ∈ docComponentsRendered)))
             ["Main"; "Head"; "NextScript"; "Html"] in
         when (negb (bool_decide (nonRenderedComponents = [])))
           (emit (logger_warn (MissingDocumentComponents nonRenderedComponents)))) ;;
      let '(renderTargetPrefix, renderTargetSuffix) :=
        split_first_two documentHTML body_render_target in
      let prefix :=
        (if startsWith documentHTML DOCTYPE then [] else [DOCTYPE]) ++
        [renderTargetPrefix] ++
        (if inAmpMode then ["<!-- __NEXT_DATA__ -->"] else []) in
      body ← bodyResult documentResult renderTargetSuffix ;
      let html := String.concat "" prefix +:+ body in
      processed ←
        call (Call_postProcessHTML pathname html)
          (postProcessHTML E pathname html inAmpMode (hybrid ampState)) ;
      mret {| response := Some processed; metadata := metadata |}
  end.

(** The warning about the reserved [url] prop; [Object.keys(null)]
    is a [TypeError]. *)
Definition warn_reserved_url (props : obj) : M unit :=
  if negb has_getStaticProps && negb has_getServerSideProps && negb production &&
     has props "pageProps" && typeof_object (get props "pageProps")
  then match get props "pageProps" with
       | VNull => throw TypeError
       | pageProps =>
           when (bool_decide ("url" ∈ dom (own_props pageProps)))
             (emit (logger_warn (ReservedUrlProp pathname)))
       end
  else mret tt.

(** [render] after the two data-fetching blocks. *)
Definition render_finish (props : obj) (metadata : RenderResultMetadata)
    (beforeInteractive : option (list obj)) : M RenderResult :=
  warn_reserved_url props ;;
  if (default false (isDataReq opts) && has_getServerSideProps) ||
     isRedirect metadata
  then mret {| response := Some (JSON_stringify E props); metadata := metadata |}
  else
    sent ← isResSent ;
    if sent && negb has_getStaticProps
    then mret {| response := None; metadata := metadata |}
    else render_document props metadata beforeInteractive.

(** [render] from the [getServerSideProps] block on. *)
Definition render_serverSide (props : obj) (metadata : RenderResultMetadata)
    (beforeInteractive : option (list obj)) : M RenderResult :=
  serverSide ← render_getServerSideProps props metadata ;
  match serverSide with
  | Return result => mret result
  | Next (props, metadata) => render_finish props metadata beforeInteractive
  end.

(** [props.__N_PREVIEW = true] on a preview request of a page with
    [getStaticProps] or [getServerSideProps]. *)
Definition mark_preview (props : obj) : obj :=
  if (has_getStaticProps || has_getServerSideProps) && isPreview
  then <["__N_PREVIEW" := VBool true]> props else props.

(** [render(request, context)] *)
Definition render : M RenderResult :=
  emit (Run_render request context) ;;
  call Call_preloadAll (Loadable_preloadAll E) ;;
  beforeInteractive ← initialScripts ;
  props ←
    call_with_res (Call_App_getInitialProps router ctx)
      (without_res (ctx_res ctx) (App_getInitialProps E router ctx)) ;
  static ← render_getStaticProps (mark_preview props) initial_metadata ;
  match static with
  | Return result => mret result
  | Next (props, metadata) => render_serverSide props metadata beforeInteractive
  end.
End Render.

(** [handle(request, context)] *)
Definition handle (request : NextRequest) (context : PagesRouteHandlerContext)
    : M Response :=
  setup (page (context_renderOpts context)) (export context) (dev (renderOpts this)) ;;
  new_MockedResponse ;;
  let req := originalRequest request in
  '(previewData, isPreviewMode) ←
    match req, tryGetPreviewData E, prerender (manifests context) with
    | Some req, Some tryGetPreviewData, Some preview =>
        if has_getServerSideProps || has_getStaticProps
        then previewData ←
               call (Call_tryGetPreviewData req preview) (tryGetPreviewData req preview) ;
             mret (previewData, is_not_false previewData)
        else mret (VUndefined, false)
    | _, _, _ => mret (VUndefined, false)
    end ;
  result ←
    render request {| handler := context; req := req;
                      isPreviewMode := isPreviewMode; previewData := previewData |} ;
  sent ← isResSent ;
  transform request result sent
    (bool_decide (isDataReq (context_renderOpts context) = Some true)) isPreviewMode.
End PagesRouteModule.

(** * A logic for the monad

    [triple P Q X m]: whatever the response state [m] starts from, every
    event [m] logs satisfies [P], a value it returns satisfies [Q] and an
    exception it throws satisfies [X]. *)

Definition triple {A} (P : event → Prop) (Q : A → Prop) (X : exn → Prop) (m : M A) : Prop :=
  ∀ s, Forall P (log (m s)) ∧
       match result (m s) with
       | inr a => Q a
       | inl e => X e
       end.

(** * What the claims speak of *)

(** How many of [getStaticProps], [getServerSideProps] and
    [getInitialProps] a page declares. *)
Definition declared_data_methods (this : PagesRouteModule) : nat :=
  Nat.b2n (has_getStaticProps this) + Nat.b2n (has_getServerSideProps this) +
  Nat.b2n (has_getInitialProps this).

(** The events of [setup]; anything else in a log is the handling of a
    request. *)
Definition setup_event (ev : event) : Prop :=
  match ev with
  | Run_setup _ _ _ | logger_warn (GetInitialPropsExport _) => True
  | _ => False
  end.

(** The events of the document assembly: the page tree rendered under
    [Document.getInitialProps] or as a shell, the document rendered to a
    string, the body stream continued, the markup post-processed. *)
Definition document_event (ev : event) : Prop :=
  match ev with
  | Call_Document_getInitialProps _ _ | Call_renderToInitialStream _
  | Call_renderToString _ _ _ | Call_continueFromInitialStream _ _
  | Call_postProcessHTML _ _ => True
  | _ => False
  end.

(** The events [render] can log once the data is fetched, rendering
    [props] under [query]: the page tree is given [props], the payload
    embeds [props] and [query]. *)
Definition rendering_event (props query : obj) (ev : event) : Prop :=
  match ev with
  | logger_warn (ReservedUrlProp _) | logger_warn (MissingDocumentComponents _) => True
  | Call_Document_getInitialProps _ t | Call_renderToInitialStream t => tree_props t = props
  | Call_renderToString _ h _ =>
      nd_props (__NEXT_DATA__ h) = props ∧ nd_query (__NEXT_DATA__ h) = query
  | Call_continueFromInitialStream _ _ | Call_postProcessHTML _ _ => True
  | _ => False
  end.

(** The props an event hands to the page tree or embeds in the hydration
    payload, if it carries any. *)
Definition props_of_event (ev : event) : option obj :=
  match ev with
  | Call_Document_getInitialProps _ t | Call_renderToInitialStream t => Some (tree_props t)
  | Call_renderToString _ h _ => Some (nd_props (__NEXT_DATA__ h))
  | _ => None
  end.


(** C2 as the spec has it, for one render: [getStaticProps] is not
    called and the page props the render goes on with are empty. *)
Definition fallback_props_empty (E : Externals) (this : PagesRouteModule)
    (request : NextRequest) (context : PagesRouteHandlerRenderContext) : Prop :=
  ∀ ev, ev ∈ log (run (render E this request context)) →
    (∀ c, ev ≠ Call_getStaticProps c) ∧
    (∀ props, props_of_event ev = Some props → own_props (get props "pageProps") = ∅).

(** C2 as the code has it: [getStaticProps] is not called and the page
    props are the ones the [App]'s initial props came with. *)
Definition fallback_event (E : Externals) (this : PagesRouteModule)
    (request : NextRequest) (context : PagesRouteHandlerRenderContext) (ev : event) : Prop :=
  (∀ c, ev ≠ Call_getStaticProps c) ∧
  (∀ props, props_of_event ev = Some props →
     ∃ app_props,
       settled (App_getInitialProps E (router this request context)
                  (ctx this request context)) = inr app_props ∧
       props !! "pageProps" = app_props !! "pageProps").

(** The calls of the two user data functions. *)
Definition data_event (ev : event) : Prop :=
  match ev with
  | Call_getStaticProps _ | Call_getServerSideProps _ => True
  | _ => False
  end.

(** [new RenderResult(null, metadata)] with [metadata.isNotFound] set. *)
Definition not_found_result (r : RenderResult) : Prop :=
  response r = None ∧ isNotFound (metadata r) = true.



(** What [render] throws when a step before the checks on the
    [getStaticProps] result throws: that very value. *)
Definition thrown_before_checks (E : Externals) (this : PagesRouteModule)
    (request : NextRequest) (context : PagesRouteHandlerRenderContext)
    (data : obj) (e : exn) : Prop :=
  ∃ v, e = Thrown v ∧
       (Loadable_preloadAll E = inl v ∨
        unstable_scriptLoader (userland_default (userland this)) = Some (inl v) ∨
        settled (App_getInitialProps E (router this request context)
                   (ctx this request context)) = inl v ∨
        validateGetStaticProps E data = inl v).

(** C5 as the spec has it, for one render: the request fails. *)
Definition render_fails (E : Externals) (this : PagesRouteModule)
    (request : NextRequest) (context : PagesRouteHandlerRenderContext) : Prop :=
  ∃ e, result (run (render E this request context)) = inl e.





(** Whether an event is a run of [setup]. *)
Definition is_Run_setup (ev : event) : bool :=
  match ev with
  | Run_setup _ _ _ => true
  | _ => false
  end.

(** How many times [setup] ran in a log. *)
Definition setup_runs (l : list event) : nat := length (List.filter is_Run_setup l).

(** One module handling requests one after the other, each on a
    response of its own: what is logged in all. *)
Definition serve (E : Externals) (this : PagesRouteModule)
    (requests : list (NextRequest * PagesRouteHandlerContext)) : list event :=
  flat_map (λ rc, log (run (handle E this rc.1 rc.2))) requests.

(** C7 as the spec has it, for the requests one module handles: [setup]
    ran once. *)
Definition setup_runs_once (E : Externals) (this : PagesRouteModule)
    (requests : list (NextRequest * PagesRouteHandlerContext)) : Prop :=
  setup_runs (serve E this requests) = 1.

(** [isError(err) && err.code === 'ENOENT'] *)
Definition carries_ENOENT (isError : value → bool) (err : value) : bool :=
  isError err && is_string (get_prop err "code") "ENOENT".

(** [err] is what the user data function of the page throws when
    [render] calls it. *)
Definition thrown_by_data_function (this : PagesRouteModule) (request : NextRequest)
    (context : PagesRouteHandlerRenderContext) (err : value) : Prop :=
  (∃ f, getStaticProps (userland this) = Some f ∧
        f (static_props_context this context) = inl err) ∨
  (getStaticProps (userland this) = None ∧
   ∃ g, getServerSideProps (userland this) = Some g ∧
        settled (g (server_side_props_context this request context)) = inl err).

(** The events of one [render]: it announces itself once, and neither
    runs [setup] or [transform] nor decodes preview data. *)
Definition render_event (request : NextRequest) (context : PagesRouteHandlerRenderContext)
    (ev : event) : Prop :=
  match ev with
  | Run_render request' context' => request' = request ∧ context' = context
  | Run_setup _ _ _ | Run_transform _ _ _ _ | Call_tryGetPreviewData _ _ => False
  | _ => True
  end.

(** What [handle] settles about preview mode: preview data is decoded
    only for a page with [getStaticProps] or [getServerSideProps], from
    the Node.js request and the prerender manifest, and [render] is in
    preview mode only with decoded preview data other than [false]. *)
Definition preview_resolution (E : Externals) (this : PagesRouteModule)
    (request : NextRequest) (context : PagesRouteHandlerContext) (ev : event) : Prop :=
  match ev with
  | Call_tryGetPreviewData req preview =>
      has_getServerSideProps this || has_getStaticProps this = true ∧
      originalRequest request = Some req ∧
      prerender (manifests context) = Some preview
  | Run_render _ context' =>
      isPreviewMode context' = true →
      ∃ req preview decode,
        originalRequest request = Some req ∧
        prerender (manifests context) = Some preview ∧
        tryGetPreviewData E = Some decode ∧
        decode req preview = inr (previewData context') ∧
        is_not_false (previewData context') = true
  | _ => True
  end.

(** [data] is what the user data function of the page returns when
    [render] calls it. *)
Definition returned_by_data_function (this : PagesRouteModule) (request : NextRequest)
    (context : PagesRouteHandlerRenderContext) (data : obj) : Prop :=
  (∃ f, getStaticProps (userland this) = Some f ∧
        f (static_props_context this context) = inr data) ∨
  (getStaticProps (userland this) = None ∧
   ∃ g, getServerSideProps (userland this) = Some g ∧
        settled (g (server_side_props_context this request context)) = inr data).

(** ['notFound' in data && data.notFound] *)
Definition answers_notFound (data : obj) : bool :=
  has data "notFound" && truthy (get data "notFound").

(** * Further properties: what they speak of *)

(** The three names [setup] looks for on the component. *)
Definition data_method_names : list string :=
  ["getStaticProps"; "getStaticPaths"; "getServerSideProps"].

(** What a page module that got through [setup] is known to satisfy,
    whatever the build. *)
Definition setup_guarantees (this : PagesRouteModule) (nextExport : bool) : Prop :=
  declared_data_methods this ≤ 1 ∧
  has_getStaticPaths this = isDynamic this && has_getStaticProps this ∧
  (has_getServerSideProps this = true →
   nextExport = false ∧ output (config this) ≠ Some "export") ∧
  (∀ method, method ∈ data_method_names →
             method ∉ members (userland_default (userland this))).

(** What it is known to satisfy on top of that in development. *)
Definition setup_dev_guarantees (this : PagesRouteModule) (page : string) : Prop :=
  isValidElementType (userland_default (userland this)) = true ∧
  isValidElementType (App (components this)) = true ∧
  doc_isValidElementType (Document (components this)) = true ∧
  ((page = "/404" ∨ page = "/500") →
   has_getServerSideProps this = false ∧ has_getInitialProps this = false).

(** Every event of [setup], with what the code knows where it logs it. *)
Definition setup_step (this : PagesRouteModule) (page : string) (nextExport dev : bool)
    (ev : event) : Prop :=
  match ev with
  | Run_setup page' nextExport' dev' => page' = page ∧ nextExport' = nextExport ∧ dev' = dev
  | logger_warn (GetInitialPropsExport page') =>
      page' = page ∧ nextExport = true ∧ has_getInitialProps this = true
  | _ => False
  end.

(** A computation that logs nothing and leaves the response alone. *)
Definition quiet {A} (m : M A) : Prop := ∀ s, log (m s) = [] ∧ sent (m s) = s.
(** ** What one [render] does *)

Section RenderTrace.
Context (E : Externals) (this : PagesRouteModule).
Context (request : NextRequest) (context : PagesRouteHandlerRenderContext).

(** The metadata [render] holds when it gets to the document. *)
Definition document_metadata (props : obj) (md : RenderResultMetadata) : Prop :=
  devOnlyCacheBusterQueryString md =
    devOnlyCacheBusterQueryString (initial_metadata E this) ∧
  isNotFound md = false ∧ isRedirect md = false ∧
  (pageData md = None ∨ pageData md = Some props).

(** The metadata [render] holds between its blocks. *)
Definition data_metadata (props : obj) (md : RenderResultMetadata) : Prop :=
  devOnlyCacheBusterQueryString md =
    devOnlyCacheBusterQueryString (initial_metadata E this) ∧
  isNotFound md = false ∧
  (pageData md = None ∨ pageData md = Some props) ∧
  (isRedirect md = true → pageData md = Some props).

(** Every event of [render], with what the code knows where it logs it. *)
Definition render_step (ev : event) : Prop :=
  match ev with
  | Run_render request' context' => request' = request ∧ context' = context
  | Call_preloadAll => True
  | Call_unstable_scriptLoader =>
      is_Some (unstable_scriptLoader (userland_default (userland this)))
  | Call_App_getInitialProps r c =>
      r = router this request context ∧ c = ctx this request context
  | Call_getStaticProps c =>
      c = static_props_context this context ∧
      has_getStaticProps this = true ∧ isFallback context = false
  | Call_getServerSideProps c =>
      c = server_side_props_context this request context ∧
      has_getServerSideProps this = true ∧ isFallback context = false
  | logger_warn (ReservedUrlProp p) =>
      p = pathname request ∧ production E = false ∧
      has_getStaticProps this = false ∧ has_getServerSideProps this = false
  | logger_warn (MissingDocumentComponents missing) =>
      production E = false ∧ missing ≠ []
  | Call_Document_getInitialProps d t =>
      edge E = false ∧ d = Document (components this) ∧ doc_getInitialProps d = true ∧
      ∃ props beforeInteractive,
        t = page_tree E this request context props beforeInteractive
  | Call_renderToInitialStream t =>
      (edge E = true ∨ doc_getInitialProps (Document (components this)) = false) ∧
      ∃ props beforeInteractive,
        t = page_tree E this request context props beforeInteractive
  | Call_renderToString d h docProps =>
      ∃ props md documentResult,
        h = htmlProps E this request context props md documentResult ∧
        d = result_Document documentResult ∧
        docProps = result_docProps documentResult ∧
        document_metadata props md
  | Call_continueFromInitialStream _ _ => True
  | Call_postProcessHTML p html => p = pathname request ∧ startsWith html DOCTYPE = true
  | _ => False
  end.

(** Every result of [render]. *)
Definition render_outcome (r : RenderResult) : Prop :=
  devOnlyCacheBusterQueryString (metadata r) =
    devOnlyCacheBusterQueryString (initial_metadata E this) ∧
  (isNotFound (metadata r) = true → response r = None) ∧
  (isRedirect (metadata r) = true →
   isNotFound (metadata r) = true ∨
   ∃ props, response r = Some (JSON_stringify E props) ∧
            pageData (metadata r) = Some props).

(** Every exception of [render], with the mode it belongs to. *)
Definition render_failure (e : exn) : Prop :=
  match e with
  | Thrown _ => True
  | TypeError =>
      production E = false ∧
      has_getStaticProps this = false ∧ has_getServerSideProps this = false
  | Error (MixedNotFoundRedirect p) =>
      p = pathname request ∧ production E = false ∧ has_getStaticProps this = true
  | Error NotFoundOn404 =>
      pathname request = "/404" ∧
      has_getStaticProps this || has_getServerSideProps this = true
  | Error (RedirectDuringPrerender u) =>
      u = url request ∧ export (handler context) = true ∧ has_getStaticProps this = true
  | Error IsrOutputExport =>
      output (config this) = Some "export" ∧ has_getStaticProps this = true
  | Error (InvalidRevalidate _ u) => u = url request ∧ has_getStaticProps this = true
  | Error InvalidStaticProps =>
      dev (renderOpts this) || export (handler context) = true ∧
      has_getStaticProps this = true
  | Error InvalidServerSideProps =>
      dev (renderOpts this) || export (handler context) = true ∧
      has_getServerSideProps this = true
  | Error EdgeDocumentGetInitialProps =>
      edge E = true ∧ doc_getInitialProps (Document (components this)) = true ∧
      doc_builtin (Document (components this)) = None
  | Error (DocumentHtmlMissing name) =>
      edge E = false ∧ doc_getInitialProps (Document (components this)) = true ∧
      name = doc_displayName (Document (components this))
  | Error _ => False
  end.
End RenderTrace.

(** ** What the events of a render are asked to satisfy *)

Section RenderProperties.
Context (E : Externals) (this : PagesRouteModule).
Context (request : NextRequest) (context : PagesRouteHandlerRenderContext).

(** Where the document comes from: [Document.getInitialProps] outside
    the edge runtime, on the module's own [Document]; the stream of the
    engine otherwise. *)
Definition document_source (ev : event) : Prop :=
  match ev with
  | Call_Document_getInitialProps d _ =>
      NEXT_RUNTIME E ≠ Some "edge" ∧ d = Document (components this) ∧
      doc_getInitialProps d = true
  | Call_renderToInitialStream _ =>
      NEXT_RUNTIME E = Some "edge" ∨
      doc_getInitialProps (Document (components this)) = false
  | _ => True
  end.

(** The markup handed to [postProcessHTML]. *)
Definition processed_markup (ev : event) : Prop :=
  match ev with
  | Call_postProcessHTML p html => p = pathname request ∧ startsWith html DOCTYPE = true
  | _ => True
  end.

(** The calls of the two data functions. *)
Definition data_call (ev : event) : Prop :=
  match ev with
  | Call_getStaticProps c =>
      is_Some (getStaticProps (userland this)) ∧
      truthy (get (query (context_renderOpts (handler context))) "__nextFallback") = false ∧
      c = static_props_context this context
  | Call_getServerSideProps c =>
      is_Some (getServerSideProps (userland this)) ∧
      truthy (get (query (context_renderOpts (handler context))) "__nextFallback") = false ∧
      c = server_side_props_context this request context
  | _ => True
  end.

(** A render of an automatically exported page. *)
Definition auto_export_step (ev : event) : Prop :=
  match ev with
  | Call_getStaticProps _ | Call_getServerSideProps _ => False
  | Call_App_getInitialProps _ c => ctx_req c = None ∧ ctx_res c = false
  | Call_renderToString _ h _ =>
      nd_autoExport (__NEXT_DATA__ h) = Some true ∧
      nd_gsp (__NEXT_DATA__ h) = None ∧ nd_gssp (__NEXT_DATA__ h) = None ∧
      nd_gip (__NEXT_DATA__ h) = None ∧ nd_appGip (__NEXT_DATA__ h) = None
  | _ => True
  end.

(** A query that holds nothing but [amp]. *)
Definition only_amp (q : obj) : Prop := ∀ k, is_Some (q !! k) → k = "amp".

(** A render that has forgotten the query, [amp] apart. *)
Definition query_forgotten (ev : event) : Prop :=
  match ev with
  | Call_App_getInitialProps r c => only_amp (router_query r) ∧ only_amp (ctx_query c)
  | Call_Document_getInitialProps _ t | Call_renderToInitialStream t =>
      only_amp (router_query (tree_router t))
  | Call_renderToString _ h _ =>
      only_amp (nd_query (__NEXT_DATA__ h))
  | _ => True
  end.

(** A render that knows nothing of preview and calls no data function. *)
Definition out_of_preview (ev : event) : Prop :=
  match ev with
  | Call_getStaticProps _ | Call_getServerSideProps _ => False
  | Call_App_getInitialProps r _ => router_isPreview r = false
  | Call_Document_getInitialProps _ t | Call_renderToInitialStream t =>
      router_isPreview (tree_router t) = false
  | Call_renderToString _ h _ =>
      nd_isPreview (__NEXT_DATA__ h) = None ∧ nd_isFallback (__NEXT_DATA__ h) = true
  | _ => True
  end.

Definition is_warning (ev : event) : bool :=
  match ev with
  | logger_warn _ => true
  | _ => false
  end.
End RenderProperties.

(** ** Runs that return

    [returns s P Q m]: started from the response state [s], [m] logs
    events that satisfy [P] and returns a value that, with the state it
    leaves the response in, satisfies [Q]. *)

Definition returns {A} (s : bool) (P : event → Prop) (Q : A → bool → Prop) (m : M A)
    : Prop :=
  Forall P (log (m s)) ∧ ∃ a, result (m s) = inr a ∧ Q a (sent (m s)).

(** One turn of the loop of [render] over [reactLoadableModules]. *)
Definition add_dynamic_import (context : PagesRouteHandlerRenderContext)
    (acc : list ModuleId * list string) (moduleName : string)
    : list ModuleId * list string :=
  match reactLoadable (manifests (handler context)) !! moduleName with
  | Some manifestItem =>
      (Set_add (item_id manifestItem) acc.1,
       fold_left (λ files item, Set_add item files) (item_files manifestItem) acc.2)
  | None => acc
  end.

(** ['redirect' in data && data.redirect && typeof data.redirect === 'object'] *)
Definition answers_redirect (data : obj) : bool :=
  has data "redirect" && truthy (get data "redirect") && typeof_object (get data "redirect").

(** [new RenderResult(JSON.stringify(props), metadata)] of a redirect. *)
Definition redirect_result (E : Externals) (r : RenderResult) : Prop :=
  isRedirect (metadata r) = true ∧
  ∃ props, response r = Some (JSON_stringify E props) ∧ pageData (metadata r) = Some props.

(** * The repository helpers of the stats action

    [exec] runs a shell command and resolves to its output or rejects
    with the error of the child process; [semver.gt] throws on a tag
    that is no version; [String.prototype.trim] is the library's. *)

Record ExecError := {
  err_message : string;
  err_stdout : option string;
}.

(** What the helpers do to the outer world, in order. *)
Inductive action :=
| Exec (command : string)
| Logger (message : string)
| Logger_error (message : string) (err : ExecError).

Definition newline : string := String (Ascii.ascii_of_nat 10) EmptyString.

(** [s.split(sep)] for a separator of one character. *)
Fixpoint split_on (sep : Ascii.ascii) (s : string) : list string :=
  match s with
  | EmptyString => [EmptyString]
  | String c rest =>
      if Ascii.eqb c sep then EmptyString :: split_on sep rest
      else match split_on sep rest with
           | first :: others => String c first :: others
           | [] => [String c EmptyString]
           end
  end.

Section RepoSetup.
Context (exec : string → ExecError + string).
Context (trim : string → string).
Context (semver_gt : string → string → value + bool).

(** Whether the loop of [getLastStable] looks at a tag at all: stable
    tags hold no [-], and the tag of [ref] itself is left out. *)
Definition stable_candidate (ref curTag : string) : bool :=
  negb (includes curTag "-") && negb (includes ref curTag).

(** One turn of the loop of [getLastStable]. *)
Definition last_stable_step (ref : string) (lastStableTag : option string)
    (curTag : string) : value + option string :=
  if stable_candidate ref curTag
  then match lastStableTag with
       | None => inr (Some curTag)
       | Some last =>
           if bool_decide (last = "") then inr (Some curTag)
           else match semver_gt curTag last with
                | inl thrown => inl thrown
                | inr true => inr (Some curTag)
                | inr false => inr lastStableTag
                end
       end
  else inr lastStableTag.

(** [for (let i = tags.length - 1; i >= 0; i--)], on the tags in the
    order the loop visits them. *)
Fixpoint last_stable_loop (ref : string) (visited : list string)
    (lastStableTag : option string) : value + option string :=
  match visited with
  | [] => inr lastStableTag
  | curTag :: rest =>
      match last_stable_step ref lastStableTag curTag with
      | inl thrown => inl thrown
      | inr lastStableTag => last_stable_loop ref rest lastStableTag
      end
  end.

(** The tags [git tag -l] printed. *)
Definition tags_of (stdout : string) : list string := split_on (Ascii.ascii_of_nat 10) (trim stdout).

(** What [getLastStable] ends with: the rejection of [exec], what
    [semver.gt] threw, or the tag. *)
Inductive tag_failure :=
| Rejected (err : ExecError)
| Threw (thrown : value).

(** [getLastStable(repoDir, ref)] *)
Definition getLastStable (repoDir ref : string) : tag_failure + option string :=
  match exec ("cd " +:+ repoDir +:+ " && git tag -l") with
  | inl err => inl (Rejected err)
  | inr stdout =>
      match last_stable_loop ref (reverse (tags_of stdout)) None with
      | inl thrown => inl (Threw thrown)
      | inr lastStableTag => inr lastStableTag
      end
  end.

(** [getCommitId(repoDir)] *)
Definition getCommitId (repoDir : string) : ExecError + string :=
  match exec ("cd " +:+ repoDir +:+ " && git rev-parse HEAD") with
  | inl err => inl err
  | inr stdout => inr (trim stdout)
  end.

(** [mergeBranch(ref, origRepoDir, destRepoDir)]: what it did, and
    whether it rejected. *)
Definition mergeBranch (ref origRepoDir destRepoDir : string)
    : list action * (ExecError + ()) :=
  let remote := "cd " +:+ destRepoDir +:+ " && git remote add upstream " +:+ origRepoDir in
  let fetch := "cd " +:+ destRepoDir +:+ " && git fetch upstream" in
  let merge := "cd " +:+ destRepoDir +:+ " && git merge upstream/" +:+ ref in
  let abort := "cd " +:+ destRepoDir +:+ " && git merge --abort" in
  match exec remote with
  | inl err => ([Exec remote], inl err)
  | inr _ =>
      match exec fetch with
      | inl err => ([Exec remote; Exec fetch], inl err)
      | inr _ =>
          match exec merge with
          | inr _ =>
              ([Exec remote; Exec fetch; Exec merge;
                Logger "Auto merge of main branch successful"], inr ())
          | inl err =>
              let failed :=
                [Exec remote; Exec fetch; Exec merge;
                 Logger_error "Failed to auto merge main branch:" err] in
              match err_stdout err with
              | Some stdout =>
                  if negb (bool_decide (stdout = "")) && includes stdout "CONFLICT"
                  then match exec abort with
                       | inl err' => (failed ++ [Exec abort], inl err')
                       | inr _ =>
                           (failed ++ [Exec abort; Logger "aborted auto merge"], inr ())
                       end
                  else (failed, inr ())
              | None => (failed, inr ())
              end
          end
      end
  end.

(** The tag the loop of [getLastStable] holds is a candidate among
    the tags it has seen, and none of these candidates is above it
    under the order [gt]. *)
Definition newest_of (gt : string → string → bool) (ref : string) (seen : list string)
    (lastStableTag : option string) : Prop :=
  match lastStableTag with
  | Some tag =>
      tag ≠ "" ∧ tag ∈ seen ∧ stable_candidate ref tag = true ∧
      ∀ c, c ∈ seen → stable_candidate ref c = true → gt c tag = false
  | None => ∀ c, c ∈ seen → stable_candidate ref c = false
  end.

(** [semver.gt] accepts the candidates among [tags] and compares them
    as the strict order [gt] does. *)
Definition orders_candidates (gt : string → string → bool) (ref : string)
    (tags : list string) : Prop :=
  (∀ a b, a ∈ tags → b ∈ tags →
          stable_candidate ref a = true → stable_candidate ref b = true →
          semver_gt a b = inr (gt a b)) ∧
  (∀ a, a ∈ tags → stable_candidate ref a = true → gt a a = false) ∧
  (∀ a b c, a ∈ tags → b ∈ tags → c ∈ tags →
            stable_candidate ref a = true → stable_candidate ref b = true →
            stable_candidate ref c = true →
            gt a b = true → gt b c = true → gt a c = true).
End RepoSetup.

(** A repository with two releases and a canary, and a [semver.gt] that
    reads [vMAJOR.MINOR.PATCH] and throws on anything else. *)
Module Repo.
Definition exec (command : string) : ExecError + string :=
  inr ("v13.4.0" +:+ newline +:+ "v13.4.1" +:+ newline +:+ "v13.4.2-canary.0").

Definition trim (s : string) : string := s.

(** The number a string of digits stands for, from [acc] on. *)
Fixpoint numeral (s : string) (acc : N) : option N :=
  match s with
  | EmptyString => Some acc
  | String c rest =>
      let n := Ascii.N_of_ascii c in
      if (48 <=? n)%N && (n <=? 57)%N
      then numeral rest (10 * acc + (n - 48))%N
      else None
  end.

Definition number (s : string) : option N :=
  if bool_decide (s = "") then None else numeral s 0%N.

(** A leading [v] is dropped; the three numbers are separated by dots. *)
Definition version (tag : string) : option (N * N * N) :=
  let digits := match tag with
                | String c rest =>
                    if Ascii.eqb c (Ascii.ascii_of_nat 118) then rest else tag
                | EmptyString => tag
                end in
  match split_on (Ascii.ascii_of_nat 46) digits with
  | [major; minor; patch] =>
      match number major, number minor, number patch with
      | Some x, Some y, Some z => Some (x, y, z)
      | _, _, _ => None
      end
  | _ => None
  end.

Definition above (v w : N * N * N) : bool :=
  let '(x, y, z) := v in
  let '(x', y', z') := w in
  (x' <? x)%N || ((x =? x')%N && ((y' <? y)%N || ((y =? y')%N && (z' <? z)%N))).

Definition semver_gt (a b : string) : value + bool :=
  match version a, version b with
  | Some v, Some w => inr (above v w)
  | _, _ => inl (VStr "Invalid Version")
  end.

(** The order of the versions, on tags. *)
Definition gt (a b : string) : bool :=
  match version a, version b with
  | Some v, Some w => above v w
  | _, _ => false
  end.

(** A merge that stops on a conflict. *)
Definition conflicting (command : string) : ExecError + string :=
  if includes command "git merge upstream/"
  then inl {| err_message := "Command failed";
              err_stdout := Some "CONFLICT (content): Merge conflict in package.json" |}
  else inr "".
End Repo.

(** ** [linkPackages]

    The packages of the repository are packed and made to depend on one
    another's tarballs. Of a [package.json] the function reads [name],
    [dependencies] and [files]; the file system, [require], [path] and
    [exec] are outside. The spans of [next/trace] only wrap what they
    are given. *)

Record PackageJson := {
  pkg_name : string;
  pkg_dependencies : option (gmap string string);
  pkg_files : option (list string);
}.

(** An error of [fs], with its [code]. *)
Record FsError := {
  fs_code : option string;
}.

(** An entry of [pkgDatas]. *)
Record PkgEntry := {
  pkgDataPath : string;
  pkg : string;
  pkgPath : string;
  pkgData : PackageJson;
  packedPkgPath : string;
}.

(** What [linkPackages] does to the outer world, in order. *)
Inductive link_action :=
| Console_log (args : list string)
| Link_exec (command : string)
| Write_file (path : string) (data : PackageJson).

(** How [linkPackages] rejects: with an error of [fs], with what
    [require] threw, with the rejection of [exec], with a [TypeError],
    or, from [Promise.all], with the first of the rejections of the
    packing commands to arrive. *)
Inductive link_failure :=
| Fs_failed (err : FsError)
| Require_threw (thrown : value)
| Exec_failed (err : ExecError)
| Link_TypeError
| Packing_failed (rejections : list ExecError).

(** A [Map] with string keys: [set] on a key it has keeps the place of
    the key. *)
Fixpoint Map_set {V} (k : string) (v : V) (m : list (string * V)) : list (string * V) :=
  match m with
  | [] => [(k, v)]
  | (k', v') :: m' =>
      if bool_decide (k' = k) then (k, v) :: m' else (k', v') :: Map_set k v m'
  end.

Fixpoint Map_get {V} (k : string) (m : list (string * V)) : option V :=
  match m with
  | [] => None
  | (k', v) :: m' => if bool_decide (k' = k) then Some v else Map_get k m'
  end.

(** A script: what it did, and how it ended. *)
Definition Script (A : Type) : Type := list link_action * (link_failure + A).

#[export] Instance Script_ret : MRet Script := λ A a, ([], inr a).
#[export] Instance Script_bind : MBind Script := λ A B f m,
  match m.2 with
  | inl e => (m.1, inl e)
  | inr a => (m.1 ++ (f a).1, (f a).2)
  end.

Definition does (a : link_action) : Script () := ([a], inr ()).

Definition rejects {A} (e : link_failure) : Script A := ([], inl e).

Fixpoint each {A} (l : list A) (body : A → Script ()) : Script () :=
  match l with
  | [] => mret ()
  | x :: l' => body x ;; each l' body
  end.

Section LinkPackages.
Context (path_join : list string → string) (path_dirname : string → string).
Context (fs_readdir : string → FsError + list string).
Context (fs_existsSync : string → bool).
Context (require : string → value + PackageJson).
Context (fs_writeFile : string → PackageJson → FsError + ()).
Context (exec : string → ExecError + string).

(** The entry of the directory [pkg] of [packages]. *)
Definition entry_of (repoDir pkg : string) (pkgData : PackageJson) : PkgEntry :=
  let pkgPath := path_join [repoDir; "packages"; pkg] in
  {| pkgDataPath := path_join [pkgPath; "package.json"];
     pkg := pkg;
     pkgPath := pkgPath;
     pkgData := pkgData;
     packedPkgPath := path_join [pkgPath; pkg +:+ "-packed.tgz"] |}.

(** The first loop: [pkgDatas] and [pkgPaths] after the directories
    [pkgs]. *)
Fixpoint getting_package_data (repoDir : string) (pkgs : list string)
    (pkgDatas : list (string * PkgEntry)) (pkgPaths : list (string * string))
    : Script (list (string * PkgEntry) * list (string * string)) :=
  match pkgs with
  | [] => mret (pkgDatas, pkgPaths)
  | pkg :: pkgs =>
      let entry := entry_of repoDir pkg in
      let pkgDataPath := path_join [path_join [repoDir; "packages"; pkg]; "package.json"] in
      if negb (fs_existsSync pkgDataPath)
      then does (Console_log ["Skipping " +:+ pkgDataPath]) ;;
           getting_package_data repoDir pkgs pkgDatas pkgPaths
      else match require pkgDataPath with
           | inl thrown => rejects (Require_threw thrown)
           | inr pkgData =>
               getting_package_data repoDir pkgs
                 (Map_set (pkg_name pkgData) (entry pkgData) pkgDatas)
                 (Map_set (pkg_name pkgData) (packedPkgPath (entry pkgData)) pkgPaths)
           end
  end.

(** [if (!pkgData.dependencies || !pkgData.dependencies[pkg]) continue;
    pkgData.dependencies[pkg] = packedPkgPath], for one package of the
    repository. *)
Definition link_dependency (pkgData : PackageJson) (package : string * PkgEntry)
    : PackageJson :=
  match pkg_dependencies pkgData with
  | None => pkgData
  | Some dependencies =>
      match dependencies !! package.1 with
      | None => pkgData
      | Some version =>
          if bool_decide (version = "") then pkgData
          else {| pkg_name := pkg_name pkgData;
                  pkg_dependencies :=
                    Some (<[package.1 := packedPkgPath package.2]> dependencies);
                  pkg_files := pkg_files pkgData |}
      end
  end.

(** The inner loop over the packages of the repository. *)
Definition link_dependencies (pkgDatas : list (string * PkgEntry))
    (pkgData : PackageJson) : PackageJson :=
  fold_left link_dependency pkgDatas pkgData.

(** [pkgData.files.push('native')], on a [files] that is an array. *)
Definition push_native (pkgData : PackageJson) (files : list string) : PackageJson :=
  {| pkg_name := pkg_name pkgData;
     pkg_dependencies := pkg_dependencies pkgData;
     pkg_files := Some (files ++ ["native"]) |}.

Definition with_dependencies (pkgData : PackageJson) (dependencies : gmap string string)
    : PackageJson :=
  {| pkg_name := pkg_name pkgData;
     pkg_dependencies := Some dependencies;
     pkg_files := pkg_files pkgData |}.

(** The body of the second loop, for the package [name]. *)
Definition write_package_data (nextSwcPkg : option (gmap string string))
    (pkgDatas : list (string * PkgEntry)) (name : string) (entry : PkgEntry)
    : Script () :=
  let pkgData := link_dependencies pkgDatas (pkgData entry) in
  pkgData ←
    (if bool_decide (name = "@next/swc")
     then let pkgData := push_native pkgData (default [] (pkg_files pkgData)) in
          let command :=
            "ls " +:+ path_join [path_dirname (pkgDataPath entry); "native"] in
          does (Link_exec command) ;;
          match exec command with
          | inl err => rejects (Exec_failed err)
          | inr stdout =>
              does (Console_log ["using swc binaries: "; stdout]) ;; mret pkgData
          end
     else mret pkgData) ;
  pkgData ←
    (if bool_decide (name = "next")
     then match nextSwcPkg with
          | Some nextSwcPkg =>
              match pkg_dependencies pkgData with
              | Some dependencies =>
                  mret (with_dependencies pkgData (nextSwcPkg ∪ dependencies))
              | None => rejects Link_TypeError
              end
          | None =>
              match Map_get "@next/swc" pkgDatas with
              | Some swc =>
                  match pkg_dependencies pkgData with
                  | Some dependencies =>
                      mret (with_dependencies pkgData
                              (<["@next/swc" := packedPkgPath swc]> dependencies))
                  | None => rejects Link_TypeError
                  end
              | None =>
                  match pkg_files pkgData with
                  | Some files => mret (push_native pkgData files)
                  | None => rejects Link_TypeError
                  end
              end
          end
     else mret pkgData) ;
  does (Write_file (pkgDataPath entry) pkgData) ;;
  match fs_writeFile (pkgDataPath entry) pkgData with
  | inl err => rejects (Fs_failed err)
  | inr _ => mret ()
  end.

(** The command that packs one package. *)
Definition pack_command (entry : PkgEntry) : string :=
  "cd " +:+ pkgPath entry +:+ " && yarn pack -f " +:+ pkg entry +:+ "-packed.tgz".

(** The third step: every package is packed at once. *)
Definition packing_packages (pkgDatas : list (string * PkgEntry)) : Script () :=
  let commands := (λ '(_, entry), pack_command entry) <$> pkgDatas in
  let rejections :=
    omap (λ command, match exec command with
                     | inl err => Some err
                     | inr _ => None
                     end) commands in
  (Link_exec <$> commands,
   if bool_decide (rejections = []) then inr () else inl (Packing_failed rejections)).

(** [linkPackages({ repoDir, nextSwcPkg })] *)
Definition linkPackages (repoDir : string) (nextSwcPkg : option (gmap string string))
    : Script (list (string * string)) :=
  match fs_readdir (path_join [repoDir; "packages"]) with
  | inl err =>
      if bool_decide (fs_code err = Some "ENOENT")
      then does (Console_log ["no packages to link"]) ;; mret []
      else rejects (Fs_failed err)
  | inr pkgs =>
      '(pkgDatas, pkgPaths) ← getting_package_data repoDir pkgs [] [] ;
      each pkgDatas (λ '(name, entry),
        write_package_data nextSwcPkg pkgDatas name entry) ;;
      packing_packages pkgDatas ;;
      mret pkgPaths
  end.
End LinkPackages.

(** [script P Q X m]: everything [m] does satisfies [P], what it
    resolves to satisfies [Q] and what it rejects with satisfies [X]. *)
Definition script {A} (P : link_action → Prop) (Q : A → Prop) (X : link_failure → Prop)
    (m : Script A) : Prop :=
  Forall P m.1 ∧ match m.2 with
                 | inr a => Q a
                 | inl e => X e
                 end.

(** A package of the repository, as the first loop of [linkPackages]
    records it: the directory [pkg] of [packages] holds a [package.json]
    that [require] loads and that names the package. *)
Definition repository_package (path_join : list string → string)
    (fs_existsSync : string → bool) (require : string → value + PackageJson)
    (repoDir : string) (pkgs : list string) (name : string) (entry : PkgEntry) : Prop :=
  ∃ directory,
    directory ∈ pkgs ∧
    entry = entry_of path_join repoDir directory (pkgData entry) ∧
    fs_existsSync (pkgDataPath entry) = true ∧
    require (pkgDataPath entry) = inr (pkgData entry) ∧
    pkg_name (pkgData entry) = name.

(** The failures of [linkPackages] before it packs anything. *)
Definition fails_before_packing (e : link_failure) : Prop :=
  match e with
  | Packing_failed _ => False
  | _ => True
  end.

(** [pkgData] depends on the package [dep], by a version that is not
    empty. *)
Definition depends_on (pkgData : PackageJson) (dep : string) : Prop :=
  ∃ dependencies version,
    pkg_dependencies pkgData = Some dependencies ∧
    dependencies !! dep = Some version ∧ version ≠ "".

(** The dependency [dep] of [pkgData], if it has one. *)
Definition dependency (pkgData : PackageJson) (dep : string) : option string :=
  pkg_dependencies pkgData ≫= λ dependencies, dependencies !! dep.

(** A [package.json] as [linkPackages] writes it for a package of the
    repository: every dependency on a package of the repository points
    to the tarball of that package (in [next], unless [nextSwcPkg] says
    otherwise), and outside [next] nothing else is changed. *)
Definition linked_package_json (nextSwcPkg : option (gmap string string))
    (pkgDatas : list (string * PkgEntry)) (path : string) (data : PackageJson) : Prop :=
  ∃ name entry,
    (name, entry) ∈ pkgDatas ∧ path = pkgDataPath entry ∧
    pkg_name data = pkg_name (pkgData entry) ∧
    (∀ dep depEntry,
       Map_get dep pkgDatas = Some depEntry → depends_on (pkgData entry) dep →
       (name = "next" → ∀ swc, nextSwcPkg = Some swc → swc !! dep = None) →
       dependency data dep = Some (packedPkgPath depEntry)) ∧
    (∀ dep, Map_get dep pkgDatas = None → name ≠ "next" →
            dependency data dep = dependency (pkgData entry) dep).

(** What [linkPackages] does once it knows the packages [pkgDatas]. *)
Definition linking_step (nextSwcPkg : option (gmap string string))
    (pkgDatas : list (string * PkgEntry)) (a : link_action) : Prop :=
  match a with
  | Write_file path data => linked_package_json nextSwcPkg pkgDatas path data
  | _ => True
  end.

(** A repository of two packages, [next] in the directory [next] and
    [@next/env] in the directory [next-env], on a file system that
    accepts every write. *)
Module Packages.
Definition path_join (parts : list string) : string := String.concat "/" parts.

Definition path_dirname (path : string) : string := path.

Definition fs_readdir (path : string) : FsError + list string :=
  inr ["next"; "next-env"].

Definition fs_existsSync (path : string) : bool := true.

Definition next_json : PackageJson :=
  {| pkg_name := "next";
     pkg_dependencies := Some {[ "@next/env" := "13.4.0"; "react" := "18.2.0" ]};
     pkg_files := Some ["dist"] |}.

Definition env_json : PackageJson :=
  {| pkg_name := "@next/env"; pkg_dependencies := None; pkg_files := None |}.

Definition require (path : string) : value + PackageJson :=
  if bool_decide (path = "repo/packages/next/package.json")
  then inr next_json else inr env_json.

(** The same repository with a [next] that declares no dependencies. *)
Definition bare_require (path : string) : value + PackageJson :=
  if bool_decide (path = "repo/packages/next/package.json")
  then inr {| pkg_name := "next"; pkg_dependencies := None; pkg_files := None |}
  else inr env_json.

Definition fs_writeFile (path : string) (data : PackageJson) : FsError + () := inr ().

Definition exec (command : string) : ExecError + string := inr "".
End Packages.

(** * What the outcome of a render depends on *)

(** The steps of [render] before the data functions settle without
    throwing: preloading, the script loader, the [App]'s initial props. *)
Definition render_starts (E : Externals) (this : PagesRouteModule)
    (request : NextRequest) (context : PagesRouteHandlerRenderContext) : Prop :=
  Loadable_preloadAll E = inr () ∧
  (∀ v, unstable_scriptLoader (userland_default (userland this)) ≠ Some (inl v)) ∧
  ∃ app_props, settled (App_getInitialProps E (router this request context)
                          (ctx this request context)) = inr app_props.

(** [data'] is the result [render] goes on with after the redirect check
    of [method]: what [checkRedirectValues] returns for a redirect to
    follow, [data] itself otherwise. *)
Definition after_redirect (E : Externals) (request : NextRequest) (method : string)
    (data data' : obj) : Prop :=
  if answers_redirect data
  then checkRedirectValues E data (url request) method = inr data'
  else data' = data.

(** The check of [(this.renderOpts.dev || context.export) && 'props' in
    data && !isSerializableProps(...)] does not throw. *)
Definition props_serialize (E : Externals) (this : PagesRouteModule)
    (request : NextRequest) (context : PagesRouteHandlerRenderContext)
    (method : string) (data : obj) : Prop :=
  (dev (renderOpts this) || export (handler context)) && has data "props" = true →
  isSerializableProps E (pathname request) method (get data "props") = inr true.

(** The checks [render] makes on a [getStaticProps] result, that of
    [revalidate] apart, all pass: the keys are valid, [notFound] does
    not come with [redirect] off production nor on [/404], a redirect
    is well formed and not met during an export, the props serialize.
    [data'] is the result after the redirect check. *)
Definition static_result_passes (E : Externals) (this : PagesRouteModule)
    (request : NextRequest) (context : PagesRouteHandlerRenderContext)
    (data data' : obj) : Prop :=
  validateGetStaticProps E data = inr () ∧
  negb (production E) && has data "notFound" && has data "redirect" = false ∧
  answers_notFound data && bool_decide (pathname request = "/404") = false ∧
  after_redirect E request "getStaticProps" data data' ∧
  answers_redirect data && export (handler context) = false ∧
  props_serialize E this request context "getStaticProps" data'.

(** The check on the [revalidate] of a [getStaticProps] result passes. *)
Definition revalidate_passes (this : PagesRouteModule) (request : NextRequest)
    (data : obj) : Prop :=
  has data "revalidate" = true →
  ∃ rv, validateRevalidate (get data "revalidate") (url request) = inr rv ∧
        revalidate_truthy rv && output_export this = false.










(** Nothing around a [notFound] answer gets in its way: the steps
    before the data function settle and the other checks on the result
    pass; for [getServerSideProps] the only one made before the answer
    is looked at is that of the keys. *)
Definition notFound_unhindered (E : Externals) (this : PagesRouteModule)
    (request : NextRequest) (context : PagesRouteHandlerRenderContext)
    (data : obj) : Prop :=
  render_starts E this request context ∧
  match getStaticProps (userland this) with
  | Some _ => ∃ data', static_result_passes E this request context data data' ∧
                       revalidate_passes this request data'
  | None => validateGetServerSideProps E data = inr ()
  end.

(** C10 as the spec has it, for one render: the not-found result is
    returned. *)
Definition notFound_result_returned (E : Externals) (this : PagesRouteModule)
    (request : NextRequest) (context : PagesRouteHandlerRenderContext) : Prop :=
  ∃ r, result (run (render E this request context)) = inr r ∧ not_found_result r.

(** * Sample pages and requests *)

Module Sample.
Definition collected : Collected :=
  {| collected_head := VArr []; collected_scriptLoader := VObj ∅;
     collected_modules := []; collected_styles := VArr [] |}.

(** A process of the given [NODE_ENV] and runtime: helpers that accept
    what they are given, an [App] whose initial props are [app_props],
    an engine that renders fixed markup. *)
Definition externals (node_env : string) (runtime : option string) (app_props : obj)
    : Externals :=
  {| NODE_ENV := node_env;
     NEXT_RUNTIME := runtime;
     Date_now := 1700000000000;
     STATIC_PROPS_ID := "__N_SSG";
     SERVER_PROPS_ID := "__N_SSP";
     JSON_stringify := λ o, "json:" +:+ pretty (size o);
     isDynamicRoute := λ page, includes page "[";
     isError := λ v, match v with
                     | VObj m => has m "name" && has m "message"
                     | _ => false
                     end;
     isInAmpMode := λ s, ampFirst s || (hybrid s && hasQuery s);
     normalizePagePath := λ p, p;
     denormalizePagePath := λ p, p;
     serializeError := λ _ e, e;
     tryGetPreviewData :=
       if bool_decide (runtime = Some "edge") then None
       else Some (λ _ _, inr (VBool false));
     Loadable_preloadAll := inr ();
     App_getInitialProps := λ _ _, Reply (inr app_props) false;
     validateGetStaticProps := λ _, inr ();
     validateGetServerSideProps := λ _, inr ();
     checkRedirectValues := λ data _ _, inr data;
     isSerializableProps := λ _ _ _, inr true;
     Document_getInitialProps := λ _ _,
       Reply (inr (VObj {[ "html" := VStr "<main/>" ]}, collected)) false;
     renderToInitialStream := λ _, inr ("<main/>", collected);
     renderToString := λ _ _ _,
       inr ("<html>" +:+ body_render_target +:+ "</html>",
            {[ "Main"; "Head"; "NextScript"; "Html" ]});
     continueFromInitialStream := λ initial suffix,
       inr (match initial with
            | ShellStream stream => stream
            | streamFromArray _ => ""
            end +:+ default "" suffix);
     postProcessHTML := λ _ html _ _, inr html;
     renderResultToResponse := λ result _ _ _,
       inr (match response result with
            | Some body => VStr body
            | None => VNull
            end) |}.

(** The default [App]: its [getInitialProps] is the original one. *)
Definition app : NextComponentType :=
  {| getInitialProps := Some 0; origGetInitialProps := Some 0; members := ∅;
     isValidElementType := true; unstable_scriptLoader := None |}.

Definition component (getInitialProps : option nat) : NextComponentType :=
  {| getInitialProps := getInitialProps; origGetInitialProps := None; members := ∅;
     isValidElementType := true; unstable_scriptLoader := None |}.

Definition document : DocumentType :=
  {| doc_displayName := "Document"; doc_getInitialProps := false;
     doc_builtin := None; doc_isValidElementType := true |}.

Definition route_config (output : option string) : PagesRouteConfig :=
  {| output := output; basePath := ""; assetPrefix := ""; i18n_domains := None;
     amp_canonicalBase := None; crossOrigin := None; poweredByHeader := true;
     generateEtags := true |}.

(** A production build of [page] with the given exports. *)
Definition page_module (E : Externals) (page : string) (output : option string)
    (getInitialProps : option nat)
    (getStaticProps : option (GetStaticPropsContext → value + obj))
    (getStaticPaths : option nat)
    (getServerSideProps : option (GetServerSidePropsContext → reply obj))
    : PagesRouteModule :=
  new_PagesRouteModule E
    {| dev := false; buildId := "build"; disableOptimizedLoading := false |}
    {| userland_default := component getInitialProps; userland_config := None;
       getStaticProps := getStaticProps; getStaticPaths := getStaticPaths;
       getServerSideProps := getServerSideProps |}
    page {| App := app; Document := document |} (route_config output).

Definition render_opts (page : string) (query : obj) (isDataReq : option bool)
    : RenderOpts :=
  {| page := page; statusCode := 200; ampPath := None; customServer := None;
     distDir := None; isDataReq := isDataReq; resolvedAsPath := None;
     query := query; resolvedUrl := page; err := None; runtime := None;
     runtimeConfig := None; locale := None; locales := None;
     defaultLocale := None; isLocaleDomain := None |}.

Definition handler_context (page : string) (query : obj) (isDataReq : option bool)
    : PagesRouteHandlerContext :=
  {| export := false; params := None;
     manifests := {| build := {| pages := ∅; lowPriorityFiles := [] |};
                     reactLoadable := ∅;
                     prerender := Some (VStr "preview-secret") |};
     context_renderOpts := render_opts page query isDataReq |}.

Definition node_request (path : string) : NextRequest :=
  {| url := path; nextUrl_pathname := path;
     originalRequest := Some {| im_url := path; im_nextStrippedLocale := false |} |}.

(** A request in the edge runtime: there is no Node.js request. *)
Definition edge_request (path : string) : NextRequest :=
  {| url := path; nextUrl_pathname := path; originalRequest := None |}.

(** The context [handle] gives [render] when preview is not resolved. *)
Definition render_context (request : NextRequest) (context : PagesRouteHandlerContext)
    : PagesRouteHandlerRenderContext :=
  {| handler := context; req := originalRequest request;
     isPreviewMode := false; previewData := VUndefined |}.

(** *** A dynamic static page asked for its fallback *)

Definition fallback_externals : Externals :=
  externals "production" None {[ "pageProps" := VObj {[ "theme" := VStr "dark" ]} ]}.

Definition fallback_page : PagesRouteModule :=
  page_module fallback_externals "/posts/[id]" None None
    (Some (λ _, inr {[ "props" := VObj {[ "id" := VStr "1" ]} ]})) (Some 1) None.

Definition fallback_request : NextRequest := node_request "/posts/[id]".

Definition fallback_context : PagesRouteHandlerRenderContext :=
  render_context fallback_request
    (handler_context "/posts/[id]" {[ "__nextFallback" := VStr "true" ]} None).

(** *** A server-rendered page, asked for its data *)

Definition profile_page : PagesRouteModule :=
  page_module (externals "production" None ∅) "/profile" None None None None
    (Some (λ _, Reply (inr {[ "props" := VObj {[ "user" := VStr "ada" ]} ]}) false)).

Definition profile_request : NextRequest := node_request "/profile".

Definition profile_data_context : PagesRouteHandlerRenderContext :=
  render_context profile_request (handler_context "/profile" ∅ (Some true)).

(** *** A server-rendered page that answers [notFound] *)

Definition missing_page : PagesRouteModule :=
  page_module (externals "production" None ∅) "/missing" None None None None
    (Some (λ _, Reply (inr {[ "notFound" := VBool true ]}) false)).

Definition missing_request : NextRequest := node_request "/missing".

Definition missing_data_context : PagesRouteHandlerRenderContext :=
  render_context missing_request (handler_context "/missing" ∅ (Some true)).

(** *** A static page *)

Definition post_page : PagesRouteModule :=
  page_module (externals "production" None ∅) "/post" None None
    (Some (λ _, inr {[ "props" := VObj {[ "id" := VStr "1" ]} ]})) None None.

Definition post_request : NextRequest := node_request "/post".

Definition post_context : PagesRouteHandlerRenderContext :=
  render_context post_request (handler_context "/post" {[ "id" := VStr "1" ]} None).

(** *** A static page whose result has both [notFound] and [redirect] *)

Definition gone_result : obj :=
  {[ "notFound" := VBool true;
     "redirect" := VObj {[ "destination" := VStr "/"; "permanent" := VBool false ]} ]}.

Definition gone_page : PagesRouteModule :=
  page_module (externals "production" None ∅) "/gone" None None
    (Some (λ _, inr gone_result)) None None.

Definition gone_request : NextRequest := node_request "/gone".

Definition gone_context : PagesRouteHandlerRenderContext :=
  render_context gone_request (handler_context "/gone" ∅ None).

(** *** A static page revalidated every ten seconds *)

Definition news_result : obj :=
  {[ "props" := VObj {[ "title" := VStr "news" ]}; "revalidate" := VNum 10 ]}.

Definition news_page (output : option string) : PagesRouteModule :=
  page_module (externals "production" None ∅) "/news" output None
    (Some (λ _, inr news_result)) None None.



(** *** A static page whose [getStaticProps] reads a missing file *)

Definition file_not_found : value :=
  VObj {[ "name" := VStr "Error"; "message" := VStr "no such file or directory";
          "code" := VStr "ENOENT" ]}.

Definition files_page : PagesRouteModule :=
  page_module (externals "production" None ∅) "/files" None None
    (Some (λ _, inl file_not_found)) None None.

Definition files_request : NextRequest := node_request "/files".

Definition files_context : PagesRouteHandlerRenderContext :=
  render_context files_request (handler_context "/files" ∅ None).
End Sample.

(** * More pages and requests *)

Module Pages.
(** The same process with an [App] of its own. *)
Definition with_App (E : Externals)
    (getInitialProps : ServerRouter → NextPageContext → reply obj) : Externals :=
  {| NODE_ENV := NODE_ENV E;
     NEXT_RUNTIME := NEXT_RUNTIME E;
     Date_now := Date_now E;
     STATIC_PROPS_ID := STATIC_PROPS_ID E;
     SERVER_PROPS_ID := SERVER_PROPS_ID E;
     JSON_stringify := JSON_stringify E;
     isDynamicRoute := isDynamicRoute E;
     isError := isError E;
     isInAmpMode := isInAmpMode E;
     normalizePagePath := normalizePagePath E;
     denormalizePagePath := denormalizePagePath E;
     serializeError := serializeError E;
     tryGetPreviewData := tryGetPreviewData E;
     Loadable_preloadAll := Loadable_preloadAll E;
     App_getInitialProps := getInitialProps;
     validateGetStaticProps := validateGetStaticProps E;
     validateGetServerSideProps := validateGetServerSideProps E;
     checkRedirectValues := checkRedirectValues E;
     isSerializableProps := isSerializableProps E;
     Document_getInitialProps := Document_getInitialProps E;
     renderToInitialStream := renderToInitialStream E;
     renderToString := renderToString E;
     continueFromInitialStream := continueFromInitialStream E;
     postProcessHTML := postProcessHTML E;
     renderResultToResponse := renderResultToResponse E |}.

(** The same page module served by [next dev]. *)
Definition in_development (this : PagesRouteModule) : PagesRouteModule :=
  {| userland := userland this;
     definition := definition this;
     config := config this;
     isDynamic := isDynamic this;
     components := components this;
     amp := amp this;
     renderOpts := {| dev := true; buildId := buildId (renderOpts this);
                      disableOptimizedLoading :=
                        disableOptimizedLoading (renderOpts this) |} |}.

(** *** A page without any data method: it is exported automatically *)

Definition about_page : PagesRouteModule :=
  Sample.page_module (Sample.externals "production" None ∅) "/about"
    None None None None None.

Definition about_request : NextRequest := Sample.node_request "/about".

Definition about_context : PagesRouteHandlerRenderContext :=
  Sample.render_context about_request
    (Sample.handler_context "/about" {[ "utm" := VStr "mail"; "amp" := VStr "1" ]} None).

(** *** A page with [getInitialProps] *)

Definition legacy_page : PagesRouteModule :=
  Sample.page_module (Sample.externals "production" None ∅) "/legacy"
    None (Some 1) None None None.

Definition legacy_request : NextRequest := Sample.node_request "/legacy".

Definition legacy_context : PagesRouteHandlerRenderContext :=
  Sample.render_context legacy_request (Sample.handler_context "/legacy" ∅ None).

(** Its [getInitialProps] answers the request itself. *)
Definition answering : Externals :=
  with_App (Sample.externals "production" None ∅) (λ _ _, Reply (inr ∅) true).

(** *** A server-rendered page that has moved *)

Definition moved_result : obj :=
  {[ "redirect" := VObj {[ "destination" := VStr "/about"; "permanent" := VBool true ]} ]}.

Definition moved_page : PagesRouteModule :=
  Sample.page_module (Sample.externals "production" None ∅) "/moved"
    None None None None (Some (λ _, Reply (inr moved_result) false)).

Definition moved_request : NextRequest := Sample.node_request "/moved".

Definition moved_context : PagesRouteHandlerRenderContext :=
  Sample.render_context moved_request (Sample.handler_context "/moved" ∅ None).

(** *** The fallback of a static page, asked for with preview on *)

Definition preview_fallback_context : PagesRouteHandlerRenderContext :=
  {| handler := handler Sample.fallback_context;
     req := req Sample.fallback_context;
     isPreviewMode := true;
     previewData := VObj {[ "draft" := VBool true ]} |}.

(** *** A static page that is never revalidated *)





(** *** A server-rendered page whose deferred props read a missing file *)

Definition deferred_result : obj :=
  {[ "props" := VPromise false Sample.file_not_found ]}.

Definition deferred_page : PagesRouteModule :=
  Sample.page_module (Sample.externals "production" None ∅) "/report" None None None None
    (Some (λ _, Reply (inr deferred_result) false)).

Definition deferred_request : NextRequest := Sample.node_request "/report".

Definition deferred_context : PagesRouteHandlerRenderContext :=
  Sample.render_context deferred_request (Sample.handler_context "/report" ∅ None).
End Pages.

Section Logic.
Context {A B : Type} (P : event → Prop) (X : exn → Prop).
Implicit Types (Q : A → Prop) (R : B → Prop).

Lemma triple_ret Q (a : A) : Q a → triple P Q X (mret a).
Proof. intros H s. split; [constructor | exact H]. Qed.

Lemma triple_throw Q (e : exn) : X e → triple P Q X (throw e).
Proof. intros H s. split; [constructor | exact H]. Qed.

Lemma triple_bind Q R (m : M A) (f : A → M B) :
  triple P Q X m → (∀ a, Q a → triple P R X (f a)) → triple P R X (m ≫= f).
Proof.
  intros Hm Hf s. destruct (Hm s) as [Hl Hr].
  unfold mbind, M_bind, bind. destruct (result (m s)) as [e | a]; cbn.
  - split; assumption.
  - destruct (Hf a Hr (sent (m s))) as [Hl' Hr']. split; [| exact Hr'].
    apply Forall_app. split; assumption.
Qed.

Lemma triple_mono Q (Q' : A → Prop) (m : M A) :
  triple P Q X m → (∀ a, Q a → Q' a) → triple P Q' X m.
Proof.
  intros Hm HQ s. destruct (Hm s) as [Hl Hr]. split; [exact Hl |].
  destruct (result (m s)); auto.
Qed.

Lemma triple_ret_bind R (a : A) (f : A → M B) :
  triple P R X (f a) → triple P R X (mret a ≫= f).
Proof.
  intros Hf. apply triple_bind with (Q := λ x, x = a).
  - by apply triple_ret.
  - by intros ? ->.
Qed.

Lemma triple_throw_bind R (e : exn) (f : A → M B) :
  X e → triple P R X (throw e ≫= f).
Proof.
  intros He. apply triple_bind with (Q := λ _, False); [| done].
  by apply triple_throw.
Qed.

Lemma triple_settle Q (r : value + A) :
  (∀ a, r = inr a → Q a) → (∀ v, r = inl v → X (Thrown v)) → triple P Q X (settle r).
Proof.
  intros Hok Herr. destruct r as [v | a]; cbn.
  - apply triple_throw. by apply Herr.
  - apply triple_ret. by apply Hok.
Qed.

Lemma triple_settle_bind R (r : value + A) (f : A → M B) :
  (∀ a, r = inr a → triple P R X (f a)) → (∀ v, r = inl v → X (Thrown v)) →
  triple P R X (settle r ≫= f).
Proof.
  intros Hok Herr. apply triple_bind with (Q := λ a, r = inr a); [| done].
  by apply triple_settle.
Qed.

Lemma triple_settle_exn_bind R (r : exn + A) (f : A → M B) :
  (∀ a, r = inr a → triple P R X (f a)) → (∀ e, r = inl e → X e) →
  triple P R X (settle_exn r ≫= f).
Proof.
  intros Hok Herr. apply triple_bind with (Q := λ a, r = inr a); [| done].
  destruct r as [e | a]; cbn.
  - apply triple_throw. by apply Herr.
  - by apply triple_ret.
Qed.

Lemma triple_call Q (ev : event) (r : value + A) :
  P ev → (∀ a, r = inr a → Q a) → (∀ v, r = inl v → X (Thrown v)) →
  triple P Q X (call ev r).
Proof.
  intros Hev Hok Herr s. unfold call, mbind, M_bind, bind. cbn.
  destruct r as [v | a]; cbn.
  - split; [by repeat constructor | by apply Herr].
  - split; [by repeat constructor | by apply Hok].
Qed.

Lemma triple_call_bind R (ev : event) (r : value + A) (f : A → M B) :
  P ev → (∀ a, r = inr a → triple P R X (f a)) → (∀ v, r = inl v → X (Thrown v)) →
  triple P R X (call ev r ≫= f).
Proof.
  intros Hev Hok Herr. apply triple_bind with (Q := λ a, r = inr a); [| done].
  by apply triple_call.
Qed.

Lemma triple_call_with_res Q (ev : event) (r : reply A) :
  P ev → (∀ a, settled r = inr a → Q a) → (∀ v, settled r = inl v → X (Thrown v)) →
  triple P Q X (call_with_res ev r).
Proof.
  intros Hev Hok Herr s. unfold call_with_res. cbn.
  destruct (triple_call Q ev (settled r) Hev Hok Herr s) as [Hl Hr].
  split; assumption.
Qed.

Lemma triple_call_with_res_bind R (ev : event) (r : reply A) (f : A → M B) :
  P ev → (∀ a, settled r = inr a → triple P R X (f a)) →
  (∀ v, settled r = inl v → X (Thrown v)) →
  triple P R X (call_with_res ev r ≫= f).
Proof.
  intros Hev Hok Herr. apply triple_bind with (Q := λ a, settled r = inr a); [| done].
  by apply triple_call_with_res.
Qed.

(** The handler is judged under the exceptions the body can throw. *)
Lemma triple_try_catch Q (X' : exn → Prop) (m : M A) (h : exn → M A) :
  triple P Q X' m → (∀ e, X' e → triple P Q X (h e)) → triple P Q X (try_catch m h).
Proof.
  intros Hm Hh s. destruct (Hm s) as [Hl Hr]. unfold try_catch.
  destruct (result (m s)) as [e | a] eqn:Hres; cbn.
  - destruct (Hh e Hr (sent (m s))) as [Hl' Hr']. split; [| exact Hr'].
    apply Forall_app. split; assumption.
  - split; [exact Hl |]. by rewrite Hres.
Qed.
End Logic.

Section LogicRules.
Context {A : Type} (P : event → Prop) (X : exn → Prop).
Implicit Types (Q : A → Prop).

Lemma bind_assoc {B C} (m : M C) (f : C → M B) (g : B → M A) s :
  ((m ≫= f) ≫= g) s = (m ≫= λ c, f c ≫= g) s.
Proof.
  unfold mbind, M_bind, bind. destruct (result (m s)) as [e | c]; cbn; [done |].
  destruct (result (f c (sent (m s)))) as [e | b]; cbn; [done |].
  by rewrite app_assoc.
Qed.

Lemma triple_assoc {B C} Q (m : M C) (f : C → M B) (g : B → M A) :
  triple P Q X (m ≫= λ c, f c ≫= g) → triple P Q X ((m ≫= f) ≫= g).
Proof. intros H s. rewrite bind_assoc. apply H. Qed.

Lemma triple_emit_bind Q (ev : event) (f : () → M A) :
  P ev → triple P Q X (f ()) → triple P Q X (emit ev ≫= f).
Proof.
  intros Hev Hf. apply triple_bind with (Q := λ _, True).
  - intros s. split; [by repeat constructor | done].
  - by intros [] _.
Qed.

Lemma triple_emit (Q : () → Prop) (ev : event) : P ev → Q () → triple P Q X (emit ev).
Proof. intros Hev HQ s. split; [by repeat constructor | done]. Qed.

Lemma triple_isResSent_bind Q (f : bool → M A) :
  (∀ b, triple P Q X (f b)) → triple P Q X (isResSent ≫= f).
Proof.
  intros Hf. apply triple_bind with (Q := λ _, True); [| auto].
  intros s. split; [constructor | done].
Qed.

Lemma triple_new_MockedResponse_bind Q (f : () → M A) :
  triple P Q X (f ()) → triple P Q X (new_MockedResponse ≫= f).
Proof.
  intros Hf. apply triple_bind with (Q := λ _, True).
  - intros s. split; [constructor | done].
  - by intros [] _.
Qed.

Lemma triple_when_bind Q (b : bool) (m : M ()) (f : () → M A) :
  (b = true → triple P Q X (m ≫= f)) → (b = false → triple P Q X (f ())) →
  triple P Q X (when b m ≫= f).
Proof.
  destruct b; cbn; intros Ht Hf; [by apply Ht |].
  apply triple_ret_bind. by apply Hf.
Qed.

Lemma triple_when (Q : () → Prop) (b : bool) (m : M ()) :
  (b = true → triple P Q X m) → (b = false → Q ()) → triple P Q X (when b m).
Proof.
  destruct b; cbn; intros Ht Hf; [by apply Ht |].
  apply triple_ret. by apply Hf.
Qed.
End LogicRules.

Section CatchRules.
Context {A B : Type} (P : event → Prop) (X : exn → Prop).

(** [try { await f(...) } catch (err) { ...; throw h(err) }] *)
Lemma triple_catch_call_bind (R : B → Prop) ev (r : value + A) (h : exn → exn)
    (k : A → M B) :
  P ev → (∀ a, r = inr a → triple P R X (k a)) → (∀ v, r = inl v → X (h (Thrown v))) →
  triple P R X (try_catch (call ev r) (λ err, throw (h err)) ≫= k).
Proof.
  intros Hev Hok Herr. apply triple_bind with (Q := λ a, r = inr a); [| done].
  apply triple_try_catch with (X' := λ e, ∃ v, r = inl v ∧ e = Thrown v).
  - apply triple_call; [done | done | eauto].
  - intros e (v & Hv & ->). apply triple_throw. by apply Herr.
Qed.

Lemma triple_catch_call_with_res_bind (R : B → Prop) ev (r : reply A) (h : exn → exn)
    (k : A → M B) :
  P ev → (∀ a, settled r = inr a → triple P R X (k a)) →
  (∀ v, settled r = inl v → X (h (Thrown v))) →
  triple P R X (try_catch (call_with_res ev r) (λ err, throw (h err)) ≫= k).
Proof.
  intros Hev Hok Herr. apply triple_bind with (Q := λ a, settled r = inr a); [| done].
  apply triple_try_catch with (X' := λ e, ∃ v, settled r = inl v ∧ e = Thrown v).
  - apply triple_call_with_res; [done | done | eauto].
  - intros e (v & Hv & ->). apply triple_throw. by apply Herr.
Qed.
End CatchRules.

(** One step through the head of a computation. *)
Ltac triple_step :=
  lazymatch goal with
  | |- triple _ _ _ (mbind _ (mbind _ _)) => apply triple_assoc
  | |- triple _ _ _ (mbind _ (mret _)) => apply triple_ret_bind
  | |- triple _ _ _ (mbind _ (ret _)) => apply triple_ret_bind
  | |- triple _ _ _ (mbind _ (throw _)) => apply triple_throw_bind
  | |- triple _ _ _ (mbind _ (emit _)) => apply triple_emit_bind
  | |- triple _ _ _ (mbind _ (settle _)) =>
      apply triple_settle_bind; [intros ? ? | intros ? ?]
  | |- triple _ _ _ (mbind _ (settle_exn _)) =>
      apply triple_settle_exn_bind; [intros ? ? | intros ? ?]
  | |- triple _ _ _ (mbind _ (try_catch (call _ _) _)) =>
      apply triple_catch_call_bind; [| intros ? ? | intros ? ?]
  | |- triple _ _ _ (mbind _ (try_catch (call_with_res _ _) _)) =>
      apply triple_catch_call_with_res_bind; [| intros ? ? | intros ? ?]
  | |- triple _ _ _ (mbind _ (call _ _)) =>
      apply triple_call_bind; [| intros ? ? | intros ? ?]
  | |- triple _ _ _ (mbind _ (call_with_res _ _)) =>
      apply triple_call_with_res_bind; [| intros ? ? | intros ? ?]
  | |- triple _ _ _ (mbind _ isResSent) => apply triple_isResSent_bind; intros ?
  | |- triple _ _ _ (mbind _ new_MockedResponse) => apply triple_new_MockedResponse_bind
  | |- triple _ _ _ (mbind _ (when _ _)) => apply triple_when_bind; intros ?
  | |- triple _ _ _ (mbind _ (for_of _ _)) => progress cbn [for_of]
  | |- triple _ _ _ (mbind _ (if ?b then _ else _)) => destruct b eqn:?
  | |- triple _ _ _ (mbind _ (match ?x with _ => _ end)) => destruct x eqn:?
  | |- triple _ _ _ (mret _) => apply triple_ret
  | |- triple _ _ _ (ret _) => apply triple_ret
  | |- triple _ _ _ (throw _) => apply triple_throw
  | |- triple _ _ _ (emit _) => apply triple_emit
  | |- triple _ _ _ (when _ _) => apply triple_when; intros ?
  | |- triple _ _ _ (call _ _) => apply triple_call; [| intros ? ? | intros ? ?]
  | |- triple _ _ _ (call_with_res _ _) =>
      apply triple_call_with_res; [| intros ? ? | intros ? ?]
  | |- triple _ _ _ (for_of _ _) => progress cbn [for_of]
  | |- triple _ _ _ (if ?b then _ else _) => destruct b eqn:?
  | |- triple _ _ _ (match ?x with _ => _ end) => destruct x eqn:?
  | |- triple _ _ _ (let _ := _ in _) => cbv zeta
  end.

(** A computation that throws on every path does so from any state. *)
Lemma triple_fails {A} (P : event → Prop) (X : exn → Prop) (m : M A) s :
  triple P (λ _, False) X m → ∃ e, result (m s) = inl e ∧ X e ∧ Forall P (log (m s)).
Proof.
  intros H. destruct (H s) as [Hl Hr]. destruct (result (m s)) as [e | a]; [| done].
  by exists e.
Qed.

Lemma triple_events_mono {A} (P P' : event → Prop) (Q : A → Prop) (X : exn → Prop) (m : M A) :
  (∀ ev, P ev → P' ev) → triple P Q X m → triple P' Q X m.
Proof.
  intros HP Hm s. destruct (Hm s) as [Hl Hr]. split; [| exact Hr].
  eapply Forall_impl; eauto.
Qed.

Lemma triple_exn_mono {A} (P : event → Prop) (Q : A → Prop) (X X' : exn → Prop) (m : M A) :
  (∀ e, X e → X' e) → triple P Q X m → triple P Q X' m.
Proof.
  intros HX Hm s. destruct (Hm s) as [Hl Hr]. split; [exact Hl |].
  destruct (result (m s)); auto.
Qed.

(** What a triple says of one run. *)
Lemma triple_run {A} (P : event → Prop) (Q : A → Prop) (X : exn → Prop) (m : M A) s :
  triple P Q X m →
  Forall P (log (m s)) ∧ (∀ a, result (m s) = inr a → Q a) ∧
  (∀ e, result (m s) = inl e → X e).
Proof.
  intros H. destruct (H s) as [Hl Hr]. split; [exact Hl |].
  destruct (result (m s)); split; intros ? [= <-]; exact Hr.
Qed.



Lemma data_event_not_document ev : data_event ev → ¬ document_event ev.
Proof. destruct ev; cbn; tauto. Qed.

Lemma has_lookup_Some (o : obj) k v : o !! k = Some v → has o k = true.
Proof. intros H. unfold has. apply bool_decide_eq_true. by eexists. Qed.


Lemma get_lookup_Some (o : obj) k v : o !! k = Some v → get o k = v.
Proof. intros H. unfold get. by rewrite H. Qed.

(** Two outcomes of one call are the same outcome. *)
Ltac same_outcome :=
  repeat match goal with
         | H1 : ?r = inr ?a, H2 : ?r = inr ?b |- _ =>
             assert (b = a) as -> by congruence; clear H2
         | H1 : ?r = inl ?a, H2 : ?r = inl ?b |- _ =>
             assert (b = a) as -> by congruence; clear H2
         | H1 : ?r = inr _, H2 : ?r = inl _ |- _ => congruence
         end.

Lemma production_false E : NODE_ENV E ≠ "production" → production E = false.
Proof. intros H. unfold production. by apply bool_decide_eq_false. Qed.

Lemma has_is_Some (o : obj) k : is_Some (o !! k) → has o k = true.
Proof. intros H. unfold has. by apply bool_decide_eq_true. Qed.


Lemma setup_runs_none l : Forall (λ ev, is_Run_setup ev = false) l → setup_runs l = 0.
Proof.
  unfold setup_runs. induction 1 as [| ev l Hev _ IH]; [done |].
  cbn. by rewrite Hev.
Qed.

Lemma setup_runs_app l1 l2 : setup_runs (l1 ++ l2) = setup_runs l1 + setup_runs l2.
Proof. unfold setup_runs. by rewrite List.filter_app, length_app. Qed.

Lemma log_emit_bind {A} (ev : event) (k : () → M A) s :
  log ((emit ev ≫= k) s) = ev :: log (k () s).
Proof. reflexivity. Qed.

Lemma remove_not_found_code_ENOENT isError err :
  carries_ENOENT isError err = true →
  ∃ m, err = VObj m ∧
       remove_not_found_code isError (Thrown err) = Thrown (VObj (delete "code" m)).
Proof.
  unfold carries_ENOENT. intros Hc. destruct err as [| | | | | | m |]; cbn in *;
    try by rewrite andb_false_r in Hc.
  exists m. split; [done |]. by rewrite Hc.
Qed.

Lemma remove_not_found_code_other isError err :
  carries_ENOENT isError err = false →
  remove_not_found_code isError (Thrown err) = Thrown err.
Proof.
  unfold carries_ENOENT. intros Hc. destruct err as [| | | | | | m |]; cbn in *; try done.
  by rewrite Hc.
Qed.

(** * [render], block by block *)

Section RenderBlocks.
Context (E : Externals) (this : PagesRouteModule).
Context (request : NextRequest) (context : PagesRouteHandlerRenderContext).

Lemma warn_reserved_url_spec (P : event → Prop) props :
  P (logger_warn (ReservedUrlProp (pathname request))) →
  triple P (λ _, True) (λ _, True) (warn_reserved_url E this request props).
Proof. intros HP. unfold warn_reserved_url. repeat (triple_step; try done). Qed.

Lemma renderDocument_spec props beforeInteractive query :
  triple (rendering_event props query) (λ _, True) (λ _, True)
    (renderDocument E this request context
       (page_tree E this request context props beforeInteractive)).
Proof. unfold renderDocument. repeat (triple_step; try done). Qed.

Lemma bodyResult_spec props query documentResult suffix :
  triple (rendering_event props query) (λ _, True) (λ _, True)
    (bodyResult E documentResult suffix).
Proof. unfold bodyResult. repeat (triple_step; try done). Qed.

(** The payload of [htmlProps] is [NEXT_DATA] of the same [props]. *)
Lemma htmlProps_NEXT_DATA props md documentResult :
  ∃ ids, __NEXT_DATA__ (htmlProps E this request context props md documentResult) =
         NEXT_DATA E this context props ids.
Proof. unfold htmlProps. destruct (dynamicImportsOf _ _) as [ids files]. by exists ids. Qed.

Lemma render_document_spec props md beforeInteractive :
  triple (rendering_event props (render_query this context))
    (λ r, metadata r = md) (λ _, True)
    (render_document E this request context props md beforeInteractive).
Proof.
  unfold render_document.
  eapply triple_bind; [apply renderDocument_spec |]. intros [documentResult |] _.
  - cbv beta iota zeta. triple_step; [| | done].
    + destruct (htmlProps_NEXT_DATA props md documentResult) as [ids Hids].
      cbn. by rewrite Hids.
    + destruct a as [documentHTML docComponentsRendered].
      repeat (first [ eapply triple_bind; [apply bodyResult_spec | intros ? _]
                    | triple_step ]; try done).
  - by apply triple_ret.
Qed.

Lemma render_finish_spec props md beforeInteractive :
  triple (rendering_event props (render_query this context))
    (λ r, metadata r = md) (λ _, True)
    (render_finish E this request context props md beforeInteractive).
Proof.
  unfold render_finish.
  eapply triple_bind; [by apply warn_reserved_url_spec |]. intros [] _.
  triple_step; [by apply triple_ret |].
  triple_step. triple_step; [by apply triple_ret |].
  apply render_document_spec.
Qed.
Lemma render_getStaticProps_None props md :
  getStaticProps (userland this) = None →
  render_getStaticProps E this request context props md = mret (Next (props, md)).
Proof. intros H. unfold render_getStaticProps. by rewrite H. Qed.

Lemma render_getStaticProps_fallback f props md :
  getStaticProps (userland this) = Some f → isFallback context = true →
  render_getStaticProps E this request context props md =
  mret (Next (<[STATIC_PROPS_ID E := VBool true]> props, md)).
Proof. intros H Hfb. unfold render_getStaticProps. by rewrite H, Hfb. Qed.

Lemma render_getServerSideProps_None props md :
  getServerSideProps (userland this) = None →
  render_getServerSideProps E this request context props md = mret (Next (props, md)).
Proof. intros H. unfold render_getServerSideProps. by rewrite H. Qed.

Lemma render_getServerSideProps_fallback f props md :
  getServerSideProps (userland this) = Some f → isFallback context = true →
  render_getServerSideProps E this request context props md =
  mret (Next (<[SERVER_PROPS_ID E := VBool true]> props,
              write_through (<[SERVER_PROPS_ID E := VBool true]> props) md)).
Proof. intros H Hfb. unfold render_getServerSideProps. by rewrite H, Hfb. Qed.

Lemma mark_preview_fallback props :
  isFallback context = true → mark_preview this context props = props.
Proof.
  intros Hfb. unfold mark_preview, isPreview. rewrite Hfb.
  by rewrite andb_false_r.
Qed.

(** [initialScripts] logs the call of the script loader and throws
    what the loader throws. *)
Lemma initialScripts_spec (P : event → Prop) (X : exn → Prop) :
  P Call_unstable_scriptLoader →
  (∀ v, unstable_scriptLoader (userland_default (userland this)) = Some (inl v) →
        X (Thrown v)) →
  triple P (λ _, True) X (initialScripts this).
Proof.
  intros HP HX. unfold initialScripts.
  repeat (triple_step; simplify_eq/=; try done). by apply HX.
Qed.

(** The data-fetching blocks log nothing but the call of the user
    function, and [return] nothing but the not-found result. *)
Lemma render_getStaticProps_returns props md :
  triple data_event
    (λ fl, match fl with
           | Return r => not_found_result r
           | Next _ => True
           end)
    (λ _, True)
    (render_getStaticProps E this request context props md).
Proof.
  unfold render_getStaticProps. repeat (triple_step; try done).
Qed.

Lemma render_getServerSideProps_returns props md :
  triple data_event
    (λ fl, match fl with
           | Return r => not_found_result r
           | Next _ => True
           end)
    (λ _, True)
    (render_getServerSideProps E this request context props md).
Proof.
  unfold render_getServerSideProps. repeat (triple_step; try done).
Qed.
Lemma render_finish_data_request props md beforeInteractive :
  default false (isDataReq (context_renderOpts (handler context))) &&
    has_getServerSideProps this = true →
  triple (λ ev, ¬ document_event ev)
    (λ r, response r = Some (JSON_stringify E props) ∧ metadata r = md) (λ _, True)
    (render_finish E this request context props md beforeInteractive).
Proof.
  intros Hdata. unfold render_finish. rewrite Hdata.
  eapply triple_bind; [by apply warn_reserved_url_spec; auto |]. intros [] _.
  cbn. by apply triple_ret.
Qed.
(** Off production, a result with both [notFound] and [redirect] is
    refused. *)
Lemma render_getStaticProps_mixed f data props md :
  NODE_ENV E ≠ "production" →
  getStaticProps (userland this) = Some f →
  isFallback context = false →
  f (static_props_context this context) = inr data →
  is_Some (data !! "notFound") → is_Some (data !! "redirect") →
  triple data_event (λ _, False)
    (λ e, e = Error (MixedNotFoundRedirect (pathname request)) ∨
          thrown_before_checks E this request context data e)
    (render_getStaticProps E this request context props md).
Proof.
  intros Hprod%production_false Hf Hfb Hdata Hnf%has_is_Some Hrd%has_is_Some.
  unfold render_getStaticProps. rewrite Hf, Hfb.
  triple_step; [done | | by same_outcome]. same_outcome.
  triple_step; [| right; eexists; eauto 6].
  triple_step; [triple_step; by left |].
  by rewrite Hprod, Hnf, Hrd in *.
Qed.



(** What a user data function throws leaves [render] through the
    [catch] of its block. *)
Lemma render_rethrows err app_props :
  isFallback context = false →
  Loadable_preloadAll E = inr () →
  (∀ v, unstable_scriptLoader (userland_default (userland this)) ≠ Some (inl v)) →
  settled (App_getInitialProps E (router this request context)
             (ctx this request context)) = inr app_props →
  thrown_by_data_function this request context err →
  triple (λ _, True) (λ _, False)
    (λ e, e = remove_not_found_code (isError E) (Thrown err))
    (render E this request context).
Proof.
  intros Hfb Hpreload Hscripts Happ Hthrown. unfold render.
  triple_step; [done |]. triple_step; [done | | intros; congruence].
  eapply triple_bind; [apply initialScripts_spec; [done |] |].
  { intros v Hv. by destruct (Hscripts v). }
  intros beforeInteractive _.
  triple_step; [done | | intros; cbn in *; congruence].
  destruct Hthrown as [(f & Hf & Herr) | (Hnone & g & Hg & Herr)].
  - unfold render_getStaticProps. rewrite Hf, Hfb.
    repeat (triple_step; same_outcome; try done).
  - rewrite render_getStaticProps_None by done. triple_step.
    unfold render_serverSide, render_getServerSideProps. rewrite Hg, Hfb.
    repeat (triple_step; same_outcome; try done).
Qed.
Lemma pathname_not_404 : bool_decide (pathname request = "/404") = false →
  pathname request ≠ "/404".
Proof. apply bool_decide_eq_false. Qed.

(** A [notFound] answer ends [render] in its block: as the not-found
    result, never for [/404]. *)
Lemma render_notFound data :
  isFallback context = false →
  returned_by_data_function this request context data →
  answers_notFound data = true →
  triple (λ ev, ¬ document_event ev)
    (λ r, pathname request ≠ "/404" ∧ not_found_result r) (λ _, True)
    (render E this request context).
Proof.
  unfold answers_notFound. intros Hfb Hreturned Hnf. unfold render.
  triple_step; [auto |]. triple_step; [auto | | done].
  eapply triple_bind; [by apply initialScripts_spec; auto |]. intros beforeInteractive _.
  triple_step; [auto | | done].
  destruct Hreturned as [(f & Hf & Hdata) | (Hnone & g & Hg & Hdata)].
  - unfold render_getStaticProps. rewrite Hf, Hfb.
    repeat (triple_step; same_outcome; rewrite ?Hnf in *; simplify_eq/=;
            auto using pathname_not_404).
    all: split; [by apply pathname_not_404 | done].
  - rewrite render_getStaticProps_None by done. triple_step.
    unfold render_serverSide, render_getServerSideProps. rewrite Hg, Hfb.
    repeat (triple_step; same_outcome; rewrite ?Hnf in *; simplify_eq/=;
            auto using pathname_not_404).
    split; [by apply pathname_not_404 | done].
Qed.
End RenderBlocks.

(** * [handle] *)

Section HandleBlocks.
Context (E : Externals) (this : PagesRouteModule).

Lemma render_events request context :
  triple (render_event request context) (λ _, True) (λ _, True)
    (render E this request context).
Proof.
  unfold render. triple_step; [done |]. triple_step; [done | | done].
  eapply triple_bind; [by apply initialScripts_spec |]. intros beforeInteractive _.
  triple_step; [done | | done].
  eapply triple_bind.
  { eapply triple_events_mono; [| apply render_getStaticProps_returns]. by intros []. }
  intros [r | [props md]] _; [by apply triple_ret |].
  unfold render_serverSide. eapply triple_bind.
  { eapply triple_events_mono; [| apply render_getServerSideProps_returns].
    by intros []. }
  intros [r | [props' md']] _; [by apply triple_ret |].
  eapply triple_mono; [eapply triple_events_mono; [| apply render_finish_spec] |];
    [| done].
  by intros [].
Qed.

(** [handle] starts by running [setup], and never runs it again. *)
Lemma handle_runs_setup_first request context s :
  ∃ l, log (handle E this request context s) =
         Run_setup (page (context_renderOpts context)) (export context)
           (dev (renderOpts this)) :: l ∧
       setup_runs l = 0.
Proof.
  eexists. split.
  - unfold handle, setup. rewrite bind_assoc. apply log_emit_bind.
  - apply setup_runs_none.
    match goal with
    | |- Forall _ (log (?m s)) =>
        cut (triple (λ ev, is_Run_setup ev = false) (λ _, True) (λ _, True) m)
    end.
    { intros H. apply H. }
    cbv beta.
    repeat (first [ eapply triple_bind;
                      [eapply triple_events_mono; [| apply render_events]; by intros []
                      | intros ? _]
                  | unfold transform; triple_step ]; try done).
Qed.

(** The part of C9 that holds: when preview data is decoded, and when
    [render] is told it is in preview mode. *)
Lemma handle_preview_resolution request context :
  triple (preview_resolution E this request context) (λ _, True) (λ _, True)
    (handle E this request context).
Proof.
  unfold handle, setup.
  repeat (first [ eapply triple_bind;
                    [eapply triple_events_mono; [| apply render_events]
                    | intros ? _]
                | unfold transform; triple_step ]; try done).
  all: try (intros [] Hev; try done; destruct Hev as [_ ->]; cbn; try done;
            intros Hpreview; by eauto 10).
Qed.

(** The two data functions are not told about preview the same way:
    [getStaticProps] is under [isPreview], [getServerSideProps] under
    [previewData !== false], which holds of an [undefined] one. *)
Lemma static_props_context_preview context :
  isPreviewMode context = false →
  gsp_preview (static_props_context this context) = None.
Proof.
  intros H. unfold static_props_context, isPreview. cbn. rewrite H.
  by destruct (isFallback context).
Qed.

Lemma server_side_props_context_preview request context :
  previewData context = VUndefined →
  gssp_preview (server_side_props_context this request context) = Some VUndefined.
Proof.
  intros H. unfold server_side_props_context, render_previewData. cbn. rewrite H.
  by destruct (isFallback context).
Qed.
End HandleBlocks.

(** * Renders that return *)

(** Use what is known of the checks on a result. *)
Ltac use_checks :=
  repeat match goal with
         | H : ?P → _, H' : ?P |- _ => specialize (H H')
         | H : true = true → _ |- _ => specialize (H eq_refl)
         | H : ∃ _, _ |- _ => destruct H as [? H]
         | H : _ ∧ _ |- _ => destruct H
         end;
  same_outcome; simplify_eq/=; try congruence.
Section RenderOutcomes.
Context (E : Externals) (this : PagesRouteModule).
Context (request : NextRequest) (context : PagesRouteHandlerRenderContext).

(** A [notFound] answer is returned when nothing else throws. *)
Lemma render_notFound_returns data :
  isFallback context = false →
  returned_by_data_function this request context data →
  answers_notFound data = true →
  pathname request ≠ "/404" →
  notFound_unhindered E this request context data →
  triple (λ _, True) (λ _, True) (λ _, False) (render E this request context).
Proof.
  intros Hfb Hreturned Hnf H404%(bool_decide_eq_false_2 _)
    ((Hpreload & Hscripts & [app_props Happ]) & Hpass).
  unfold render.
  triple_step; [done |]. triple_step; [done | | intros; congruence].
  eapply triple_bind; [apply initialScripts_spec; [done |] |].
  { intros v Hv. by destruct (Hscripts v). }
  intros beforeInteractive _.
  triple_step; [done | | intros; cbn in *; congruence].
  destruct Hreturned as [(f & Hf & Hdata) | (Hnone & g & Hg & Hdata)].
  - rewrite Hf in Hpass.
    destruct Hpass as (data' & (Hvs & Hmixed & _ & Hrd & Hexp & Hser) & Hrv).
    unfold after_redirect in Hrd. unfold answers_redirect in *.
    unfold answers_notFound in Hnf. unfold props_serialize in Hser.
    unfold revalidate_passes in Hrv.
    unfold render_getStaticProps. rewrite Hf, Hfb.
    destruct (has data "redirect" && truthy (get data "redirect") &&
              typeof_object (get data "redirect")) eqn:Hredirect;
      [rewrite andb_true_l in Hexp | subst data'].
    all: repeat (triple_step; same_outcome;
            rewrite ?Hmixed, ?Hnf, ?H404, ?Hredirect, ?Hexp in *;
            simplify_eq/=; try done).
    all: use_checks.
  - rewrite Hnone in Hpass. unfold answers_notFound in Hnf.
    rewrite render_getStaticProps_None by done. triple_step.
    unfold render_serverSide, render_getServerSideProps. rewrite Hg, Hfb.
    repeat (triple_step; same_outcome;
            rewrite ?Hnf, ?H404 in *;
            simplify_eq/=; try done).
Qed.

(** And only then. *)
Lemma render_notFound_unhindered data :
  isFallback context = false →
  returned_by_data_function this request context data →
  answers_notFound data = true →
  triple (λ _, True) (λ _, notFound_unhindered E this request context data) (λ _, True)
    (render E this request context).
Proof.
  intros Hfb Hreturned Hnf. unfold render.
  triple_step; [done |]. triple_step; [done | | done].
  rename H into Hpreload. destruct a.
  apply triple_bind with (Q := λ _, ∀ v,
    unstable_scriptLoader (userland_default (userland this)) ≠ Some (inl v)).
  { unfold initialScripts. repeat (triple_step; try done); congruence. }
  intros beforeInteractive Hscripts.
  triple_step; [done | | done]. rename H into Happ. cbn in Happ.
  assert (render_starts E this request context) as Hstarts by (repeat split; eauto).
  destruct Hreturned as [(f & Hf & Hdata) | (Hnone & g & Hg & Hdata)].
  - unfold notFound_unhindered. rewrite Hf. unfold answers_notFound in Hnf.
    unfold render_getStaticProps. rewrite Hf, Hfb.
    repeat (triple_step; same_outcome; rewrite ?Hnf in *; simplify_eq/=; try done).
    all: split; [done |]; eexists; unfold static_result_passes, after_redirect,
      answers_redirect, props_serialize, revalidate_passes, answers_notFound.
    all: repeat match goal with
                | H : _ = inr ?u |- _ => is_var u; destruct u
                | H : negb ?b = false |- _ => is_var b; destruct b; [clear H | done]
                end.
    all: rewrite ?Hnf; repeat split; try eassumption; try (intros; congruence).
    all: repeat match goal with H : ?b = _ |- context [?b] => rewrite H end;
      try done; try eassumption; try (intros; congruence); eauto.
  - unfold notFound_unhindered. rewrite Hnone. unfold answers_notFound in Hnf.
    rewrite render_getStaticProps_None by done. triple_step.
    unfold render_serverSide, render_getServerSideProps. rewrite Hg, Hfb.
    repeat (triple_step; same_outcome; rewrite ?Hnf in *; simplify_eq/=; try done).
    by destruct a0.
Qed.







End RenderOutcomes.

(** * The claims *)

(** The sample pages are pages [setup] lets through. *)
Example sample_pages_pass_setup :
  Forall (λ this, result (run (setup this (definition_page (definition this))
                                 false false)) = inr ())
    [ Sample.fallback_page; Sample.profile_page; Sample.missing_page; Sample.post_page;
      Sample.gone_page; Sample.news_page None; Sample.news_page (Some "export");
      Sample.files_page ].
Proof. repeat constructor. Qed.

(** ** C1 *)

Lemma setup_conflict this page nextExport dev :
  1 < declared_data_methods this →
  triple setup_event (λ _, False) (λ e, is_conflict_error e = true)
    (setup this page nextExport dev).
Proof.
  unfold declared_data_methods, setup. intros Hmore.
  destruct (has_getStaticProps this), (has_getServerSideProps this),
    (has_getInitialProps this); cbn in Hmore; try lia;
    repeat (triple_step; cbn in *; try done).
Qed.

(** C1. A page module that declares more than one of [getStaticProps],
    [getServerSideProps] and [getInitialProps] fails [setup] with one of
    the configuration errors about mixed data-fetching methods; [handle]
    then fails with that error having done nothing but [setup]: no render
    is started and no user function is called. *)
Theorem setup_rejects_mixed_data_methods E this :
  1 < declared_data_methods this →
  (∀ page nextExport dev s,
     ∃ e, result (setup this page nextExport dev s) = inl e ∧
          is_conflict_error e = true) ∧
  (∀ request context s,
     ∃ e, result (handle E this request context s) = inl e ∧
          is_conflict_error e = true ∧
          Forall setup_event (log (handle E this request context s))).
Proof.
  intros Hmore. split.
  - intros page nextExport dev s.
    destruct (triple_fails _ _ _ s (setup_conflict this page nextExport dev Hmore))
      as (e & He & Hc & _).
    by exists e.
  - intros request context s. apply triple_fails. unfold handle.
    eapply triple_bind; [by apply setup_conflict | done].
Qed.

Lemma setup_rejects_mixed_data_methods_witness :
  let this := Sample.page_module (Sample.externals "production" None ∅) "/about" None
                (Some 1) (Some (λ _, inr ∅)) None None in
  1 < declared_data_methods this ∧
  ∃ e, result (run (handle (Sample.externals "production" None ∅) this
                      (Sample.node_request "/about")
                      (Sample.handler_context "/about" ∅ None))) = inl e ∧
       is_conflict_error e = true.
Proof.
  cbv zeta. split; [vm_compute; lia |].
  destruct (setup_rejects_mixed_data_methods (Sample.externals "production" None ∅)
              (Sample.page_module (Sample.externals "production" None ∅) "/about" None
                 (Some 1) (Some (λ _, inr ∅)) None None)) as [_ H].
  - vm_compute. lia.
  - destruct (H (Sample.node_request "/about") (Sample.handler_context "/about" ∅ None)
                false) as (e & He & Hc & _).
    exists e. split; [exact He | exact Hc].
Defined.

(** ** C2 *)

(** C2, as the code has it. On a fallback render of a page with
    [getStaticProps] the function is not called, and the page props every
    later step sees (the page tree, the hydration payload) are the
    [pageProps] of the [App]'s initial props, untouched: [render] does
    not reset them, so they are empty when the [App] supplies none. *)
Theorem fallback_render_skips_getStaticProps E this request context :
  is_Some (getStaticProps (userland this)) →
  isFallback context = true →
  STATIC_PROPS_ID E ≠ "pageProps" → SERVER_PROPS_ID E ≠ "pageProps" →
  ∀ s, Forall (fallback_event E this request context)
         (log (render E this request context s)).
Proof.
  intros [f Hf] Hfb Hssg Hssp s.
  cut (triple (fallback_event E this request context) (λ _, True) (λ _, True)
         (render E this request context)); [intros H; apply H |].
  unfold render. triple_step; [done |]. triple_step; [done | | done].
  eapply triple_bind; [by apply initialScripts_spec |]. intros beforeInteractive _.
  triple_step; [done | | done]. rename a0 into app_props, H0 into Happ.
  rewrite mark_preview_fallback by done.
  rewrite (render_getStaticProps_fallback E this request context f) by done.
  triple_step. unfold render_serverSide.
  assert (∀ props md, props !! "pageProps" = app_props !! "pageProps" →
            triple (fallback_event E this request context) (λ _, True) (λ _, True)
              (render_finish E this request context props md beforeInteractive)) as Hfin.
  { intros props md Hpp.
    eapply triple_mono; [eapply triple_events_mono; [| apply render_finish_spec] |]; [| done].
    intros ev Hev. split.
    - intros c ->. done.
    - intros props' Hprops'. exists app_props. split; [done |].
      destruct ev; try done; cbn in *; simplify_eq; try done.
      by destruct Hev as [-> _]. }
  destruct (getServerSideProps (userland this)) as [g |] eqn:Hg.
  - rewrite (render_getServerSideProps_fallback E this request context g) by done.
    triple_step. apply Hfin. by rewrite !lookup_insert_ne.
  - rewrite render_getServerSideProps_None by done.
    triple_step. apply Hfin. by rewrite lookup_insert_ne.
Qed.

Lemma fallback_render_skips_getStaticProps_witness :
  Forall (fallback_event Sample.fallback_externals Sample.fallback_page
            Sample.fallback_request Sample.fallback_context)
    (log (run (render Sample.fallback_externals Sample.fallback_page
                 Sample.fallback_request Sample.fallback_context))).
Proof.
  apply fallback_render_skips_getStaticProps;
    [by eexists | reflexivity | done | done].
Defined.

(** The spec's reading of C2 fails on a fallback render under an [App]
    whose initial props carry [pageProps]: they reach the page tree. *)
Lemma fallback_page_props_not_empty :
  isFallback Sample.fallback_context = true ∧
  is_Some (getStaticProps (userland Sample.fallback_page)) ∧
  isDynamic Sample.fallback_page = true ∧
  ¬ fallback_props_empty Sample.fallback_externals Sample.fallback_page
      Sample.fallback_request Sample.fallback_context.
Proof.
  split; [reflexivity |]. split; [by eexists |]. split; [reflexivity |].
  intros Hempty.
  assert (∃ t, Call_renderToInitialStream t ∈
                 log (run (render Sample.fallback_externals Sample.fallback_page
                             Sample.fallback_request Sample.fallback_context)) ∧
               get (tree_props t) "pageProps" = VObj {[ "theme" := VStr "dark" ]})
    as (t & Hin & Ht).
  { eexists. split.
    - vm_compute. do 3 apply list_elem_of_further. apply list_elem_of_here.
    - vm_compute. reflexivity. }
  destruct (Hempty _ Hin) as [_ Hprops].
  specialize (Hprops _ eq_refl). rewrite Ht in Hprops. cbn in Hprops.
  by apply (f_equal (λ m : obj, m !! "theme")) in Hprops.
Qed.

(** ** C3 *)




(** ** C4 *)





(** ** C5 *)

(** C5, as the code has it. Outside production ([NODE_ENV] is not
    ["production"]), a [getStaticProps] result that has both a [redirect]
    and a [notFound] key fails the request: with the configuration error
    about the two keys, unless a step before that check threw first
    (preloading, the script loader, the [App]'s initial props, the
    validation of the result's keys). In production the check is not made. *)
Theorem mixed_not_found_redirect_fails E this request context f data :
  NODE_ENV E ≠ "production" →
  getStaticProps (userland this) = Some f →
  isFallback context = false →
  f (static_props_context this context) = inr data →
  is_Some (data !! "notFound") → is_Some (data !! "redirect") →
  ∀ s, ∃ e, result (render E this request context s) = inl e ∧
            (e = Error (MixedNotFoundRedirect (pathname request)) ∨
             thrown_before_checks E this request context data e).
Proof.
  intros Hprod Hf Hfb Hdata Hnf Hrd s.
  cut (triple (λ _, True) (λ _ : RenderResult, False)
         (λ e, e = Error (MixedNotFoundRedirect (pathname request)) ∨
               thrown_before_checks E this request context data e)
         (render E this request context)).
  { intros H. destruct (triple_fails _ _ _ s H) as (e & He & HX & _). by exists e. }
  unfold render. triple_step; [done |].
  triple_step; [done | | right; eexists; eauto].
  eapply triple_bind; [apply initialScripts_spec; [done |] |].
  { intros v Hv. right. eexists. eauto. }
  intros beforeInteractive _.
  triple_step; [done | | right; eexists; eauto 6].
  eapply triple_bind.
  { eapply triple_events_mono;
      [| by eapply (render_getStaticProps_mixed E this request context f data)].
    done. }
  done.
Qed.

Lemma mixed_not_found_redirect_fails_witness :
  let E := Sample.externals "development" None ∅ in
  ∃ e, result (run (render E Sample.gone_page Sample.gone_request Sample.gone_context))
       = inl e ∧
       (e = Error (MixedNotFoundRedirect (pathname Sample.gone_request)) ∨
        thrown_before_checks E Sample.gone_page Sample.gone_request Sample.gone_context
          Sample.gone_result e).
Proof.
  intros E.
  apply (mixed_not_found_redirect_fails E Sample.gone_page Sample.gone_request
           Sample.gone_context (λ _, inr Sample.gone_result) Sample.gone_result);
    [done | reflexivity | reflexivity | reflexivity | by eexists | by eexists].
Defined.

(** The spec's reading of C5 fails in production: the same result is
    served as a not-found result. *)
Lemma mixed_result_is_served_in_production :
  is_Some (Sample.gone_result !! "notFound") ∧
  is_Some (Sample.gone_result !! "redirect") ∧
  ¬ render_fails (Sample.externals "production" None ∅)
      Sample.gone_page Sample.gone_request Sample.gone_context.
Proof.
  split; [by eexists |]. split; [by eexists |].
  intros [e He]. vm_compute in He. discriminate He.
Qed.

(** ** C6 *)




(** ** C7 *)

(** What [setup] checks depends on the request: the same page module is
    let through for one request and refused for an export one. *)
Example setup_depends_on_the_request :
  result (run (setup Sample.profile_page "/profile" false false)) = inr () ∧
  result (run (setup Sample.profile_page "/profile" true false)) =
    inl (Error (SERVER_PROPS_EXPORT_ERROR "/profile")).
Proof. split; reflexivity. Qed.

(** C7, as the code has it. [setup] runs once in every call of
    [handle], as its first step: a module that handles [n] requests runs
    the validation [n] times, not once for the module. *)
Theorem setup_runs_on_every_request E this requests :
  (∀ request context s, setup_runs (log (handle E this request context s)) = 1) ∧
  setup_runs (serve E this requests) = length requests.
Proof.
  assert (∀ request context s, setup_runs (log (handle E this request context s)) = 1)
    as Hone.
  { intros request context s.
    destruct (handle_runs_setup_first E this request context s) as (l & -> & Hl).
    change (Run_setup ?p ?x ?d :: l) with ([Run_setup p x d] ++ l).
    by rewrite setup_runs_app, Hl. }
  split; [exact Hone |].
  unfold serve. induction requests as [| [request context] requests IH]; [done |].
  cbn [flat_map length]. rewrite setup_runs_app, IH. unfold run. by rewrite Hone.
Qed.

(** The spec's reading of C7 fails as soon as a module handles a second
    request. *)
Lemma setup_runs_again_on_second_request :
  ¬ setup_runs_once (Sample.externals "production" None ∅) Sample.post_page
      [ (Sample.post_request, handler Sample.post_context);
        (Sample.post_request, handler Sample.post_context) ].
Proof. unfold setup_runs_once. vm_compute. discriminate. Qed.

(** ** C8 *)

(** What the call of a user data function throws. When [render] gets
    to call the data function of the page ([getStaticProps], or
    [getServerSideProps] on a page without [getStaticProps]) and the
    call throws [err], [render] throws [err] itself; only when [err] is
    an error whose [code] is ['ENOENT'] is that [code] property deleted
    from it first. *)
Theorem user_errors_are_rethrown E this request context err app_props :
  isFallback context = false →
  Loadable_preloadAll E = inr () →
  (∀ v, unstable_scriptLoader (userland_default (userland this)) ≠ Some (inl v)) →
  settled (App_getInitialProps E (router this request context)
             (ctx this request context)) = inr app_props →
  thrown_by_data_function this request context err →
  ∀ s, ∃ e, result (render E this request context s) = inl e ∧
            (carries_ENOENT (isError E) err = true →
             ∃ m, err = VObj m ∧ e = Thrown (VObj (delete "code" m))) ∧
            (carries_ENOENT (isError E) err = false → e = Thrown err).
Proof.
  intros Hfb Hpreload Hscripts Happ Hthrown s.
  destruct (triple_fails _ _ _ s
              (render_rethrows E this request context err app_props
                 Hfb Hpreload Hscripts Happ Hthrown)) as (e & He & -> & _).
  eexists. split; [exact He |]. split.
  - intros Hc. destruct (remove_not_found_code_ENOENT _ _ Hc) as (m & -> & ->).
    by exists m.
  - apply remove_not_found_code_other.
Qed.

Lemma user_errors_are_rethrown_witness :
  ∃ e, result (run (render (Sample.externals "production" None ∅) Sample.files_page
                      Sample.files_request Sample.files_context)) = inl e ∧
       e = Thrown (VObj {[ "name" := VStr "Error";
                           "message" := VStr "no such file or directory" ]}).
Proof.
  destruct (user_errors_are_rethrown (Sample.externals "production" None ∅)
              Sample.files_page Sample.files_request Sample.files_context
              Sample.file_not_found ∅) with (s := false) as (e & He & Hcode & _);
    [reflexivity | reflexivity | done | reflexivity
    | left; eexists; split; reflexivity |].
  exists e. split; [exact He |].
  destruct (Hcode eq_refl) as (m & Hm & ->). injection Hm as <-.
  vm_compute. reflexivity.
Defined.

(** C8, where the code departs from it. The [catch] that deletes the
    ['ENOENT'] code is around the call of the data function only. Props
    that [getServerSideProps] defers are awaited after it: when they are
    rejected with an error whose [code] is ['ENOENT'], [render] throws
    that error with its [code] still on it. *)
Theorem deferred_rejection_keeps_ENOENT :
  let E := Sample.externals "production" None ∅ in
  let o := run (render E Pages.deferred_page Pages.deferred_request
                  Pages.deferred_context) in
  carries_ENOENT (isError E) Sample.file_not_found = true ∧
  (∃ c, Call_getServerSideProps c ∈ log o) ∧
  result o = inl (Thrown Sample.file_not_found) ∧
  result o ≠ inl (remove_not_found_code (isError E) (Thrown Sample.file_not_found)).
Proof.
  cbv zeta. split; [reflexivity |]. split; [| split].
  - eexists. vm_compute.
    repeat first [ apply list_elem_of_here | apply list_elem_of_further ].
  - reflexivity.
  - intros H. vm_compute in H. discriminate H.
Qed.

(** ** C9 *)

(** C9, where the code departs from it. In the edge runtime there is no
    Node.js request, so [handle] does not decode preview data and starts
    [render] out of preview mode; [render] still calls
    [getServerSideProps] with [preview: true] and an [undefined]
    [previewData], and the request is answered. *)
Theorem unresolved_preview_reaches_getServerSideProps :
  let o := run (handle (Sample.externals "production" (Some "edge") ∅)
                  Sample.profile_page (Sample.edge_request "/profile")
                  (Sample.handler_context "/profile" ∅ None)) in
  (∀ req preview, Call_tryGetPreviewData req preview ∉ log o) ∧
  (∃ context, Run_render (Sample.edge_request "/profile") context ∈ log o ∧
              isPreviewMode context = false) ∧
  (∃ c, Call_getServerSideProps c ∈ log o ∧ gssp_preview c = Some VUndefined) ∧
  (∃ response, result o = inr response).
Proof.
  cbv zeta. split; [| split; [| split]].
  - intros req preview Hin. vm_compute in Hin.
    repeat (apply elem_of_cons in Hin as [Hin | Hin]; [discriminate Hin |]).
    by apply elem_of_nil in Hin.
  - eexists. split.
    + vm_compute. repeat first [ apply list_elem_of_here | apply list_elem_of_further ].
    + reflexivity.
  - eexists. split.
    + vm_compute. repeat first [ apply list_elem_of_here | apply list_elem_of_further ].
    + reflexivity.
  - eexists. vm_compute. reflexivity.
Qed.

(** ** C10 *)

(** C10, as the code has it. When the user data function of the page
    ([getStaticProps], or [getServerSideProps] on a page without
    [getStaticProps]) answers with a truthy [notFound], [render]
    assembles no document. On [/404] it throws. On any other path
    whatever it returns is the not-found result, [null] for the body
    with [metadata.isNotFound] set, and it returns it exactly when no
    other step throws: the steps before the data function and, on the
    result, the validation of its keys and, for [getStaticProps], the
    checks of a [redirect] next to [notFound] off production, of the
    redirect, of [revalidate] and of the props. *)
Theorem notFound_ends_render E this request context data :
  isFallback context = false →
  returned_by_data_function this request context data →
  answers_notFound data = true →
  ∀ s,
    Forall (λ ev, ¬ document_event ev) (log (render E this request context s)) ∧
    (pathname request = "/404" → ∃ e, result (render E this request context s) = inl e) ∧
    (pathname request ≠ "/404" →
       (∀ r, result (render E this request context s) = inr r → not_found_result r) ∧
       ((∃ r, result (render E this request context s) = inr r ∧ not_found_result r) ↔
        notFound_unhindered E this request context data)).
Proof.
  intros Hfb Hreturned Hnf s.
  destruct (triple_run _ _ _ _ s
              (render_notFound E this request context data Hfb Hreturned Hnf))
    as (Hl & Hr & _).
  split; [exact Hl |]. split.
  - intros H404. destruct (result (render E this request context s)) as [e | r];
      [by exists e |].
    by destruct (Hr r eq_refl) as [? _].
  - intros H404. split; [intros r Hres; by apply Hr |]. split.
    + intros (r & Hres & _).
      destruct (triple_run _ _ _ _ s
                  (render_notFound_unhindered E this request context data Hfb Hreturned Hnf))
        as (_ & Hpasses & _).
      by apply (Hpasses r).
    + intros Hfree.
      destruct (triple_run _ _ _ _ s
                  (render_notFound_returns E this request context data
                     Hfb Hreturned Hnf H404 Hfree)) as (_ & _ & Hx).
      destruct (result (render E this request context s)) as [e | r];
        [by destruct (Hx e) |].
      exists r. split; [done |]. by apply Hr.
Qed.

Lemma notFound_ends_render_witness :
  let E := Sample.externals "production" None ∅ in
  (∃ r, result (run (render E Sample.missing_page Sample.missing_request
                       Sample.missing_data_context)) = inr r ∧
        not_found_result r) ∧
  (∃ r, result (run (render E Sample.gone_page Sample.gone_request Sample.gone_context))
        = inr r ∧
        not_found_result r).
Proof.
  intros E. split.
  - destruct (notFound_ends_render E Sample.missing_page Sample.missing_request
                Sample.missing_data_context {[ "notFound" := VBool true ]})
      with (s := false) as (_ & _ & Hother);
      [reflexivity | right; split; [reflexivity | eexists; split; reflexivity]
      | reflexivity |].
    destruct Hother as [_ Hreturns]; [done |].
    apply Hreturns. split; [repeat split; [done | by eexists] |]. reflexivity.
  - destruct (notFound_ends_render E Sample.gone_page Sample.gone_request
                Sample.gone_context Sample.gone_result)
      with (s := false) as (_ & _ & Hother);
      [reflexivity | left; eexists; split; reflexivity | reflexivity |].
    destruct Hother as [_ Hreturns]; [done |].
    apply Hreturns. split; [repeat split; [done | by eexists] |].
    exists Sample.gone_result. split; [| by intros ?].
    repeat split; reflexivity.
Defined.

(** The spec's reading of C10 fails off production on a page other than
    [/404] whose [getStaticProps] answers [notFound] next to a
    [redirect]: [render] throws and there is no not-found result. *)
Lemma notFound_next_to_redirect_is_refused_in_development :
  pathname Sample.gone_request ≠ "/404" ∧
  returned_by_data_function Sample.gone_page Sample.gone_request Sample.gone_context
    Sample.gone_result ∧
  answers_notFound Sample.gone_result = true ∧
  ¬ notFound_result_returned (Sample.externals "development" None ∅)
      Sample.gone_page Sample.gone_request Sample.gone_context.
Proof.
  split; [done |]. split; [left; eexists; split; reflexivity |].
  split; [reflexivity |].
  intros (r & Hr & _). vm_compute in Hr. discriminate Hr.
Qed.

(** * Further properties *)
(** ** Strings *)

Lemma prefix_inv p s : String.prefix p s = true → ∃ rest, s = p +:+ rest.
Proof.
  revert s. induction p as [| a p IH]; intros s H; [by exists s |].
  destruct s as [| b s]; [done |]. cbn [String.prefix] in H.
  destruct (Ascii.ascii_dec a b) as [<- |]; [| done].
  destruct (IH _ H) as [rest ->]. by exists rest.
Qed.

Lemma prefix_app p s : String.prefix p (p +:+ s) = true.
Proof.
  induction p as [| a p IH]; [by destruct s |].
  change (String a p +:+ s) with (String a (p +:+ s)). cbn [String.prefix].
  destruct (Ascii.ascii_dec a a) as [_ |]; [exact IH | done].
Qed.

Lemma append_assoc (a b c : string) : (a +:+ b) +:+ c = a +:+ (b +:+ c).
Proof.
  induction a as [| x a IH]; [done |].
  change (String x ((a +:+ b) +:+ c) = String x (a +:+ (b +:+ c))). by rewrite IH.
Qed.

Lemma index_0_cons sep a s :
  String.prefix sep (String a s) = false →
  String.index 0 sep (String a s) = S <$> String.index 0 sep s.
Proof. intros H. cbn [String.index]. by rewrite H. Qed.

Lemma index_after_DOCTYPE rest :
  String.index 0 body_render_target (DOCTYPE +:+ rest) =
  (λ n, 15 + n) <$> String.index 0 body_render_target rest.
Proof.
  change (DOCTYPE +:+ rest) with (String.append DOCTYPE rest).
  cbv [DOCTYPE String.append].
  rewrite !index_0_cons by reflexivity.
  by destruct (String.index 0 body_render_target rest).
Qed.

(** The part of a document before the body still starts with the
    doctype the document starts with. *)
Lemma split_keeps_DOCTYPE html :
  startsWith html DOCTYPE = true →
  startsWith (split_first_two html body_render_target).1 DOCTYPE = true.
Proof.
  intros [rest ->]%prefix_inv. unfold split_first_two, startsWith.
  rewrite index_after_DOCTYPE.
  destruct (String.index 0 body_render_target rest) as [n |];
    cbn [fmap option_fmap option_map fst].
  - change (DOCTYPE +:+ rest) with (String.append DOCTYPE rest).
    cbv [DOCTYPE String.append]. cbn [Nat.add String.substring].
    by destruct (String.substring 0 n rest).
  - apply prefix_app.
Qed.

Lemma html_starts_with_DOCTYPE documentHTML (amp : list string) body :
  startsWith
    (String.concat ""
       ((if startsWith documentHTML DOCTYPE then [] else [DOCTYPE]) ++
        [(split_first_two documentHTML body_render_target).1] ++ amp) +:+ body)
    DOCTYPE = true.
Proof.
  destruct (startsWith documentHTML DOCTYPE) eqn:Hstarts.
  - apply split_keeps_DOCTYPE, prefix_inv in Hstarts as [rest ->].
    unfold startsWith. destruct amp as [| a amp]; cbn [app String.concat].
    + rewrite append_assoc. apply prefix_app.
    + rewrite !append_assoc. apply prefix_app.
  - unfold startsWith. cbn [app String.concat].
    rewrite append_assoc. apply prefix_app.
Qed.

Lemma validateRevalidate_error v url e :
  validateRevalidate v url = inl e → e = Error (InvalidRevalidate v url).
Proof.
  destruct v as [| | [] | n | | | |]; cbn; try congruence.
  destruct (0 <? n)%Z; congruence.
Qed.

(** Hypotheses on boolean tests, taken apart. *)
Ltac split_tests :=
  repeat match goal with
         | H : _ && _ = true |- _ => apply andb_true_iff in H as [? ?]
         | H : _ || _ = false |- _ => apply orb_false_iff in H as [? ?]
         | H : negb _ = true |- _ => apply negb_true_iff in H
         | H : negb _ = false |- _ => apply negb_false_iff in H
         | H : bool_decide _ = true |- _ => apply bool_decide_eq_true in H
         | H : bool_decide _ = false |- _ => apply bool_decide_eq_false in H
         end.

Lemma quiet_ret {A} (a : A) : quiet (mret a).
Proof. by intros s. Qed.

Lemma quiet_throw {A} (e : exn) : quiet (@throw A e).
Proof. by intros s. Qed.

Lemma quiet_bind {A B} (m : M A) (f : A → M B) :
  quiet m → (∀ a, quiet (f a)) → quiet (m ≫= f).
Proof.
  intros Hm Hf s. destruct (Hm s) as [Hl Hs].
  unfold mbind, M_bind, bind. destruct (result (m s)) as [e | a]; cbn; [done |].
  destruct (Hf a (sent (m s))) as [Hl' Hs']. rewrite Hl, Hl', Hs'. by rewrite Hs.
Qed.

Lemma quiet_when b (m : M ()) : quiet m → quiet (when b m).
Proof. intros H. destruct b; [done | apply quiet_ret]. Qed.

Lemma quiet_for_of {A} (l : list A) (body : A → M ()) :
  (∀ x, quiet (body x)) → quiet (for_of l body).
Proof.
  intros H. induction l as [| x l IH]; [apply quiet_ret |].
  cbn. apply quiet_bind; [apply H | by intros _].
Qed.

Lemma triple_top {A} (m : M A) : triple (λ _, True) (λ _, True) (λ _, True) m.
Proof.
  intros s. split; [by apply Forall_forall | by destruct (result (m s))].
Qed.

(** ** [setup] *)

Lemma setup_sound this page nextExport dev :
  triple (setup_step this page nextExport dev)
    (λ _, setup_guarantees this nextExport ∧ (dev = true → setup_dev_guarantees this page))
    (λ _, True) (setup this page nextExport dev).
Proof.
  unfold setup, setup_guarantees, setup_dev_guarantees, declared_data_methods,
    output_export, data_method_names, setup_step.
  destruct (has_getStaticProps this), (has_getServerSideProps this),
    (has_getInitialProps this), (has_getStaticPaths this), (isDynamic this),
    nextExport, dev; cbn [andb orb negb];
    repeat (triple_step; try done).
  all: repeat match goal with
         | H : bool_decide _ = false |- _ => apply bool_decide_eq_false in H
         | H : bool_decide _ = true |- _ => apply bool_decide_eq_true in H
         | H : negb _ = false |- _ => apply negb_false_iff in H
         end.
  all: cbn; repeat split; try done; try lia.
  all: try (intros method Hin;
    repeat (apply elem_of_cons in Hin as [-> | Hin]; [done |]);
    by apply elem_of_nil in Hin).
  all: rewrite andb_true_r in *;
    repeat match goal with
           | H : bool_decide _ = false |- _ => apply bool_decide_eq_false in H
           end;
    by match goal with H : _ ∨ _ |- _ => destruct H end.
Qed.

Lemma setup_complete this page nextExport dev :
  setup_guarantees this nextExport →
  (dev = true → setup_dev_guarantees this page) →
  triple (λ _, True) (λ _, True) (λ _, False) (setup this page nextExport dev).
Proof.
  unfold setup, setup_guarantees, setup_dev_guarantees, declared_data_methods,
    output_export, data_method_names.
  intros (Hone & Hpaths & Hssr & Hmembers) Hdev.
  assert (∀ method, method ∈ ["getStaticProps"; "getStaticPaths"; "getServerSideProps"] →
            bool_decide (method ∈ members (userland_default (userland this))) = false)
    as Hmem.
  { intros method Hin. apply bool_decide_eq_false. by apply Hmembers. }
  cbn [for_of]. rewrite !Hmem by (repeat first [apply list_elem_of_here | apply list_elem_of_further]).
  clear Hmem Hmembers.
  destruct (has_getStaticProps this), (has_getServerSideProps this),
    (has_getInitialProps this), (has_getStaticPaths this), (isDynamic this),
    nextExport, dev; cbn in Hone, Hpaths; try lia; try done;
    try (destruct Hssr as [? Hout]; [done |]; try done;
         rewrite (bool_decide_eq_false_2 _ Hout));
    try (destruct Hdev as (-> & -> & -> & Hstatus); [done |]);
    cbn [andb orb negb];
    repeat (triple_step; try done).
  all: repeat match goal with
         | H : bool_decide _ = true |- _ => apply bool_decide_eq_true in H
         | H : _ && true = true |- _ => rewrite andb_true_r in H
         end.
  all: try (destruct Hstatus as [? ?]; [by auto |]; done).
  all: by rewrite andb_false_r in *.
Qed.

(** X1. [setup] lets a page module through exactly when it declares at most
    one of the three data methods, has [getStaticPaths] exactly when it
    is a dynamic page with [getStaticProps], is not exported when it has
    [getServerSideProps], keeps the data methods off the component and,
    in development, has valid components and static status pages. *)
Theorem setup_returns_iff this page nextExport dev s :
  result (setup this page nextExport dev s) = inr () ↔
  setup_guarantees this nextExport ∧ (dev = true → setup_dev_guarantees this page).
Proof.
  split.
  - intros Hres. destruct (triple_run _ _ _ _ s (setup_sound this page nextExport dev))
      as (_ & Hr & _). by apply (Hr ()).
  - intros [Hg Hd].
    destruct (triple_run _ _ _ _ s (setup_complete this page nextExport dev Hg Hd))
      as (_ & _ & Hx).
    destruct (result (setup this page nextExport dev s)) as [e | []]; [| done].
    by destruct (Hx e).
Qed.

(** X2. A page module that [setup] lets through in one mode is let through
    outside development and outside an export. *)
Theorem setup_is_laxest_in_production this page nextExport dev s s' :
  result (setup this page nextExport dev s) = inr () →
  result (setup this page false false s') = inr ().
Proof.
  intros Hres.
  destruct (triple_run _ _ _ _ s (setup_sound this page nextExport dev)) as (_ & Hr & _).
  destruct (Hr () Hres) as [(Hone & Hpaths & Hssr & Hmembers) _].
  destruct (triple_run _ _ _ _ s'
              (setup_complete this page false false
                 (conj Hone (conj Hpaths (conj (λ H, conj eq_refl (proj2 (Hssr H))) Hmembers)))
                 (λ H : false = true, False_ind _ (Bool.diff_false_true H))))
    as (_ & _ & Hx).
  destruct (result (setup this page false false s')) as [e | []]; [| done].
  by destruct (Hx e).
Qed.

(** X3. [setup] calls nothing and leaves the response alone: it logs its
    start and, on an export of a page with [getInitialProps], at most
    one warning. *)
Theorem setup_touches_nothing this page nextExport dev s :
  sent (setup this page nextExport dev s) = s ∧
  ∃ warnings,
    log (setup this page nextExport dev s) = Run_setup page nextExport dev :: warnings ∧
    (warnings = [] ∨
     warnings = [logger_warn (GetInitialPropsExport page)] ∧
     nextExport = true ∧ has_getInitialProps this = true).
Proof.
  unfold setup.
  lazymatch goal with
  | |- context [when ?c (emit ?w) ≫= ?rest] => set (k := rest)
  end.
  assert (quiet (k ())) as Hquiet.
  { subst k. cbv beta.
    repeat first [ apply quiet_bind; [| intros []] | apply quiet_when
                 | apply quiet_for_of; intros ? | apply quiet_throw | apply quiet_ret ]. }
  clearbody k.
  destruct (Hquiet s) as [Hl Hs].
  destruct (_ && _ && _) eqn:Htest; unfold mbind, M_bind, bind; cbn.
  - destruct (result (k () s)); cbn; rewrite ?Hl, ?Hs; (split; [done |]);
      eexists; (split; [done |]); right; split_tests; by repeat split.
  - destruct (result (k () s)); cbn; rewrite ?Hl, ?Hs; (split; [done |]);
      eexists; (split; [done |]); by left.
Qed.

(** ** [handle] *)

(** X4. Preview data is decoded only for a page with [getStaticProps] or
    [getServerSideProps], from the Node.js request and the prerender
    manifest, and [render] is told it is in preview mode only with
    decoded data that is not [false]. *)
Theorem preview_is_decoded_for_data_pages_only E this request context s :
  Forall (preview_resolution E this request context)
    (log (handle E this request context s)).
Proof.
  destruct (triple_run _ _ _ _ s (handle_preview_resolution E this request context))
    as [Hlog _].
  exact Hlog.
Qed.

(** X5. Whatever [handle] does after [setup] it does on a page module that
    [setup] let through: nothing of the page is called or rendered on a
    module that fails one of its checks. *)
Theorem handle_goes_on_after_setup_only E this request context s :
  Forall
    (λ ev, setup_event ev ∨
           (setup_guarantees this (export context) ∧
            (dev (renderOpts this) = true →
             setup_dev_guarantees this (page (context_renderOpts context)))))
    (log (handle E this request context s)).
Proof.
  cut (triple
         (λ ev, setup_event ev ∨
                (setup_guarantees this (export context) ∧
                 (dev (renderOpts this) = true →
                  setup_dev_guarantees this (page (context_renderOpts context)))))
         (λ _, True) (λ _, True) (handle E this request context)).
  { intros H. apply H. }
  unfold handle. eapply triple_bind.
  - eapply triple_events_mono; [| apply setup_sound].
    intros [] Hev; try done; [by left |]. destruct w; try done. by left.
  - intros [] Hpassed. eapply triple_events_mono; [| apply triple_top]. by right.
Qed.

(** ** [render], with what it knows at every step *)

Section RenderTraceBlocks.
Context (E : Externals) (this : PagesRouteModule).
Context (request : NextRequest) (context : PagesRouteHandlerRenderContext).

Lemma warn_reserved_url_trace props :
  triple (render_step E this request context) (λ _, True) (render_failure E this request context)
    (warn_reserved_url E this request props).
Proof.
  unfold warn_reserved_url.
  destruct (has_getStaticProps this) eqn:Hgsp, (has_getServerSideProps this) eqn:Hgssp,
    (production E) eqn:Hprod; cbn [negb andb]; try by apply triple_ret.
  repeat (triple_step; try done); cbn; by rewrite ?Hgsp, ?Hgssp, ?Hprod.
Qed.

Lemma renderDocument_trace props beforeInteractive :
  triple (render_step E this request context) (λ documentResult, True) (render_failure E this request context)
    (renderDocument E this request context
       (page_tree E this request context props beforeInteractive)).
Proof.
  unfold renderDocument.
  destruct (edge E) eqn:Hedge, (doc_getInitialProps (Document (components this))) eqn:Hgip;
    cbn [negb andb].
  all: repeat (triple_step; try done); cbn; rewrite ?Hgip; try done.
  all: repeat split; try done; try (by left); try (by right); by eexists _, _.
Qed.

Lemma bodyResult_trace documentResult suffix :
  triple (render_step E this request context) (λ _, True) (render_failure E this request context)
    (bodyResult E documentResult suffix).
Proof. unfold bodyResult. repeat (triple_step; try done). Qed.

Lemma render_document_trace props md beforeInteractive :
  document_metadata E this props md →
  triple (render_step E this request context) (render_outcome E this) (render_failure E this request context)
    (render_document E this request context props md beforeInteractive).
Proof.
  intros Hmd. pose proof Hmd as (Hcb & Hnf & Hrd & Hpd).
  assert (render_outcome E this {| response := None; metadata := md |}) as Hnone.
  { split; [done |]. cbn. rewrite Hrd. done. }
  unfold render_document.
  eapply triple_bind; [apply renderDocument_trace |]. intros [documentResult |] _;
    [| by apply triple_ret].
  cbv beta iota zeta. triple_step; [by exists props, md, documentResult | | done].
  destruct a as [documentHTML docComponentsRendered].
  repeat (first [ eapply triple_bind; [apply bodyResult_trace | intros ? _]
                | triple_step ]; try done).
  all: try (split; [done |]; cbn; rewrite ?Hnf, ?Hrd; done).
  - split; [by apply negb_true_iff |].
    by match goal with H : negb (bool_decide _) = true |- _ =>
         apply negb_true_iff, bool_decide_eq_false in H end.
  - split; [done |].
    match goal with H : split_first_two _ _ = (?s, _) |- _ =>
      replace s with (split_first_two documentHTML body_render_target).1
        by (by rewrite H) end.
    apply html_starts_with_DOCTYPE.
  - split; [done |].
    match goal with H : split_first_two _ _ = (?s, _) |- _ =>
      replace s with (split_first_two documentHTML body_render_target).1
        by (by rewrite H) end.
    apply html_starts_with_DOCTYPE.
  - split; [done |].
    match goal with H : split_first_two _ _ = (?s, _) |- _ =>
      replace s with (split_first_two documentHTML body_render_target).1
        by (by rewrite H) end.
    apply html_starts_with_DOCTYPE.
Qed.

Lemma caught_is_thrown v :
  render_failure E this request context (remove_not_found_code (isError E) (Thrown v)).
Proof. cbn. by repeat case_match. Qed.

Lemma render_finish_trace props md beforeInteractive :
  data_metadata E this props md →
  triple (render_step E this request context) (render_outcome E this)
    (render_failure E this request context)
    (render_finish E this request context props md beforeInteractive).
Proof.
  intros (Hcb & Hnf & Hpd & Hrd). unfold render_finish.
  eapply triple_bind; [apply warn_reserved_url_trace |]. intros [] _.
  triple_step.
  { apply triple_ret. split; [done |]. cbn. rewrite Hnf. split; [done |].
    intros Hr. right. exists props. auto. }
  apply orb_false_iff in Heqb as [_ Hnr].
  triple_step. triple_step.
  - apply triple_ret. split; [done |]. cbn. by rewrite Hnr.
  - apply render_document_trace. by repeat split.
Qed.

Lemma render_getStaticProps_trace props md :
  data_metadata E this props md → pageData md = None → isRedirect md = false →
  triple (render_step E this request context)
    (λ fl, match fl with
           | Return r => render_outcome E this r
           | Next (props', md') => data_metadata E this props' md'
           end)
    (render_failure E this request context)
    (render_getStaticProps E this request context props md).
Proof.
  intros Hmd Hnone Hnr. pose proof Hmd as (Hcb & Hnf & _ & _).
  unfold render_getStaticProps, has_getStaticProps.
  destruct (getStaticProps (userland this)) as [f |] eqn:Hf; [| by apply triple_ret].
  destruct (isFallback context) eqn:Hfb.
  { apply triple_ret. split; [done |]. split; [done |]. split; [by left |].
    by rewrite Hnr. }
  assert (has_getStaticProps this = true) as Hgsp
    by (unfold has_getStaticProps; by rewrite Hf).
  repeat (triple_step; try done).
  all: try match goal with
           | H : validateRevalidate _ _ = inl _ |- _ =>
               apply validateRevalidate_error in H as ->
           end.
  all: unfold output_export in *; split_tests.
  all: try (cbn; by rewrite ?Hgsp, ?orb_true_r).
  all: try (cbn; repeat split; try done; by destruct (dev (renderOpts this))).
  all: try (split; [done |]; cbn; split; [done |]; intros _; by left).
  all: unfold data_metadata; cbn in *.
  all: try apply caught_is_thrown.
  all: split; [done |]; split; [done |]; split; [by right | done].
Qed.

Lemma render_getServerSideProps_trace props md :
  data_metadata E this props md →
  triple (render_step E this request context)
    (λ fl, match fl with
           | Return r => render_outcome E this r
           | Next (props', md') => data_metadata E this props' md'
           end)
    (render_failure E this request context)
    (render_getServerSideProps E this request context props md).
Proof.
  intros Hmd. pose proof Hmd as (Hcb & Hnf & Hpd & Hrd).
  unfold render_getServerSideProps.
  destruct (getServerSideProps (userland this)) as [f |] eqn:Hf; [| by apply triple_ret].
  assert (has_getServerSideProps this = true) as Hgssp
    by (unfold has_getServerSideProps; by rewrite Hf).
  assert (∀ p, data_metadata E this p (write_through p md)) as Hwrite.
  { intros p. unfold write_through.
    destruct (pageData md) as [p' |] eqn:Hp.
    - split; [done |]. split; [done |]. split; [by right | done].
    - split; [done |]. split; [done |]. split; [by left |].
      rewrite Hp. intros Hr. by specialize (Hrd Hr). }
  destruct (isFallback context) eqn:Hfb; [by apply triple_ret |].
  pose proof (Hwrite (<[SERVER_PROPS_ID E := VBool true]> props)) as (Hcb' & Hnf' & _ & _).
  repeat (triple_step; try done).
  all: split_tests.
  all: try (cbn; by rewrite ?Hgssp, ?orb_true_r).
  all: try (cbn; repeat split; try done; by destruct (dev (renderOpts this))).
  all: try (split; [done |]; cbn; split; [done |]; intros _; by left).
  all: try apply caught_is_thrown.
  all: split; [done |]; split; [done |]; split; [by right | done].
Qed.

(** [render] as a whole. *)
Lemma render_trace :
  triple (render_step E this request context) (render_outcome E this)
    (render_failure E this request context) (render E this request context).
Proof.
  unfold render. triple_step; [done |]. triple_step; [done | | done].
  eapply triple_bind with (Q := λ _, True).
  { unfold initialScripts.
    destruct (unstable_scriptLoader _) eqn:Hloader; repeat (triple_step; try done).
    cbn. rewrite Hloader. by eexists. }
  intros beforeInteractive _.
  triple_step; [done | | done].
  assert (data_metadata E this (mark_preview this context a0) (initial_metadata E this))
    as Hinit.
  { split; [done |]. split; [done |]. split; [by left | done]. }
  eapply triple_bind; [by apply render_getStaticProps_trace |].
  intros [r | [props md]] Hflow; [by apply triple_ret |].
  unfold render_serverSide.
  eapply triple_bind; [by apply render_getServerSideProps_trace |].
  intros [r | [props' md']] Hflow'; [by apply triple_ret |].
  by apply render_finish_trace.
Qed.
End RenderTraceBlocks.

(** ** Rules for runs that return *)

Section Returns.
Context {A B : Type} (P : event → Prop).

Lemma returns_ret s (Q : A → bool → Prop) (a : A) : Q a s → returns s P Q (mret a).
Proof. intros H. split; [constructor |]. by exists a. Qed.

Lemma returns_bind s (Q : A → bool → Prop) (R : B → bool → Prop) (m : M A) (f : A → M B) :
  returns s P Q m → (∀ a s', Q a s' → returns s' P R (f a)) → returns s P R (m ≫= f).
Proof.
  intros (Hl & a & Ha & Hq) Hf. destruct (Hf a _ Hq) as (Hl' & b & Hb & Hr).
  unfold returns, mbind, M_bind, bind. rewrite Ha. cbn. split.
  - apply Forall_app. by split.
  - by exists b.
Qed.

Lemma returns_emit s (Q : () → bool → Prop) ev : P ev → Q () s → returns s P Q (emit ev).
Proof. intros Hev H. split; [by repeat constructor |]. by exists (). Qed.

Lemma returns_call s (Q : A → bool → Prop) ev (r : value + A) a :
  P ev → r = inr a → Q a s → returns s P Q (call ev r).
Proof. intros Hev -> H. split; [by repeat constructor |]. by exists a. Qed.

Lemma returns_call_with_res s (Q : A → bool → Prop) ev (r : reply A) a :
  P ev → settled r = inr a → Q a (s || ends_response r) →
  returns s P Q (call_with_res ev r).
Proof.
  intros Hev Hr H. unfold returns, call_with_res, call, mbind, M_bind, bind.
  rewrite Hr. cbn. split; [by repeat constructor |]. by exists a.
Qed.

Lemma returns_isResSent s (Q : bool → bool → Prop) : Q s s → returns s P Q isResSent.
Proof. intros H. split; [constructor |]. by exists s. Qed.

Lemma returns_mono s (Q Q' : A → bool → Prop) (m : M A) :
  returns s P Q m → (∀ a s', Q a s' → Q' a s') → returns s P Q' m.
Proof. intros (Hl & a & Ha & Hq) H. split; [done |]. exists a. auto. Qed.
End Returns.

(** ** [render] *)

Section RenderTheorems.
Context (E : Externals) (this : PagesRouteModule).
Context (request : NextRequest) (context : PagesRouteHandlerRenderContext).

Lemma render_log (P : event → Prop) s :
  (∀ ev, render_step E this request context ev → P ev) →
  Forall P (log (render E this request context s)).
Proof.
  intros HP. eapply Forall_impl; [| exact HP].
  apply (render_trace E this request context s).
Qed.

Lemma edge_false : edge E = false → NEXT_RUNTIME E ≠ Some "edge".
Proof. unfold edge. by intros ?%bool_decide_eq_false. Qed.

Lemma edge_true : edge E = true → NEXT_RUNTIME E = Some "edge".
Proof. unfold edge. by intros ?%bool_decide_eq_true. Qed.


(** X7. Every result of [render] has the cache-busting query string fixed
    at the start of the render; it has no body when it is flagged not
    found, and a redirect that is not flagged not found has the JSON of
    its page data as body. *)
Theorem render_result_shape s r :
  result (render E this request context s) = inr r →
  render_outcome E this r.
Proof.
  intros Hr.
  destruct (triple_run _ _ _ _ s (render_trace E this request context)) as (_ & Hq & _).
  by apply Hq.
Qed.

(** X17. [Document.getInitialProps] is never called in the edge runtime. *)
Theorem document_props_come_from_node s :
  Forall (document_source E this) (log (render E this request context s)).
Proof.
  apply render_log. intros [] Hev; try done; cbn in *.
  - destruct Hev as (He%edge_false & -> & Hd & _). done.
  - destruct Hev as [[He%edge_true | Hd] _]; auto.
Qed.

(** X19. The markup given to [postProcessHTML] starts with the doctype. *)
Theorem processed_markup_starts_with_doctype s :
  Forall (processed_markup request) (log (render E this request context s)).
Proof. apply render_log. by intros []. Qed.

(** X8. The data functions are called only on a page that declares them
    and never for a fallback request. *)
Theorem data_functions_are_called_when_due s :
  Forall (data_call this request context) (log (render E this request context s)).
Proof.
  apply render_log. intros [] Hev; try done; cbn in *.
  - destruct Hev as (-> & Hhas & Hfb). unfold has_getStaticProps in Hhas.
    destruct (getStaticProps (userland this)); [| done]. by repeat split.
  - destruct Hev as (-> & Hhas & Hfb). unfold has_getServerSideProps in Hhas.
    destruct (getServerSideProps (userland this)); [| done]. by repeat split.
Qed.

(** X12. [render] warns only off production. *)
Theorem render_is_silent_in_production s :
  NODE_ENV E = "production" →
  Forall (λ ev, is_warning ev = false) (log (render E this request context s)).
Proof.
  intros Hprod. apply render_log. intros [] Hev; try done.
  assert (production E = true) as Hp by (by apply bool_decide_eq_true).
  destruct w; cbn in Hev; [done | destruct Hev as (_ & ? & _) | destruct Hev as (? & _)];
    congruence.
Qed.

(** X9. An automatically exported page is rendered without the request:
    no data function is called, [App.getInitialProps] gets neither
    [req] nor [res], and the payload says so. *)
Theorem auto_export_renders_without_request s :
  isAutoExport this = true →
  Forall auto_export_step (log (render E this request context s)).
Proof.
  intros Hauto. apply render_log.
  pose proof Hauto as Hflags. unfold isAutoExport in Hflags. split_tests.
  intros [] Hev; try done; cbn in *.
  - destruct Hev as (-> & ->). cbn. by rewrite Hauto.
  - destruct Hev as (_ & ? & _). congruence.
  - destruct Hev as (_ & ? & _). congruence.
  - destruct Hev as (props & md & dr & -> & _).
    destruct (htmlProps_NEXT_DATA E this request context props md dr) as [ids ->].
    cbn. rewrite Hauto.
    repeat match goal with H : ?b = false |- context [?b] => rewrite H end.
    by match goal with H : appHasDefaultGetInitialProps _ = true |- _ => rewrite H end.
Qed.

Lemma render_query_only_amp :
  exporting_in_dev this context = true → only_amp (render_query this context).
Proof.
  intros Hdev k. unfold render_query. rewrite Hdev.
  destruct (truthy _); [| by intros [? ?]].
  intros [v Hv]. by apply lookup_singleton_Some in Hv as [<- _].
Qed.

(** X10. In development, an automatically exported page and a fallback are
    rendered as an export would: the query is forgotten, [amp] apart. *)
Theorem dev_export_forgets_the_query s :
  dev (renderOpts this) = true →
  isAutoExport this = true ∨ isFallback context = true →
  Forall query_forgotten (log (render E this request context s)).
Proof.
  intros Hdev Hexp.
  assert (exporting_in_dev this context = true) as Hq.
  { unfold exporting_in_dev. rewrite Hdev. by destruct Hexp as [-> | ->]; rewrite ?orb_true_r. }
  pose proof (render_query_only_amp Hq) as Hamp.
  apply render_log. intros [] Hev; try done; cbn in *.
  - by destruct Hev as (-> & ->).
  - by destruct Hev as (_ & _ & _ & props & bi & ->).
  - by destruct Hev as (_ & props & bi & ->).
  - destruct Hev as (props & md & dr & -> & _).
    destruct (htmlProps_NEXT_DATA E this request context props md dr) as [ids ->].
    done.
Qed.

(** X11. A fallback is rendered out of preview and without data: whatever
    the preview mode of the request, no data function is called, the
    router and the payload say nothing of preview, and the payload is
    that of a fallback. *)
Theorem fallback_is_rendered_out_of_preview s :
  isFallback context = true →
  Forall out_of_preview (log (render E this request context s)).
Proof.
  intros Hfb. apply render_log.
  assert (isPreview context = false) as Hpreview by (unfold isPreview; by rewrite Hfb).
  intros [] Hev; try done; cbn in *.
  - destruct Hev as (-> & _). done.
  - destruct Hev as (_ & _ & ?). congruence.
  - destruct Hev as (_ & _ & ?). congruence.
  - by destruct Hev as (_ & _ & _ & props & bi & ->).
  - by destruct Hev as (_ & props & bi & ->).
  - destruct Hev as (props & md & dr & -> & _).
    destruct (htmlProps_NEXT_DATA E this request context props md dr) as [ids ->].
    cbn. by rewrite Hpreview, Hfb.
Qed.
End RenderTheorems.

Section RenderRuns.
Context (E : Externals) (this : PagesRouteModule).
Context (request : NextRequest) (context : PagesRouteHandlerRenderContext).

Lemma mark_preview_no_data props :
  getStaticProps (userland this) = None → getServerSideProps (userland this) = None →
  mark_preview this context props = props.
Proof.
  intros Hgsp Hgssp. unfold mark_preview, has_getStaticProps, has_getServerSideProps.
  by rewrite Hgsp, Hgssp.
Qed.

(** X14. A page without data functions, not automatically exported, whose
    [getInitialProps] has ended the response: when preloading and the
    script loader do not throw and, off production, the page props
    are not [null] (the warning about [url] fails on those), [render]
    returns a result without body, with the initial metadata, and
    assembles no document. *)
Theorem response_sent_by_getInitialProps_ends_render s props :
  getStaticProps (userland this) = None →
  getServerSideProps (userland this) = None →
  isAutoExport this = false →
  Loadable_preloadAll E = inr () →
  (∀ v, unstable_scriptLoader (userland_default (userland this)) ≠ Some (inl v)) →
  App_getInitialProps E (router this request context) (ctx this request context) =
    Reply (inr props) true →
  NODE_ENV E = "production" ∨ props !! "pageProps" ≠ Some VNull →
  let o := render E this request context s in
  result o = inr {| response := None; metadata := initial_metadata E this |} ∧
  sent o = true ∧
  Forall (λ ev, ¬ document_event ev) (log o).
Proof.
  intros Hgsp Hgssp Hauto Hpreload Hloader Happ Hnull.
  cut (returns s (λ ev, ¬ document_event ev)
         (λ r s', r = {| response := None; metadata := initial_metadata E this |} ∧
                  s' = true)
         (render E this request context)).
  { intros (Hl & r & Hr & -> & Hs). cbv zeta. by rewrite Hr. }
  unfold render.
  eapply returns_bind; [by apply returns_emit with (Q := λ _ s', s' = s); [intros [] |] |].
  intros [] ? ->.
  eapply returns_bind; [by eapply returns_call with (Q := λ _ s', s' = s); [intros [] | |] |].
  intros [] ? ->.
  eapply returns_bind.
  { unfold initialScripts.
    destruct (unstable_scriptLoader _) as [[v | scripts] |] eqn:Hscripts;
      [by destruct (Hloader v) | | by apply returns_ret with (Q := λ _ s', s' = s)].
    eapply returns_bind;
      [by eapply returns_call with (Q := λ _ s', s' = s); [intros [] | |] |].
    intros ? ? ->. by apply returns_ret with (Q := λ _ s', s' = s). }
  intros beforeInteractive ? ->.
  eapply returns_bind.
  { eapply returns_call_with_res with (Q := λ a s', a = props ∧ s' = true); [by intros [] | |].
    - by rewrite Happ.
    - rewrite Happ. cbn. rewrite Hauto. split; [done |]. by rewrite orb_true_r. }
  intros ? ? [-> ->].
  rewrite mark_preview_no_data by done.
  rewrite render_getStaticProps_None by done.
  eapply returns_bind; [by apply returns_ret with (Q := λ a s', a = Next (props, initial_metadata E this) ∧ s' = true) |].
  intros ? ? [-> ->]. unfold render_serverSide.
  rewrite render_getServerSideProps_None by done.
  eapply returns_bind; [by apply returns_ret with (Q := λ a s', a = Next (props, initial_metadata E this) ∧ s' = true) |].
  intros ? ? [-> ->]. unfold render_finish.
  eapply returns_bind with (Q := λ _ s', s' = true).
  { unfold warn_reserved_url.
    destruct (_ && _) eqn:Htest; [| by apply returns_ret].
    split_tests. destruct (get props "pageProps") eqn:Hget; cbn.
    all: try (destruct (bool_decide _); [by apply returns_emit; [intros [] |] | by apply returns_ret]).
    destruct Hnull as [Hprod | Hnull].
    { unfold production in *. by rewrite bool_decide_eq_true_2 in * by done. }
    destruct Hnull. unfold get in Hget. unfold has in *.
    destruct (props !! "pageProps") as [v |] eqn:Hv; cbn in Hget; [by subst |].
    match goal with H : bool_decide _ = true |- _ =>
      by apply bool_decide_eq_true in H as [? ?] end. }
  intros [] ? ->.
  unfold has_getServerSideProps, has_getStaticProps. rewrite Hgsp, Hgssp. cbn.
  rewrite andb_false_r. cbn.
  eapply returns_bind; [by apply returns_isResSent with (Q := λ b s', b = true ∧ s' = true) |].
  intros ? ? [-> ->]. cbn. by apply returns_ret.
Qed.

(** X13. Off production, page props that are [null] make the [render] of a
    page without data functions fail with the [TypeError] of
    [Object.keys(null)]. *)
Theorem null_page_props_fail_off_production s props :
  NODE_ENV E ≠ "production" →
  getStaticProps (userland this) = None →
  getServerSideProps (userland this) = None →
  Loadable_preloadAll E = inr () →
  unstable_scriptLoader (userland_default (userland this)) = None →
  settled (App_getInitialProps E (router this request context) (ctx this request context)) =
    inr props →
  props !! "pageProps" = Some VNull →
  result (render E this request context s) = inl TypeError.
Proof.
  intros Hprod%production_false Hgsp Hgssp Hpreload Hloader Happ Hnull.
  cut (triple (λ _, True) (λ _, False) (λ e, e = TypeError) (render E this request context)).
  { intros H. destruct (triple_fails _ _ _ s H) as (e & He & -> & _). exact He. }
  unfold render. triple_step; [done |]. triple_step; [done | | congruence].
  unfold initialScripts. rewrite Hloader. triple_step.
  triple_step; [done | | cbn in *; congruence].
  match goal with H : settled (without_res _ _) = inr ?a |- _ =>
    cbn in H; assert (a = props) as -> by congruence end.
  rewrite mark_preview_no_data by done.
  rewrite render_getStaticProps_None by done. triple_step.
  unfold render_serverSide. rewrite render_getServerSideProps_None by done. triple_step.
  unfold render_finish, warn_reserved_url, has_getStaticProps, has_getServerSideProps.
  rewrite Hgsp, Hgssp, Hprod, (has_lookup_Some _ _ _ Hnull), (get_lookup_Some _ _ _ Hnull).
  cbn. by triple_step.
Qed.
End RenderRuns.

(** ** Redirects *)

Section Redirects.
Context (E : Externals) (this : PagesRouteModule).
Context (request : NextRequest) (context : PagesRouteHandlerRenderContext).

Lemma render_getStaticProps_redirect f data props md :
  getStaticProps (userland this) = Some f →
  isFallback context = false →
  f (static_props_context this context) = inr data →
  answers_redirect data = true →
  triple data_event
    (λ fl, match fl with
           | Return r => not_found_result r ∧ export (handler context) = false
           | Next (props', md') =>
               isRedirect md' = true ∧ pageData md' = Some props' ∧
               export (handler context) = false
           end)
    (λ _, True)
    (render_getStaticProps E this request context props md).
Proof.
  intros Hf Hfb Hdata Hrd. unfold answers_redirect in Hrd.
  unfold render_getStaticProps. rewrite Hf, Hfb.
  triple_step; [done | | done]. same_outcome. rewrite Hrd.
  repeat (triple_step; try done).
Qed.

Lemma render_getServerSideProps_redirect g data props md :
  getServerSideProps (userland this) = Some g →
  isFallback context = false →
  settled (g (server_side_props_context this request context)) = inr data →
  answers_redirect data = true →
  triple data_event
    (λ fl, match fl with
           | Return r => not_found_result r
           | Next (props', md') => isRedirect md' = true ∧ pageData md' = Some props'
           end)
    (λ _, True)
    (render_getServerSideProps E this request context props md).
Proof.
  intros Hg Hfb Hdata Hrd. unfold answers_redirect in Hrd.
  unfold render_getServerSideProps. rewrite Hg, Hfb.
  triple_step; [done | | done]. same_outcome. rewrite Hrd.
  repeat (triple_step; try done).
Qed.

Lemma render_getServerSideProps_keeps_redirect props md :
  isFallback context = false →
  isRedirect md = true → pageData md = Some props →
  triple data_event
    (λ fl, match fl with
           | Return r => not_found_result r
           | Next (props', md') => isRedirect md' = true ∧ pageData md' = Some props'
           end)
    (λ _, True)
    (render_getServerSideProps E this request context props md).
Proof.
  intros Hfb Hrd Hpd. unfold render_getServerSideProps. rewrite Hfb.
  destruct (getServerSideProps (userland this)); [| by apply triple_ret].
  assert (isRedirect
            (write_through (<[SERVER_PROPS_ID E := VBool true]> props) md) = true) as Hw.
  { unfold write_through. by rewrite Hpd. }
  repeat (triple_step; try done).
Qed.

Lemma render_finish_redirect props md beforeInteractive :
  isRedirect md = true →
  triple (λ ev, ¬ document_event ev)
    (λ r, response r = Some (JSON_stringify E props) ∧ metadata r = md) (λ _, True)
    (render_finish E this request context props md beforeInteractive).
Proof.
  intros Hrd. unfold render_finish. rewrite Hrd, orb_true_r.
  eapply triple_bind; [by apply warn_reserved_url_spec; auto |]. intros [] _.
  by apply triple_ret.
Qed.

Lemma render_redirect data :
  isFallback context = false →
  returned_by_data_function this request context data →
  answers_redirect data = true →
  triple (λ ev, ¬ document_event ev)
    (λ r, (is_Some (getStaticProps (userland this)) → export (handler context) = false) ∧
          (not_found_result r ∨ redirect_result E r))
    (λ _, True) (render E this request context).
Proof.
  intros Hfb Hreturned Hrd.
  unfold render. triple_step; [by intros [] |]. triple_step; [by intros [] | | done].
  eapply triple_bind; [apply initialScripts_spec; [by intros [] | done] |].
  intros beforeInteractive _. triple_step; [by intros [] | | done].
  destruct Hreturned as [(f & Hf & Hdata) | (Hnone & g & Hg & Hdata)].
  - eapply triple_bind.
    { eapply triple_events_mono; [apply data_event_not_document |].
      by apply (render_getStaticProps_redirect f data). }
    intros [r | [props md]] Hstatic.
    { apply triple_ret. destruct Hstatic. split; [done | by left]. }
    destruct Hstatic as (Hr & Hpd & Hexport). unfold render_serverSide.
    eapply triple_bind.
    { eapply triple_events_mono; [apply data_event_not_document |].
      by apply render_getServerSideProps_keeps_redirect. }
    intros [r | [props' md']] Hserver; [apply triple_ret; split; [done | by left] |].
    destruct Hserver as [Hr' Hpd'].
    eapply triple_mono; [by apply render_finish_redirect |].
    intros r [Hbody Hmd]. split; [done |]. right. rewrite <- Hmd in Hr', Hpd'.
    split; [done |]. by exists props'.
  - rewrite render_getStaticProps_None by done. triple_step.
    unfold render_serverSide. eapply triple_bind.
    { eapply triple_events_mono; [apply data_event_not_document |].
      by apply (render_getServerSideProps_redirect g data). }
    intros [r | [props' md']] Hserver.
    { apply triple_ret. split; [by rewrite Hnone; intros [? ?] | by left]. }
    destruct Hserver as [Hr' Hpd'].
    eapply triple_mono; [by apply render_finish_redirect |].
    intros r [Hbody Hmd]. split; [by rewrite Hnone; intros [? ?] |].
    right. rewrite <- Hmd in Hr', Hpd'. split; [done |]. by exists props'.
Qed.

(** X15. A redirect answered by a data function is served without a
    document: the result, when there is one, is the JSON of the props
    with [isRedirect] set (or the not-found result), and a redirect of
    [getStaticProps] is never served during an export. *)
Theorem redirect_is_answered_without_document data :
  isFallback context = false →
  returned_by_data_function this request context data →
  answers_redirect data = true →
  ∀ s, Forall (λ ev, ¬ document_event ev) (log (render E this request context s)) ∧
       ∀ r, result (render E this request context s) = inr r →
            (is_Some (getStaticProps (userland this)) →
             export (handler context) = false) ∧
            (not_found_result r ∨ redirect_result E r).
Proof.
  intros Hfb Hreturned Hrd s.
  destruct (triple_run _ _ _ _ s (render_redirect data Hfb Hreturned Hrd))
    as (Hl & Hr & _).
  split; [exact Hl |]. exact Hr.
Qed.
End Redirects.

(** ** The props of [getServerSideProps] *)

Section ServerSideProps.
Context (E : Externals) (this : PagesRouteModule).
Context (request : NextRequest) (context : PagesRouteHandlerRenderContext).

Lemma render_getServerSideProps_props g data d props md :
  getServerSideProps (userland this) = Some g →
  isFallback context = false →
  settled (g (server_side_props_context this request context)) = inr data →
  data !! "props" = Some (VObj d) →
  answers_notFound data = false → answers_redirect data = false →
  let props' :=
    <["pageProps" := VObj (d ∪ own_props (get (<[SERVER_PROPS_ID E := VBool true]> props)
                                            "pageProps"))]>
      (<[SERVER_PROPS_ID E := VBool true]> props) in
  triple data_event
    (λ fl, ∃ md', fl = Next (props', md') ∧ pageData md' = Some props')
    (λ _, True)
    (render_getServerSideProps E this request context props md).
Proof.
  intros Hg Hfb Hdata Hprops Hnf Hrd props'.
  pose proof (has_lookup_Some _ _ _ Hprops) as Hhas.
  pose proof (get_lookup_Some _ _ _ Hprops) as Hget.
  unfold answers_notFound in Hnf. unfold answers_redirect in Hrd.
  unfold render_getServerSideProps. rewrite Hg, Hfb.
  triple_step; [done | | done]. same_outcome. rewrite Hnf, Hrd.
  repeat (triple_step; rewrite ?Hhas, ?Hget in *; simplify_eq/=; try done).
  all: by eexists.
Qed.

Lemma render_finish_props props md beforeInteractive :
  triple (λ ev, ∀ p, props_of_event ev = Some p → p = props)
    (λ r, metadata r = md ∧
          (isDataReq (context_renderOpts (handler context)) = Some true →
           has_getServerSideProps this = true →
           response r = Some (JSON_stringify E props)))
    (λ _, True)
    (render_finish E this request context props md beforeInteractive).
Proof.
  destruct (default false (isDataReq (context_renderOpts (handler context))) &&
            has_getServerSideProps this) eqn:Hdata.
  - eapply triple_mono; [eapply triple_events_mono;
                           [| by apply render_finish_data_request] |].
    + intros [] Hev p; try done; cbn in *; by destruct Hev.
    + by intros r [? ?].
  - eapply triple_mono; [eapply triple_events_mono; [| apply render_finish_spec] |].
    + intros [] Hev p; try done; cbn in *; intros [= <-]; [done | done |].
      by destruct Hev.
    + intros r ->. split; [done |]. intros Hreq Hssp. by rewrite Hreq, Hssp in Hdata.
Qed.

(** X23. The props of a [getServerSideProps] result are merged over the
    page props of the [App], key by key: the page is rendered with
    them, they are the page data of the result and, on a data request,
    the body is their JSON. *)
Theorem server_side_props_override_app_props g data d app_props :
  getStaticProps (userland this) = None →
  getServerSideProps (userland this) = Some g →
  isFallback context = false →
  settled (App_getInitialProps E (router this request context)
             (ctx this request context)) = inr app_props →
  settled (g (server_side_props_context this request context)) = inr data →
  data !! "props" = Some (VObj d) →
  answers_notFound data = false → answers_redirect data = false →
  SERVER_PROPS_ID E ≠ "pageProps" →
  let merged := d ∪ own_props (get app_props "pageProps") in
  ∀ s,
    Forall (λ ev, ∀ p, props_of_event ev = Some p → p !! "pageProps" = Some (VObj merged))
      (log (render E this request context s)) ∧
    ∀ r, result (render E this request context s) = inr r →
         ∃ p, pageData (metadata r) = Some p ∧
              p !! "pageProps" = Some (VObj merged) ∧
              (isDataReq (context_renderOpts (handler context)) = Some true →
               response r = Some (JSON_stringify E p)).
Proof.
  intros Hgsp Hg Hfb Happ Hdata Hprops Hnf Hrd Hssp merged s.
  cut (triple
         (λ ev, ∀ p, props_of_event ev = Some p → p !! "pageProps" = Some (VObj merged))
         (λ r, ∃ p, pageData (metadata r) = Some p ∧
                    p !! "pageProps" = Some (VObj merged) ∧
                    (isDataReq (context_renderOpts (handler context)) = Some true →
                     response r = Some (JSON_stringify E p)))
         (λ _, True) (render E this request context)).
  { intros H. destruct (triple_run _ _ _ _ s H) as (Hl & Hr & _). by split. }
  unfold render. triple_step; [done |]. triple_step; [done | | done].
  eapply triple_bind; [by apply initialScripts_spec |]. intros beforeInteractive _.
  triple_step; [done | | done].
  match goal with H : settled (without_res _ _) = inr ?a |- _ =>
    cbn in H; assert (a = app_props) as -> by congruence end.
  rewrite render_getStaticProps_None by done. triple_step.
  unfold render_serverSide. eapply triple_bind.
  { eapply triple_events_mono;
      [| by eapply (render_getServerSideProps_props g data d)].
    by intros []. }
  intros fl (md' & -> & Hpage). cbv zeta in Hpage.
  set (props' := <["pageProps" := _]> _) in *.
  assert (props' !! "pageProps" = Some (VObj merged)) as Hpp.
  { unfold props'. rewrite lookup_insert_eq. do 2 f_equal. unfold merged. f_equal.
    f_equal. unfold get. rewrite lookup_insert_ne by done. unfold mark_preview.
    case_match; [| done]. by rewrite lookup_insert_ne. }
  eapply triple_mono; [eapply triple_events_mono; [| apply render_finish_props] |].
  - intros ev Hev p Hp. by rewrite (Hev p Hp).
  - intros r [-> Hbody]. exists props'. split; [done |]. split; [done |].
    intros Hreq. apply Hbody; [done |]. unfold has_getServerSideProps. by rewrite Hg.
Qed.
End ServerSideProps.

(** ** The dynamic imports of a render *)

Lemma Set_add_NoDup {A} `{EqDecision A} (x : A) (s : list A) :
  NoDup s → NoDup (Set_add x s).
Proof.
  intros Hs. unfold Set_add. destruct (decide (x ∈ s)) as [| Hx]; [done |].
  apply NoDup_app. split; [done |]. split; [| apply NoDup_singleton].
  intros y Hy ->%list_elem_of_singleton. done.
Qed.

Lemma Set_add_elem_of {A} `{EqDecision A} (x y : A) (s : list A) :
  y ∈ Set_add x s ↔ y = x ∨ y ∈ s.
Proof.
  unfold Set_add. destruct (decide (x ∈ s)) as [Hx |].
  - split; [by right | by intros [-> |]].
  - rewrite elem_of_app, list_elem_of_singleton. tauto.
Qed.

Lemma Set_add_all_NoDup {A} `{EqDecision A} (xs s : list A) :
  NoDup s → NoDup (fold_left (λ files item, Set_add item files) xs s).
Proof.
  revert s. induction xs as [| x xs IH]; intros s Hs; [done |].
  cbn. by apply IH, Set_add_NoDup.
Qed.

Lemma Set_add_all_elem_of {A} `{EqDecision A} (y : A) (xs s : list A) :
  y ∈ fold_left (λ files item, Set_add item files) xs s ↔ y ∈ xs ∨ y ∈ s.
Proof.
  revert s. induction xs as [| x xs IH]; intros s; cbn.
  - rewrite elem_of_nil. tauto.
  - rewrite IH, Set_add_elem_of, elem_of_cons. tauto.
Qed.

Section DynamicImports.
Context (context : PagesRouteHandlerRenderContext).

Lemma dynamicImportsOf_fold modules :
  dynamicImportsOf context modules = fold_left (add_dynamic_import context) modules ([], []).
Proof.
  unfold dynamicImportsOf. generalize (@nil ModuleId, @nil string).
  induction modules as [| m modules IH]; intros acc; [done |].
  cbn. rewrite <- IH. f_equal. unfold add_dynamic_import. by destruct acc.
Qed.

Lemma dynamic_imports_NoDup modules acc :
  NoDup acc.1 → NoDup acc.2 →
  NoDup (fold_left (add_dynamic_import context) modules acc).1 ∧
  NoDup (fold_left (add_dynamic_import context) modules acc).2.
Proof.
  revert acc. induction modules as [| m modules IH]; intros acc H1 H2; [done |].
  cbn. apply IH; unfold add_dynamic_import; destruct (_ !! m); cbn; try done.
  - by apply Set_add_NoDup.
  - by apply Set_add_all_NoDup.
Qed.

Lemma dynamic_imports_from_manifest modules acc :
  let imported (item : ManifestItem) :=
    ∃ moduleName, moduleName ∈ modules ∧
                  reactLoadable (manifests (handler context)) !! moduleName = Some item in
  (∀ id, id ∈ (fold_left (add_dynamic_import context) modules acc).1 ↔
         id ∈ acc.1 ∨ ∃ item, imported item ∧ item_id item = id) ∧
  (∀ file, file ∈ (fold_left (add_dynamic_import context) modules acc).2 ↔
           file ∈ acc.2 ∨ ∃ item, imported item ∧ file ∈ item_files item).
Proof.
  revert acc. induction modules as [| m modules IH]; intros acc imported.
  { cbn. split; intros x; (split; [by left |]); intros [| (item & (n & Hn & _) & _)];
      [done | by apply elem_of_nil in Hn | done | by apply elem_of_nil in Hn]. }
  cbn [fold_left]. destruct (IH (add_dynamic_import context acc m)) as [IH1 IH2].
  split; intros x; rewrite ?IH1, ?IH2; clear IH IH1 IH2; unfold add_dynamic_import, imported.
  - destruct (_ !! m) as [item |] eqn:Hm; cbn; rewrite ?Set_add_elem_of; split.
    + intros [[-> | Hx] | (it & (n & Hn & Hit) & Hid)]; [| by left |].
      * right. exists item. split; [| done]. exists m. split; [by left | done].
      * right. exists it. split; [| done]. exists n. split; [by right | done].
    + intros [Hx | (it & (n & Hn & Hit) & Hid)]; [by left; right |].
      apply elem_of_cons in Hn as [-> | Hn].
      * left. left. congruence.
      * right. exists it. split; [| done]. by exists n.
    + intros [Hx | (it & (n & Hn & Hit) & Hid)]; [by left |].
      right. exists it. split; [| done]. exists n. split; [by right | done].
    + intros [Hx | (it & (n & Hn & Hit) & Hid)]; [by left |].
      apply elem_of_cons in Hn as [-> | Hn]; [congruence |].
      right. exists it. split; [| done]. by exists n.
  - destruct (_ !! m) as [item |] eqn:Hm; cbn; rewrite ?Set_add_all_elem_of; split.
    + intros [[Hx | Hx] | (it & (n & Hn & Hit) & Hid)]; [| by left |].
      * right. exists item. split; [| done]. exists m. split; [by left | done].
      * right. exists it. split; [| done]. exists n. split; [by right | done].
    + intros [Hx | (it & (n & Hn & Hit) & Hid)]; [by left; right |].
      apply elem_of_cons in Hn as [-> | Hn].
      * left. left. congruence.
      * right. exists it. split; [| done]. by exists n.
    + intros [Hx | (it & (n & Hn & Hit) & Hid)]; [by left |].
      right. exists it. split; [| done]. exists n. split; [by right | done].
    + intros [Hx | (it & (n & Hn & Hit) & Hid)]; [by left |].
      apply elem_of_cons in Hn as [-> | Hn]; [congruence |].
      right. exists it. split; [| done]. by exists n.
Qed.
End DynamicImports.

(** ** The build manifest and the dynamic imports *)

Lemma filter_partition {A} (f : A → bool) (l : list A) :
  List.filter f l ++ List.filter (λ x, negb (f x)) l ≡ₚ l.
Proof.
  induction l as [| x l IH]; [done |]. cbn. destruct (f x); cbn.
  - by rewrite IH.
  - rewrite <- Permutation_middle. by rewrite IH.
Qed.

(** X16. The manifest handed to the document holds every file of the build
    manifest: the pages other than the rendered one are untouched, and
    the files taken off the low-priority list, those of the build
    manifest itself on an automatically exported dynamic page, are added
    to the rendered page. *)
Theorem filteredBuildManifest_keeps_every_file E this request context :
  let manifest := build (manifests (handler context)) in
  let filtered := filteredBuildManifest E this request context in
  let page := denormalizePagePath E (normalizePagePath E (pathname request)) in
  (∀ other, other ≠ page → pages filtered !! other = pages manifest !! other) ∧
  (pages manifest !! page = None → filtered = manifest) ∧
  (∀ files, pages manifest !! page = Some files →
     ∃ moved, pages filtered !! page = Some (files ++ moved) ∧
              moved ++ lowPriorityFiles filtered ≡ₚ lowPriorityFiles manifest ∧
              (∀ f, f ∈ moved →
                    includes f "_buildManifest" = true ∧
                    isAutoExport this = true ∧ isDynamic this = true) ∧
              (isAutoExport this = true → isDynamic this = true →
               ∀ f, f ∈ lowPriorityFiles filtered → includes f "_buildManifest" = false)).
Proof.
  cbv zeta. unfold filteredBuildManifest.
  destruct (isAutoExport this && isDynamic this) eqn:Hauto.
  - apply andb_true_iff in Hauto as [Ha Hd].
    destruct (pages _ !! _) as [files |] eqn:Hpage; cbn.
    + split; [intros other Hother; by rewrite lookup_insert_ne |].
      split; [done |]. intros ? [= <-]. eexists. split; [by rewrite lookup_insert_eq |].
      split; [apply filter_partition |]. split.
      * intros f [_ Hf]%list_elem_of_In%filter_In. done.
      * intros _ _ f [_ Hf]%list_elem_of_In%filter_In. by apply negb_true_iff.
    + split; [done |]. split; [done |]. intros files Hfiles. congruence.
  - split; [done |]. split; [done |]. intros files Hfiles. exists [].
    rewrite app_nil_r. split; [done |]. split; [done |]. split.
    + by intros f Hf%elem_of_nil.
    + intros Ha Hd. by rewrite Ha, Hd in Hauto.
Qed.

(** X18. The dynamic imports of a render hold each module id and each file
    once; they are those of the manifest entries of the modules the
    render loaded, a module without entry bringing nothing. *)
Theorem dynamic_imports_are_those_of_the_manifest context modules :
  let imported (item : ManifestItem) :=
    ∃ moduleName, moduleName ∈ modules ∧
                  reactLoadable (manifests (handler context)) !! moduleName = Some item in
  NoDup (dynamicImportsOf context modules).1 ∧
  NoDup (dynamicImportsOf context modules).2 ∧
  (∀ id, id ∈ (dynamicImportsOf context modules).1 ↔
         ∃ item, imported item ∧ item_id item = id) ∧
  (∀ file, file ∈ (dynamicImportsOf context modules).2 ↔
           ∃ item, imported item ∧ file ∈ item_files item).
Proof.
  cbv zeta. rewrite dynamicImportsOf_fold.
  destruct (dynamic_imports_NoDup context modules ([], [])) as [Hids Hfiles];
    [apply NoDup_nil_2 | apply NoDup_nil_2 |].
  destruct (dynamic_imports_from_manifest context modules ([], [])) as [Hid Hfile].
  split; [done |]. split; [done |]. split.
  - intros id. rewrite Hid. cbn. rewrite elem_of_nil. tauto.
  - intros file. rewrite Hfile. cbn. rewrite elem_of_nil. tauto.
Qed.

(** * The repository helpers *)

Lemma includes_empty s : includes s "" = true.
Proof. unfold includes. by destruct s. Qed.

Lemma append_inj_l (p a b : string) : p +:+ a = p +:+ b → a = b.
Proof.
  induction p as [| c p IH]; [done |].
  change (String c (p +:+ a) = String c (p +:+ b) → a = b). intros [= H]. auto.
Qed.

Section RepoSetupTheorems.
Context (exec : string → ExecError + string).
Context (trim : string → string).
Context (semver_gt : string → string → value + bool).

Lemma stable_candidate_not_empty ref t : stable_candidate ref t = true → t ≠ "".
Proof.
  unfold stable_candidate. intros [_ H%negb_true_iff]%andb_true_iff ->.
  by rewrite includes_empty in H.
Qed.

Lemma last_stable_step_picks ref o curTag o' :
  last_stable_step semver_gt ref o curTag = inr o' →
  o' = o ∨ (o' = Some curTag ∧ stable_candidate ref curTag = true).
Proof.
  unfold last_stable_step. destruct (stable_candidate ref curTag); [| intros [= <-]; by left].
  destruct o as [last |]; [| intros [= <-]; by right].
  destruct (bool_decide (last = "")); [intros [= <-]; by right |].
  destruct (semver_gt curTag last) as [| []]; intros [= <-]; auto.
Qed.

Lemma last_stable_loop_picks ref visited o o' :
  last_stable_loop semver_gt ref visited o = inr o' →
  o' = o ∨ ∃ t, o' = Some t ∧ t ∈ visited ∧ stable_candidate ref t = true.
Proof.
  revert o. induction visited as [| curTag rest IH]; intros o; cbn.
  - intros [= <-]. by left.
  - destruct (last_stable_step semver_gt ref o curTag) as [| o1] eqn:Hstep; [done |].
    intros [-> | (t & -> & Ht & Hc)]%IH.
    + apply last_stable_step_picks in Hstep as [-> | [-> Hc]]; [by left |].
      right. exists curTag. split; [done |]. split; [by left | done].
    + right. exists t. split; [done |]. split; [by right | done].
Qed.

(** X20. The tag [getLastStable] answers with is one of the tags of the
    repository, holds no [-], is not part of [ref] and is not empty. *)
Theorem getLastStable_answers_a_stable_tag repoDir ref tag :
  getLastStable exec trim semver_gt repoDir ref = inr (Some tag) →
  ∃ stdout, exec ("cd " +:+ repoDir +:+ " && git tag -l") = inr stdout ∧
            tag ∈ tags_of trim stdout ∧
            includes tag "-" = false ∧ includes ref tag = false ∧ tag ≠ "".
Proof.
  unfold getLastStable. destruct (exec _) as [| stdout]; [done |].
  destruct (last_stable_loop _ _ _ _) as [| o] eqn:Hloop; [done |]. intros [= ->].
  apply last_stable_loop_picks in Hloop as [| (t & [= <-] & Ht & Hc)]; [done |].
  exists stdout. split; [done |]. split; [by apply elem_of_reverse |].
  pose proof (stable_candidate_not_empty _ _ Hc).
  unfold stable_candidate in Hc. by split_tests.
Qed.

Section Ordered.
Context (gt : string → string → bool) (ref : string) (tags : list string).
Hypothesis semver_gt_orders : orders_candidates semver_gt gt ref tags.

Lemma last_stable_loop_newest visited seen o :
  (∀ c, c ∈ seen → c ∈ tags) → (∀ c, c ∈ visited → c ∈ tags) →
  newest_of gt ref seen o →
  ∃ o', last_stable_loop semver_gt ref visited o = inr o' ∧
        newest_of gt ref (seen ++ visited) o'.
Proof.
  destruct semver_gt_orders as (Htotal & Hirreflexive & Htransitive).
  revert seen o. induction visited as [| curTag rest IH]; intros seen o Hseen Hvisited Ho;
    cbn.
  { exists o. by rewrite app_nil_r. }
  assert (curTag ∈ tags) as Hcur by (apply Hvisited; by left).
  assert (∃ o1, last_stable_step semver_gt ref o curTag = inr o1 ∧
                newest_of gt ref (seen ++ [curTag]) o1) as (o1 & -> & Ho1).
  { unfold last_stable_step. destruct (stable_candidate ref curTag) eqn:Hc.
    - destruct o as [last |].
      + destruct Ho as (Hlast & Hin_last & Hc_last & Ho).
        rewrite (bool_decide_eq_false_2 _ Hlast).
        rewrite Htotal by auto. destruct (gt curTag last) eqn:Hgt.
        * eexists. split; [done |]. split; [by eapply stable_candidate_not_empty |].
          split; [apply elem_of_app; right; by left |]. split; [done |].
          intros c [Hin | ->%list_elem_of_singleton]%elem_of_app Hcc; [| by auto].
          destruct (gt c curTag) eqn:Hcgt; [| done].
          rewrite <- (Ho c Hin Hcc). symmetry.
          by apply (Htransitive c curTag last); auto.
        * eexists. split; [done |]. split; [done |].
          split; [apply elem_of_app; by left |]. split; [done |].
          intros c [Hin | ->%list_elem_of_singleton]%elem_of_app Hcc; auto.
      + eexists. split; [done |]. split; [by eapply stable_candidate_not_empty |].
        split; [apply elem_of_app; right; by left |]. split; [done |].
        intros c [Hin | ->%list_elem_of_singleton]%elem_of_app Hcc; [| by auto].
        by rewrite (Ho c Hin) in Hcc.
    - exists o. split; [done |]. destruct o as [last |].
      + destruct Ho as (Hlast & Hin_last & Hc_last & Ho). split; [done |].
        split; [apply elem_of_app; by left |]. split; [done |].
        intros c [Hin | ->%list_elem_of_singleton]%elem_of_app Hcc; [auto | congruence].
      + intros c [Hin | ->%list_elem_of_singleton]%elem_of_app; auto. }
  destruct (IH (seen ++ [curTag]) o1) as (o' & -> & Ho'); [| | done |].
  { intros c [Hin | ->%list_elem_of_singleton]%elem_of_app; auto. }
  { intros c Hin. apply Hvisited. by right. }
  exists o'. split; [done |]. by rewrite <- app_assoc in Ho'.
Qed.
End Ordered.

(** X21. When [semver.gt] accepts the stable tags of the repository that
    are not part of [ref] and compares them as a strict order does
    (on any other tag it may throw), [getLastStable] answers with a
    newest of these tags, and with [undefined] only when there is
    none. *)
Theorem getLastStable_answers_the_newest gt repoDir ref stdout :
  exec ("cd " +:+ repoDir +:+ " && git tag -l") = inr stdout →
  orders_candidates semver_gt gt ref (tags_of trim stdout) →
  ∃ answer, getLastStable exec trim semver_gt repoDir ref = inr answer ∧
            newest_of gt ref (tags_of trim stdout) answer.
Proof.
  intros Hexec Horders. unfold getLastStable. rewrite Hexec.
  destruct (last_stable_loop_newest gt ref (tags_of trim stdout) Horders
              (reverse (tags_of trim stdout)) [] None)
    as (answer & -> & Hnew).
  { by intros c Hc%elem_of_nil. }
  { intros c Hc. by apply elem_of_reverse. }
  { by intros c Hc%elem_of_nil. }
  exists answer. split; [done |]. cbn [app] in Hnew.
  destruct answer as [tag |]; cbn in *.
  - destruct Hnew as (Htag & Hin & Hc & Hnew). split; [done |].
    split; [by apply elem_of_reverse |]. split; [done |].
    intros c Hcin. by apply Hnew, elem_of_reverse.
  - intros c Hc. by apply Hnew, elem_of_reverse.
Qed.

(** X22. [mergeBranch] rejects only with the rejection of [git remote add],
    of [git fetch] or of [git merge --abort], never with that of the
    merge; it aborts the merge exactly when the merge failed with
    [CONFLICT] in its output. *)
Theorem mergeBranch_swallows_the_merge_failure ref origRepoDir destRepoDir :
  let remote := "cd " +:+ destRepoDir +:+ " && git remote add upstream " +:+ origRepoDir in
  let fetch := "cd " +:+ destRepoDir +:+ " && git fetch upstream" in
  let merge := "cd " +:+ destRepoDir +:+ " && git merge upstream/" +:+ ref in
  let abort := "cd " +:+ destRepoDir +:+ " && git merge --abort" in
  let run := mergeBranch exec ref origRepoDir destRepoDir in
  (∀ err, run.2 = inl err →
          exec remote = inl err ∨ exec fetch = inl err ∨ exec abort = inl err) ∧
  (Exec abort ∈ run.1 ↔
   ∃ added fetched err stdout,
     exec remote = inr added ∧ exec fetch = inr fetched ∧
     exec merge = inl err ∧ err_stdout err = Some stdout ∧
     includes stdout "CONFLICT" = true).
Proof.
  cbv zeta. unfold mergeBranch.
  assert (∀ tail, Exec ("cd " +:+ destRepoDir +:+ " && git merge --abort") =
                  Exec ("cd " +:+ destRepoDir +:+ tail) →
                  tail = " && git merge --abort") as Hcmd.
  { intros tail H. assert (∀ a b, Exec a = Exec b → a = b) as Hinj by congruence.
    apply Hinj in H. by do 2 apply append_inj_l in H. }
  destruct (exec (_ +:+ _ +:+ " && git remote add upstream " +:+ _)) as [e1 | o1] eqn:H1; cbn.
  { split; [intros err [= ->]; by left |]. split.
    - intros H%list_elem_of_singleton%Hcmd. discriminate H.
    - by intros (? & ? & ? & ? & ? & _). }
  destruct (exec (_ +:+ _ +:+ " && git fetch upstream")) as [e2 | o2] eqn:H2; cbn.
  { split; [intros err [= ->]; right; by left |]. split.
    - intros Hin. repeat (apply elem_of_cons in Hin as [H%Hcmd | Hin]; [discriminate H |]).
      by apply elem_of_nil in Hin.
    - by intros (? & ? & ? & ? & _ & ? & _). }
  destruct (exec (_ +:+ _ +:+ " && git merge upstream/" +:+ _)) as [e3 | o3] eqn:H3; cbn.
  2: { split; [done |]. split.
    - intros Hin. repeat (apply elem_of_cons in Hin as [H%Hcmd | Hin]; [discriminate H |]).
      apply elem_of_cons in Hin as [[=] | Hin]. by apply elem_of_nil in Hin.
    - by intros (? & ? & ? & ? & _ & _ & ? & _). }
  assert (Exec ("cd " +:+ destRepoDir +:+ " && git merge --abort") ∉
          [Exec ("cd " +:+ destRepoDir +:+ " && git remote add upstream " +:+ origRepoDir);
           Exec ("cd " +:+ destRepoDir +:+ " && git fetch upstream");
           Exec ("cd " +:+ destRepoDir +:+ " && git merge upstream/" +:+ ref);
           Logger_error "Failed to auto merge main branch:" e3]) as Hnot.
  { intros Hin. repeat (apply elem_of_cons in Hin as [H%Hcmd | Hin]; [discriminate H |]).
    apply elem_of_cons in Hin as [[=] | Hin]. by apply elem_of_nil in Hin. }
  destruct (err_stdout e3) as [stdout |] eqn:Hout.
  2: { split; [done |]. split; [done |]. intros (? & ? & ? & ? & _ & _ & [= <-] & ? & _).
       congruence. }
  destruct (negb _ && _) eqn:Htest.
  - apply andb_true_iff in Htest as [_ Hconflict].
    destruct (exec (_ +:+ _ +:+ " && git merge --abort")) as [e4 | o4] eqn:H4; cbn.
    + split; [intros err [= ->]; auto |]. split; [| intros _; repeat first [apply list_elem_of_here | apply list_elem_of_further]].
      intros _. by exists o1, o2, e3, stdout.
    + split; [done |]. split.
      * intros _. by exists o1, o2, e3, stdout.
      * intros _. repeat first [apply list_elem_of_here | apply list_elem_of_further].
  - split; [done |]. split; [done |].
    intros (? & ? & ? & out & _ & _ & [= <-] & Hout' & Hinc).
    assert (out = stdout) as -> by congruence.
    rewrite Hinc, andb_true_r in Htest. apply negb_false_iff, bool_decide_eq_true in Htest.
    subst. discriminate Hinc.
Qed.
End RepoSetupTheorems.

(** ** [linkPackages] *)

Lemma script_ret {A} P X (Q : A → Prop) (a : A) : Q a → script P Q X (mret a).
Proof. intros H. split; [constructor | exact H]. Qed.

Lemma script_rejects {A} P (X : link_failure → Prop) (Q : A → Prop) e :
  X e → script P Q X (@rejects A e).
Proof. intros H. split; [constructor | exact H]. Qed.

Lemma script_does (P : link_action → Prop) X (Q : () → Prop) a :
  P a → Q () → script P Q X (does a).
Proof. intros Ha HQ. split; [by repeat constructor | exact HQ]. Qed.

Lemma script_bind {A B} P X (Q : A → Prop) (R : B → Prop) (m : Script A)
    (f : A → Script B) :
  script P Q X m → (∀ a, Q a → script P R X (f a)) → script P R X (m ≫= f).
Proof.
  intros [Hl Hr] Hf. unfold mbind, Script_bind. destruct m as [l [e | a]]; cbn in *.
  - by split.
  - destruct (Hf a Hr) as [Hl' Hr']. split; [| exact Hr']. apply Forall_app. by split.
Qed.

Lemma script_each {A} P X (l : list A) (body : A → Script ()) :
  (∀ x, x ∈ l → script P (λ _, True) X (body x)) →
  script P (λ _, True) X (each l body).
Proof.
  induction l as [| x l IH]; intros H; [by apply script_ret |].
  cbn. eapply script_bind; [apply H; by left |]. intros _ _.
  apply IH. intros y Hy. apply H. by right.
Qed.

Lemma script_exn_mono {A} P (X X' : link_failure → Prop) (Q : A → Prop) (m : Script A) :
  (∀ e, X e → X' e) → script P Q X m → script P Q X' m.
Proof. intros HX [Hl Hr]. split; [exact Hl |]. destruct (m.2); auto. Qed.

(** A loop one turn of which rejects does not resolve. *)
Lemma script_each_rejects {A} P X (l : list A) (body : A → Script ()) x :
  x ∈ l → (∀ y, y ∈ l → script P (λ _, True) X (body y)) →
  script P (λ _, False) X (body x) →
  script P (λ _, False) X (each l body).
Proof.
  induction l as [| y l IH]; intros Hx Hall Hfails; [by apply elem_of_nil in Hx |].
  cbn. apply elem_of_cons in Hx as [<- | Hx].
  - eapply script_bind; [exact Hfails | by intros ? []].
  - eapply script_bind; [apply Hall; by left |]. intros _ _.
    apply IH; [done | | done]. intros z Hz. apply Hall. by right.
Qed.

Lemma Map_get_set {V} (k k' : string) (v : V) m :
  Map_get k' (Map_set k v m) = if bool_decide (k = k') then Some v else Map_get k' m.
Proof.
  induction m as [| [k0 v0] m IH]; cbn.
  - done.
  - destruct (bool_decide (k0 = k)) eqn:Hk0; cbn.
    + apply bool_decide_eq_true in Hk0 as ->. by destruct (bool_decide (k = k')).
    + rewrite IH. apply bool_decide_eq_false in Hk0.
      destruct (bool_decide (k0 = k')) eqn:Hk'; [| done].
      apply bool_decide_eq_true in Hk' as ->. by rewrite bool_decide_eq_false_2.
Qed.

Lemma Map_set_keys {V} (k : string) (v : V) m k' :
  k' ∈ (Map_set k v m).*1 ↔ k' = k ∨ k' ∈ m.*1.
Proof.
  induction m as [| [k0 v0] m IH]; cbn.
  - rewrite list_elem_of_singleton, elem_of_nil. tauto.
  - destruct (bool_decide (k0 = k)) eqn:Hk0; cbn; rewrite !elem_of_cons.
    + apply bool_decide_eq_true in Hk0 as ->. tauto.
    + rewrite IH. tauto.
Qed.

Lemma Map_set_NoDup {V} (k : string) (v : V) m : NoDup m.*1 → NoDup (Map_set k v m).*1.
Proof.
  induction m as [| [k0 v0] m IH]; cbn; intros Hm.
  - apply NoDup_singleton.
  - apply NoDup_cons in Hm as [Hk0 Hm].
    destruct (bool_decide (k0 = k)) eqn:Hk; cbn.
    + apply bool_decide_eq_true in Hk as ->. by apply NoDup_cons.
    + apply bool_decide_eq_false in Hk. apply NoDup_cons. split; [| by apply IH].
      rewrite Map_set_keys. intros [? | ?]; done.
Qed.

Lemma Map_get_elem_of {V} (k : string) (v : V) m :
  NoDup m.*1 → (k, v) ∈ m ↔ Map_get k m = Some v.
Proof.
  induction m as [| [k0 v0] m IH]; cbn; intros Hm.
  - rewrite elem_of_nil. split; [done | discriminate].
  - apply NoDup_cons in Hm as [Hk0 Hm]. rewrite elem_of_cons, IH by done.
    destruct (bool_decide (k0 = k)) eqn:Hk.
    + apply bool_decide_eq_true in Hk as ->. split.
      * intros [[= ->] | Hget]; [done |]. destruct Hk0.
        apply IH in Hget; [| done]. apply list_elem_of_fmap. by exists (k, v).
      * intros [= ->]. by left.
    + apply bool_decide_eq_false in Hk. split; [| by right].
      intros [[= -> ->] | Hget]; done.
Qed.

Lemma Map_get_None {V} (k : string) (m : list (string * V)) :
  Map_get k m = None ↔ k ∉ m.*1.
Proof.
  induction m as [| [k0 v0] m IH]; cbn.
  - split; [intros _ ?%elem_of_nil; done | done].
  - rewrite not_elem_of_cons. destruct (bool_decide (k0 = k)) eqn:Hk.
    + apply bool_decide_eq_true in Hk as ->. split; [done | by intros [? _]].
    + apply bool_decide_eq_false in Hk. rewrite IH. split; [by split | by intros [_ ?]].
Qed.

Section LinkPackagesTheorems.
Context (path_join : list string → string) (path_dirname : string → string).
Context (fs_readdir : string → FsError + list string).
Context (fs_existsSync : string → bool).
Context (require : string → value + PackageJson).
Context (fs_writeFile : string → PackageJson → FsError + ()).
Context (exec : string → ExecError + string).

Lemma link_dependency_spec pkgData name entry :
  pkg_name (link_dependency pkgData (name, entry)) = pkg_name pkgData ∧
  pkg_files (link_dependency pkgData (name, entry)) = pkg_files pkgData ∧
  (pkg_dependencies pkgData = None →
   pkg_dependencies (link_dependency pkgData (name, entry)) = None) ∧
  (∀ dep, dependency (link_dependency pkgData (name, entry)) dep =
          if bool_decide (name = dep)
          then match dependency pkgData dep with
               | Some version =>
                   if bool_decide (version = "") then Some version
                   else Some (packedPkgPath entry)
               | None => None
               end
          else dependency pkgData dep).
Proof.
  assert (∀ dep (linked other : option string),
            (name = dep → linked = other) →
            linked = if bool_decide (name = dep) then other else linked) as Hcase.
  { intros dep linked other H. case_bool_decide; auto. }
  unfold link_dependency, dependency. cbn.
  destruct (pkg_dependencies pkgData) as [dependencies |] eqn:Hd; cbn.
  2: { rewrite Hd. repeat split; try done. intros dep. cbn. by case_bool_decide. }
  destruct (dependencies !! name) as [version |] eqn:Hv; cbn.
  2: { rewrite Hd. repeat split; try done. intros dep. cbn.
       apply Hcase. intros <-. by rewrite Hv. }
  destruct (decide (version = "")) as [Hempty | Hempty].
  - rewrite (bool_decide_eq_true_2 _ Hempty), Hd. repeat split; try done.
    intros dep. cbn. apply Hcase. intros <-.
    by rewrite Hv, (bool_decide_eq_true_2 _ Hempty).
  - rewrite (bool_decide_eq_false_2 _ Hempty). repeat split; try done.
    intros dep. cbn. destruct (decide (name = dep)) as [<- | Hne].
    + rewrite bool_decide_eq_true_2 by done.
      by rewrite lookup_insert_eq, Hv, (bool_decide_eq_false_2 _ Hempty).
    + rewrite bool_decide_eq_false_2 by done. by rewrite lookup_insert_ne.
Qed.

(** [link_dependencies] keeps the name and the files, and rewrites
    exactly the dependencies on packages of the repository. *)
Lemma link_dependencies_spec pkgDatas pkgData :
  NoDup pkgDatas.*1 →
  pkg_name (link_dependencies pkgDatas pkgData) = pkg_name pkgData ∧
  pkg_files (link_dependencies pkgDatas pkgData) = pkg_files pkgData ∧
  (pkg_dependencies pkgData = None →
   pkg_dependencies (link_dependencies pkgDatas pkgData) = None) ∧
  (∀ dep, dependency (link_dependencies pkgDatas pkgData) dep =
          match Map_get dep pkgDatas, dependency pkgData dep with
          | Some entry, Some version =>
              if bool_decide (version = "") then Some version
              else Some (packedPkgPath entry)
          | _, linked => linked
          end).
Proof.
  unfold link_dependencies. revert pkgData.
  induction pkgDatas as [| [name entry] pkgDatas IH]; intros pkgData Hkeys.
  { repeat split; try done; intros dep; cbn; by destruct (dependency pkgData dep). }
  apply NoDup_cons in Hkeys as [Hname Hkeys]. cbn [fold_left].
  destruct (IH (link_dependency pkgData (name, entry)) Hkeys) as (Hn & Hf & Hnone & Hdeps).
  destruct (link_dependency_spec pkgData name entry) as (Hn1 & Hf1 & Hnone1 & Hdeps1).
  split; [congruence |]. split; [congruence |]. split; [auto |].
  intros dep. rewrite Hdeps, Hdeps1. cbn [Map_get].
  destruct (bool_decide (name = dep)) eqn:Hdep.
  - apply bool_decide_eq_true in Hdep as <-.
    apply Map_get_None in Hname. cbn in Hname. rewrite Hname.
    destruct (dependency pkgData name) as [version |]; [| done].
    by destruct (bool_decide (version = "")).
  - done.
Qed.

Lemma Map_set_packed name entry (pkgDatas : list (string * PkgEntry)) :
  Map_set name (packedPkgPath entry) (prod_map id packedPkgPath <$> pkgDatas) =
  prod_map id packedPkgPath <$> Map_set name entry pkgDatas.
Proof.
  induction pkgDatas as [| [k e] pkgDatas IH]; [done |].
  cbn. destruct (bool_decide (k = name)); cbn; [done |]. by rewrite IH.
Qed.

Lemma packed_keys (pkgDatas : list (string * PkgEntry)) :
  (prod_map id packedPkgPath <$> pkgDatas).*1 = pkgDatas.*1.
Proof. induction pkgDatas as [| [k e] l IH]; [done |]. cbn. by rewrite IH. Qed.

(** What the first loop has gathered. *)
Lemma getting_package_data_spec repoDir pkgs all pkgDatas pkgPaths :
  pkgs ⊆ all →
  NoDup pkgDatas.*1 →
  pkgPaths = prod_map id packedPkgPath <$> pkgDatas →
  (∀ name entry, (name, entry) ∈ pkgDatas →
     repository_package path_join fs_existsSync require repoDir all name entry) →
  script (λ a, ∃ args, a = Console_log args)
    (λ '(pkgDatas', pkgPaths'),
       NoDup pkgDatas'.*1 ∧
       pkgPaths' = prod_map id packedPkgPath <$> pkgDatas' ∧
       ∀ name entry, (name, entry) ∈ pkgDatas' →
         repository_package path_join fs_existsSync require repoDir all name entry)
    fails_before_packing
    (getting_package_data path_join fs_existsSync require repoDir pkgs pkgDatas pkgPaths).
Proof.
  revert pkgDatas pkgPaths.
  induction pkgs as [| directory pkgs IH]; intros pkgDatas pkgPaths Hsub Hkeys Hpaths Hall.
  { cbn. by apply script_ret. }
  assert (pkgs ⊆ all) as Hsub' by (intros x Hx; apply Hsub; by right).
  cbn [getting_package_data].
  destruct (negb (fs_existsSync _)) eqn:Hexists.
  { eapply script_bind; [apply script_does with (Q := λ _, True); [by eexists | done] |].
    intros _ _. by apply IH. }
  apply negb_false_iff in Hexists.
  destruct (require _) as [thrown | data] eqn:Hrequire; [by apply script_rejects |].
  apply IH; [done | by apply Map_set_NoDup | |].
  - rewrite Hpaths. apply Map_set_packed.
  - intros name entry Hin.
    destruct (decide (name = pkg_name data)) as [-> | Hne].
    + apply Map_get_elem_of in Hin; [| by apply Map_set_NoDup].
      rewrite Map_get_set, bool_decide_eq_true_2 in Hin by done. injection Hin as <-.
      exists directory. split; [apply Hsub; by left |]. by repeat split.
    + apply Hall. apply Map_get_elem_of; [done |].
      apply Map_get_elem_of in Hin; [| by apply Map_set_NoDup].
      by rewrite Map_get_set, bool_decide_eq_false_2 in Hin by done.
Qed.

Lemma dependency_push_native pkgData files dep :
  dependency (push_native pkgData files) dep = dependency pkgData dep.
Proof. done. Qed.

Lemma write_package_data_spec nextSwcPkg pkgDatas name entry :
  NoDup pkgDatas.*1 → (name, entry) ∈ pkgDatas →
  script (linking_step nextSwcPkg pkgDatas) (λ _, True) fails_before_packing
    (write_package_data path_join path_dirname fs_writeFile exec
       nextSwcPkg pkgDatas name entry).
Proof.
  intros Hkeys Hin. unfold write_package_data.
  destruct (link_dependencies_spec pkgDatas (pkgData entry) Hkeys)
    as (Hname & Hfiles & Hnone & Hdeps).
  set (linked := link_dependencies pkgDatas (pkgData entry)) in *.
  assert (∀ dep depEntry,
            Map_get dep pkgDatas = Some depEntry → depends_on (pkgData entry) dep →
            dependency linked dep = Some (packedPkgPath depEntry)) as Hlinked.
  { intros dep depEntry Hget (dependencies & version & Hd & Hv & Hversion).
    rewrite Hdeps, Hget. unfold dependency. rewrite Hd. cbn. rewrite Hv.
    by rewrite bool_decide_eq_false_2. }
  assert (∀ dep, Map_get dep pkgDatas = None →
                 dependency linked dep = dependency (pkgData entry) dep) as Hother.
  { intros dep Hget. by rewrite Hdeps, Hget. }
  clearbody linked.
  eapply script_bind with
    (Q := λ data, pkg_name data = pkg_name linked ∧
                  pkg_dependencies data = pkg_dependencies linked ∧
                  (pkg_files data = pkg_files linked ∨ name = "@next/swc")).
  { case_bool_decide as Hswc; [| by apply script_ret; auto].
    eapply script_bind; [by apply script_does with (Q := λ _, True) |]. intros _ _.
    destruct (exec _); [by apply script_rejects |].
    eapply script_bind; [by apply script_does with (Q := λ _, True) |]. intros _ _.
    apply script_ret. auto. }
  intros data1 (Hname1 & Hdeps1 & Hfiles1).
  assert (∀ dep, dependency data1 dep = dependency linked dep) as Hsame.
  { intros dep. unfold dependency. by rewrite Hdeps1. }
  eapply script_bind with
    (Q := λ data, linked_package_json nextSwcPkg pkgDatas (pkgDataPath entry) data).
  2: { intros data Hdata.
       eapply script_bind; [by apply script_does with (Q := λ _, True) |]. intros _ _.
       destruct (fs_writeFile _ _); [by apply script_rejects | by apply script_ret]. }
  assert (linked_package_json nextSwcPkg pkgDatas (pkgDataPath entry) data1 ∨ name = "next")
    as Hplain.
  { destruct (decide (name = "next")) as [| Hnext]; [by right | left].
    exists name, entry. split; [done |]. split; [done |]. split; [congruence |]. split.
    - intros dep depEntry Hget Hdep _. rewrite Hsame. by apply Hlinked.
    - intros dep Hget _. rewrite Hsame. by apply Hother. }
  case_bool_decide as Hnext.
  2: { apply script_ret. by destruct Hplain. }
  clear Hplain.
  destruct nextSwcPkg as [swc |].
  - destruct (pkg_dependencies data1) as [dependencies |] eqn:Hd;
      [| by apply script_rejects].
    apply script_ret. exists name, entry. split; [done |]. split; [done |].
    split; [cbn; congruence |]. split; [| done].
    intros dep depEntry Hget Hdep Hswc. unfold dependency. cbn.
    rewrite lookup_union_r by (by eapply Hswc).
    rewrite <- (Hlinked dep depEntry Hget Hdep), <- Hsame. unfold dependency.
    by rewrite Hd.
  - destruct (Map_get "@next/swc" pkgDatas) as [swcEntry |] eqn:Hswc.
    + destruct (pkg_dependencies data1) as [dependencies |] eqn:Hd;
        [| by apply script_rejects].
      apply script_ret. exists name, entry. split; [done |]. split; [done |].
      split; [cbn; congruence |]. split; [| done].
      intros dep depEntry Hget Hdep _. unfold dependency. cbn.
      destruct (decide (dep = "@next/swc")) as [-> | Hne].
      * rewrite lookup_insert_eq. congruence.
      * rewrite lookup_insert_ne by done.
        rewrite <- (Hlinked dep depEntry Hget Hdep), <- Hsame. unfold dependency.
        by rewrite Hd.
    + destruct (pkg_files data1) as [files |] eqn:Hf; [| by apply script_rejects].
      apply script_ret. exists name, entry. split; [done |]. split; [done |].
      split; [cbn; congruence |]. split; [| done].
      intros dep depEntry Hget Hdep _. rewrite dependency_push_native, Hsame.
      by apply Hlinked.
Qed.

(** The whole of [linkPackages], once the packages are known. *)
Lemma linkPackages_spec repoDir nextSwcPkg pkgs :
  fs_readdir (path_join [repoDir; "packages"]) = inr pkgs →
  ∃ pkgDatas,
    (∀ found, (getting_package_data path_join fs_existsSync require repoDir pkgs [] []).2
              = inr found → found.1 = pkgDatas) ∧
    script (linking_step nextSwcPkg pkgDatas)
      (λ pkgPaths,
         NoDup pkgDatas.*1 ∧ pkgPaths = prod_map id packedPkgPath <$> pkgDatas ∧
         (∀ name entry, (name, entry) ∈ pkgDatas →
            repository_package path_join fs_existsSync require repoDir pkgs name entry ∧
            ∃ stdout, exec (pack_command entry) = inr stdout))
      (λ _, True)
      (linkPackages path_join path_dirname fs_readdir fs_existsSync require
         fs_writeFile exec repoDir nextSwcPkg).
Proof.
  intros Hreaddir. unfold linkPackages. rewrite Hreaddir.
  pose proof (getting_package_data_spec repoDir pkgs pkgs [] []) as Hfirst.
  destruct (getting_package_data _ _ _ _ _ _ _) as [did [e | [pkgDatas pkgPaths]]].
  { exists []. split; [done |]. destruct Hfirst as [Hdid _]; try done.
    - apply NoDup_nil_2.
    - by intros ? ? ?%elem_of_nil.
    - unfold mbind, Script_bind. cbn. split; [| done].
      eapply Forall_impl; [exact Hdid |]. by intros ? [? ->]. }
  exists pkgDatas. split; [by intros found [= <-] |].
  destruct Hfirst as [Hdid (Hkeys & Hpaths & Hrepo)]; try done.
  { apply NoDup_nil_2. }
  { by intros ? ? ?%elem_of_nil. }
  eapply script_bind with
    (Q := λ found, found = (pkgDatas, pkgPaths)).
  { split; [| done]. cbn. eapply Forall_impl; [exact Hdid |]. by intros ? [? ->]. }
  intros ? ->. cbv beta iota.
  eapply script_bind.
  { apply script_each with (X := λ _, True). intros [name entry] Hin.
    eapply script_exn_mono; [| by apply write_package_data_spec]. done. }
  intros _ _.
  eapply script_bind with
    (Q := λ _, ∀ name entry, (name, entry) ∈ pkgDatas →
                             ∃ stdout, exec (pack_command entry) = inr stdout).
  { unfold packing_packages. split; cbn.
    - apply Forall_fmap, Forall_forall. by intros.
    - case_bool_decide as Hnone; [| done]. intros name entry Hin.
      destruct (exec (pack_command entry)) as [err | stdout] eqn:Hexec; [| by eexists].
      assert (err ∈ @nil ExecError) as Herr; [| by apply elem_of_nil in Herr].
      rewrite <- Hnone. apply list_elem_of_omap. exists (pack_command entry).
      split; [| by rewrite Hexec].
      apply list_elem_of_fmap. by exists (name, entry). }
  intros _ Hpacked. apply script_ret. split; [done |]. split; [done |].
  intros name entry Hin. split; [by apply Hrepo | by eapply Hpacked].
Qed.

(** X24. Every [package.json] that [linkPackages] writes is that of a
    package of the repository in which every dependency on a package
    of the repository points to the tarball of that package (in
    [next], unless [nextSwcPkg] names the dependency), the other
    dependencies being left as they were outside [next]. *)
Theorem linkPackages_links_the_packages repoDir nextSwcPkg pkgs pkgDatas pkgPaths :
  fs_readdir (path_join [repoDir; "packages"]) = inr pkgs →
  (getting_package_data path_join fs_existsSync require repoDir pkgs [] []).2 =
    inr (pkgDatas, pkgPaths) →
  Forall (linking_step nextSwcPkg pkgDatas)
    (linkPackages path_join path_dirname fs_readdir fs_existsSync require
       fs_writeFile exec repoDir nextSwcPkg).1.
Proof.
  intros Hreaddir Hfound.
  destruct (linkPackages_spec repoDir nextSwcPkg pkgs Hreaddir)
    as (pkgDatas' & Hsame & Hlog & _).
  by rewrite <- (Hsame _ Hfound) in Hlog.
Qed.

(** X25. The paths [linkPackages] resolves to are, name by name, the
    tarballs of the packages of the repository, each of which it has
    packed; without a [packages] directory it resolves to no path. *)
Theorem linkPackages_returns_the_tarballs repoDir nextSwcPkg pkgPaths :
  (linkPackages path_join path_dirname fs_readdir fs_existsSync require
     fs_writeFile exec repoDir nextSwcPkg).2 = inr pkgPaths →
  (∃ err, fs_readdir (path_join [repoDir; "packages"]) = inl err ∧
          fs_code err = Some "ENOENT" ∧ pkgPaths = []) ∨
  (∃ pkgs, fs_readdir (path_join [repoDir; "packages"]) = inr pkgs ∧
           NoDup pkgPaths.*1 ∧
           ∀ name path, (name, path) ∈ pkgPaths →
             ∃ entry,
               repository_package path_join fs_existsSync require repoDir pkgs
                 name entry ∧
               path = packedPkgPath entry ∧
               ∃ stdout, exec (pack_command entry) = inr stdout).
Proof.
  intros Hres.
  destruct (fs_readdir (path_join [repoDir; "packages"])) as [err | pkgs] eqn:Hreaddir.
  - left. exists err. split; [done |]. unfold linkPackages in Hres.
    rewrite Hreaddir in Hres. case_bool_decide as Hcode; [| done].
    split; [done |]. by injection Hres as <-.
  - right. exists pkgs. split; [done |].
    destruct (linkPackages_spec repoDir nextSwcPkg pkgs Hreaddir)
      as (pkgDatas & _ & _ & Hr).
    rewrite Hres in Hr. destruct Hr as (Hkeys & -> & Hrepo). split.
    + by rewrite packed_keys.
    + intros name path ([name' entry] & [= -> ->] & Hin)%list_elem_of_fmap.
      exists entry. destruct (Hrepo _ _ Hin) as [? ?]. by repeat split.
Qed.

(** X26. A package [next] that declares no [dependencies] stops
    [linkPackages] when it is to be given the swc package, from
    [nextSwcPkg] or from the repository: the function rejects before
    it packs anything. *)
Theorem linkPackages_needs_dependencies_in_next repoDir nextSwcPkg pkgs pkgDatas
    pkgPaths entry :
  fs_readdir (path_join [repoDir; "packages"]) = inr pkgs →
  (getting_package_data path_join fs_existsSync require repoDir pkgs [] []).2 =
    inr (pkgDatas, pkgPaths) →
  Map_get "next" pkgDatas = Some entry →
  pkg_dependencies (pkgData entry) = None →
  is_Some nextSwcPkg ∨ is_Some (Map_get "@next/swc" pkgDatas) →
  ∃ e, (linkPackages path_join path_dirname fs_readdir fs_existsSync require
          fs_writeFile exec repoDir nextSwcPkg).2 = inl e ∧
       fails_before_packing e.
Proof.
  intros Hreaddir Hfound Hnext Hnone Hswc.
  cut (script (λ _, True) (λ _ : list (string * string), False) fails_before_packing
         (linkPackages path_join path_dirname fs_readdir fs_existsSync require
            fs_writeFile exec repoDir nextSwcPkg)).
  { intros [_ Hr].
    match goal with |- ∃ e, ?o = inl e ∧ _ => destruct o as [e | ?] end;
      [by exists e | done]. }
  unfold linkPackages. rewrite Hreaddir.
  pose proof (getting_package_data_spec repoDir pkgs pkgs [] []) as Hfirst.
  destruct (getting_package_data _ _ _ _ _ _ _) as [did [e | found]]; [done |].
  cbn in Hfound. injection Hfound as ->.
  destruct Hfirst as [_ (Hkeys & _ & _)]; try done.
  { apply NoDup_nil_2. }
  { by intros ? ? ?%elem_of_nil. }
  eapply script_bind with (Q := λ found, found = (pkgDatas, pkgPaths)).
  { split; [by apply Forall_forall | done]. }
  intros ? ->. cbv beta iota.
  eapply script_bind with (Q := λ _, False); [| done].
  assert (∀ y, y ∈ pkgDatas →
               script (λ _, True) (λ _, True) fails_before_packing
                 (let '(name, entry) := y in
                  write_package_data path_join path_dirname fs_writeFile exec
                    nextSwcPkg pkgDatas name entry)) as Hall.
  { intros [name entry'] Hin.
    destruct (write_package_data_spec nextSwcPkg pkgDatas name entry' Hkeys Hin)
      as [_ Hr].
    split; [by apply Forall_forall | done]. }
  eapply script_each_rejects with (x := ("next", entry)); [| exact Hall |].
  { by apply Map_get_elem_of. }
  unfold write_package_data.
  destruct (link_dependencies_spec pkgDatas (pkgData entry) Hkeys) as (_ & _ & Hlinked & _).
  specialize (Hlinked Hnone).
  rewrite (bool_decide_eq_false_2 ("next" = "@next/swc")) by done.
  eapply script_bind; [by apply script_ret with (Q := λ data, pkg_dependencies data = None) |].
  intros data Hdata. rewrite (bool_decide_eq_true_2 ("next" = "next")) by done.
  eapply script_bind with (Q := λ _, False); [| done].
  rewrite Hdata. destruct nextSwcPkg as [swc |]; [by apply script_rejects |].
  destruct Hswc as [[? [=]] | [swc ->]]. by apply script_rejects.
Qed.
End LinkPackagesTheorems.

(** * The properties at work on sample pages *)

Lemma setup_is_laxest_in_production_witness :
  result (setup Sample.post_page "/post" false false false) = inr ().
Proof.
  apply (setup_is_laxest_in_production Sample.post_page "/post" true true false false).
  vm_compute. reflexivity.
Defined.


Lemma render_result_shape_witness :
  ∃ r, result (run (render (Sample.externals "production" None ∅) Sample.gone_page
                      Sample.gone_request Sample.gone_context)) = inr r ∧
       render_outcome (Sample.externals "production" None ∅) Sample.gone_page r.
Proof.
  eexists. split; [vm_compute; reflexivity |].
  apply (render_result_shape (Sample.externals "production" None ∅) Sample.gone_page
           Sample.gone_request Sample.gone_context false).
  vm_compute. reflexivity.
Defined.

Lemma render_is_silent_in_production_witness :
  Forall (λ ev, is_warning ev = false)
    (log (run (render (Sample.externals "production" None ∅) Sample.post_page
                 Sample.post_request Sample.post_context))).
Proof.
  apply (render_is_silent_in_production (Sample.externals "production" None ∅)
           Sample.post_page Sample.post_request Sample.post_context false).
  reflexivity.
Defined.

Lemma auto_export_renders_without_request_witness :
  Forall auto_export_step
    (log (run (render (Sample.externals "production" None ∅) Pages.about_page
                 Pages.about_request Pages.about_context))).
Proof.
  apply (auto_export_renders_without_request (Sample.externals "production" None ∅)
           Pages.about_page Pages.about_request Pages.about_context false).
  vm_compute. reflexivity.
Defined.

Lemma dev_export_forgets_the_query_witness :
  Forall query_forgotten
    (log (run (render (Sample.externals "development" None ∅)
                 (Pages.in_development Pages.about_page)
                 Pages.about_request Pages.about_context))).
Proof.
  apply (dev_export_forgets_the_query (Sample.externals "development" None ∅)
           (Pages.in_development Pages.about_page) Pages.about_request
           Pages.about_context false).
  - reflexivity.
  - left. vm_compute. reflexivity.
Defined.

Lemma fallback_is_rendered_out_of_preview_witness :
  Forall out_of_preview
    (log (run (render Sample.fallback_externals Sample.fallback_page
                 Sample.fallback_request Pages.preview_fallback_context))).
Proof.
  apply (fallback_is_rendered_out_of_preview Sample.fallback_externals Sample.fallback_page
           Sample.fallback_request Pages.preview_fallback_context false).
  reflexivity.
Defined.

Lemma response_sent_by_getInitialProps_ends_render_witness :
  let o := run (render Pages.answering Pages.legacy_page Pages.legacy_request
                  Pages.legacy_context) in
  result o = inr {| response := None;
                    metadata := initial_metadata Pages.answering Pages.legacy_page |} ∧
  sent o = true ∧
  Forall (λ ev, ¬ document_event ev) (log o).
Proof.
  apply (response_sent_by_getInitialProps_ends_render Pages.answering Pages.legacy_page
           Pages.legacy_request Pages.legacy_context false ∅);
    try reflexivity; [done | by left].
Defined.

Lemma null_page_props_fail_off_production_witness :
  result (run (render (Sample.externals "development" None {[ "pageProps" := VNull ]})
                 Pages.legacy_page Pages.legacy_request Pages.legacy_context))
  = inl TypeError.
Proof.
  apply (null_page_props_fail_off_production
           (Sample.externals "development" None {[ "pageProps" := VNull ]})
           Pages.legacy_page Pages.legacy_request Pages.legacy_context false
           {[ "pageProps" := VNull ]});
    try reflexivity.
  discriminate.
Defined.

Lemma redirect_is_answered_without_document_witness :
  ∃ r, result (run (render (Sample.externals "production" None ∅) Pages.moved_page
                      Pages.moved_request Pages.moved_context)) = inr r ∧
       redirect_result (Sample.externals "production" None ∅) r.
Proof.
  eexists. split; [vm_compute; reflexivity |].
  destruct (redirect_is_answered_without_document (Sample.externals "production" None ∅)
              Pages.moved_page Pages.moved_request Pages.moved_context Pages.moved_result)
    with (s := false) as [_ Hr];
    [reflexivity | right; split; [reflexivity | eexists; split; reflexivity]
    | reflexivity |].
  destruct (Hr _ eq_refl) as [_ [[_ Hnf] | Hredirect]]; [discriminate Hnf | exact Hredirect].
Defined.

(** [Repo.semver_gt] orders the two releases of the sample repository;
    the canary is no candidate. *)
Lemma Repo_orders_candidates :
  orders_candidates Repo.semver_gt Repo.gt "canary"
    (tags_of Repo.trim
       ("v13.4.0" +:+ newline +:+ "v13.4.1" +:+ newline +:+ "v13.4.2-canary.0")).
Proof.
  assert (∀ a, a ∈ tags_of Repo.trim
                     ("v13.4.0" +:+ newline +:+ "v13.4.1" +:+ newline +:+
                      "v13.4.2-canary.0") →
               stable_candidate "canary" a = true →
               a = "v13.4.0" ∨ a = "v13.4.1") as Hcandidates.
  { intros a Ha Hc. vm_compute in Ha.
    apply elem_of_cons in Ha as [-> | Ha]; [by left |].
    apply elem_of_cons in Ha as [-> | Ha]; [by right |].
    apply elem_of_cons in Ha as [-> | Ha]; [discriminate Hc |].
    by apply elem_of_nil in Ha. }
  split; [| split].
  - intros a b Ha Hb Hca Hcb.
    by destruct (Hcandidates a Ha Hca) as [-> | ->],
                (Hcandidates b Hb Hcb) as [-> | ->].
  - intros a Ha Hca. by destruct (Hcandidates a Ha Hca) as [-> | ->].
  - intros a b c Ha Hb Hc Hca Hcb Hcc.
    by destruct (Hcandidates a Ha Hca) as [-> | ->],
                (Hcandidates b Hb Hcb) as [-> | ->],
                (Hcandidates c Hc Hcc) as [-> | ->].
Qed.

Lemma getLastStable_answers_a_stable_tag_witness :
  ∃ stdout, Repo.exec "cd next.js && git tag -l" = inr stdout ∧
            "v13.4.0" ∈ tags_of Repo.trim stdout ∧
            includes "v13.4.0" "-" = false ∧ includes "v13.4.1" "v13.4.0" = false ∧
            "v13.4.0" ≠ "".
Proof.
  apply (getLastStable_answers_a_stable_tag Repo.exec Repo.trim Repo.semver_gt
           "next.js" "v13.4.1" "v13.4.0").
  vm_compute. reflexivity.
Defined.

Lemma getLastStable_answers_the_newest_witness :
  getLastStable Repo.exec Repo.trim Repo.semver_gt "next.js" "canary"
  = inr (Some "v13.4.1") ∧
  newest_of Repo.gt "canary"
    (tags_of Repo.trim
       ("v13.4.0" +:+ newline +:+ "v13.4.1" +:+ newline +:+ "v13.4.2-canary.0"))
    (Some "v13.4.1").
Proof.
  destruct (getLastStable_answers_the_newest Repo.exec Repo.trim Repo.semver_gt Repo.gt
              "next.js" "canary" _ eq_refl Repo_orders_candidates)
    as (answer & Hanswer & Hnewest).
  assert (answer = Some "v13.4.1") as ->; [| by split].
  vm_compute in Hanswer. congruence.
Defined.

Lemma server_side_props_override_app_props_witness :
  let E := Sample.externals "production" None ∅ in
  ∃ r, result (run (render E Sample.profile_page Sample.profile_request
                      Sample.profile_data_context)) = inr r ∧
       ∃ p, pageData (metadata r) = Some p ∧
            p !! "pageProps" =
              Some (VObj ({[ "user" := VStr "ada" ]} ∪ own_props (get ∅ "pageProps"))) ∧
            (isDataReq (context_renderOpts (handler Sample.profile_data_context)) =
               Some true →
             response r = Some (JSON_stringify E p)).
Proof.
  intros E. eexists. split; [vm_compute; reflexivity |].
  destruct (server_side_props_override_app_props E Sample.profile_page
              Sample.profile_request Sample.profile_data_context
              (λ _, Reply (inr {[ "props" := VObj {[ "user" := VStr "ada" ]} ]}) false)
              {[ "props" := VObj {[ "user" := VStr "ada" ]} ]}
              {[ "user" := VStr "ada" ]} ∅)
    with (s := false) as [_ Hr]; try reflexivity; [done |].
  apply Hr. vm_compute. reflexivity.
Defined.

Lemma linkPackages_links_the_packages_witness :
  Forall
    (linking_step None
       [("next", entry_of Packages.path_join "repo" "next" Packages.next_json);
        ("@next/env", entry_of Packages.path_join "repo" "next-env" Packages.env_json)])
    (linkPackages Packages.path_join Packages.path_dirname Packages.fs_readdir
       Packages.fs_existsSync Packages.require Packages.fs_writeFile Packages.exec
       "repo" None).1.
Proof.
  apply (linkPackages_links_the_packages Packages.path_join Packages.path_dirname
           Packages.fs_readdir Packages.fs_existsSync Packages.require
           Packages.fs_writeFile Packages.exec "repo" None ["next"; "next-env"]
           _ [("next", "repo/packages/next/next-packed.tgz");
              ("@next/env", "repo/packages/next-env/next-env-packed.tgz")]).
  - reflexivity.
  - vm_compute. reflexivity.
Defined.

Lemma linkPackages_returns_the_tarballs_witness :
  (∃ err, Packages.fs_readdir (Packages.path_join ["repo"; "packages"]) = inl err ∧
          fs_code err = Some "ENOENT" ∧
          [("next", "repo/packages/next/next-packed.tgz");
           ("@next/env", "repo/packages/next-env/next-env-packed.tgz")] = []) ∨
  (∃ pkgs, Packages.fs_readdir (Packages.path_join ["repo"; "packages"]) = inr pkgs ∧
           NoDup [("next", "repo/packages/next/next-packed.tgz");
                  ("@next/env", "repo/packages/next-env/next-env-packed.tgz")].*1 ∧
           ∀ name path,
             (name, path) ∈ [("next", "repo/packages/next/next-packed.tgz");
                             ("@next/env", "repo/packages/next-env/next-env-packed.tgz")] →
             ∃ entry,
               repository_package Packages.path_join Packages.fs_existsSync
                 Packages.require "repo" pkgs name entry ∧
               path = packedPkgPath entry ∧
               ∃ stdout, Packages.exec (pack_command entry) = inr stdout).
Proof.
  apply (linkPackages_returns_the_tarballs Packages.path_join Packages.path_dirname
           Packages.fs_readdir Packages.fs_existsSync Packages.require
           Packages.fs_writeFile Packages.exec "repo" None).
  vm_compute. reflexivity.
Defined.

Lemma linkPackages_needs_dependencies_in_next_witness :
  ∃ e, (linkPackages Packages.path_join Packages.path_dirname Packages.fs_readdir
          Packages.fs_existsSync Packages.bare_require Packages.fs_writeFile
          Packages.exec "repo" (Some {[ "@next/swc" := "swc.tgz" ]})).2 = inl e ∧
       fails_before_packing e.
Proof.
  eapply (linkPackages_needs_dependencies_in_next Packages.path_join
            Packages.path_dirname Packages.fs_readdir Packages.fs_existsSync
            Packages.bare_require Packages.fs_writeFile Packages.exec "repo"
            (Some {[ "@next/swc" := "swc.tgz" ]}) ["next"; "next-env"]).
  - reflexivity.
  - vm_compute. reflexivity.
  - vm_compute. reflexivity.
  - reflexivity.
  - left. by eexists.
Defined.
